(** * CIUSuite2: replicate averaging, raw processing pipeline and
      analysis-object exports

    A shallow embedding of [CIU2_Main.py] (the functions
    [process_raw_obj], [average_ciu], [save_analysis_obj]) and of
    [CIU_analysis_obj.py] (the class [CIUAnalysisObj]).

    Conventions of the embedding:
    - numpy [float64] cells are IEEE-754 binary64 values, computed with the
      executable specification of the standard library ([SpecFloat]);
    - a 2-D array is the list of its rows;
    - a Python exception is the [Raise] outcome of a computation;
    - the file system, the console and the calls into [Raw_Processing]
      are fields of an explicit [world] threaded through every effectful
      function; writing a file always succeeds;
    - [os.path] is the POSIX flavour;
    - the functions of [Raw_Processing], which is not among the two files,
      are parameters of the pipeline. *)

From Stdlib Require Import ZArith List String Ascii Bool Lia.
From Stdlib Require Import SpecFloat.
From stdpp Require Import gmap strings list.
Import ListNotations.

Local Open Scope string_scope.
Local Open Scope list_scope.
Local Open Scope Z_scope.

(* ===================================================================== *)
(** ** binary64 arithmetic *)
(* ===================================================================== *)

Module F64.

Definition prec : Z := 53.
Definition emax : Z := 1024.

Definition float : Type := spec_float.

Definition zero : float := S754_zero false.
Definition nan : float := S754_nan.

Definition add : float -> float -> float := SFadd prec emax.
Definition div : float -> float -> float := SFdiv prec emax.
Definition mul : float -> float -> float := SFmul prec emax.

(** [==] of Python floats: [-0.0 == 0.0], and [nan] equals nothing. *)
Definition eqb : float -> float -> bool := SFeqb.
Definition ltb : float -> float -> bool := SFltb.

(** Conversion of a Python integer (a count, a literal) to [float64]. *)
Definition of_Z (n : Z) : float := binary_normalize prec emax n 0 false.
Definition of_nat (n : nat) : float := of_Z (Z.of_nat n).

(** A zero, or a finite float64 value (canonical mantissa) small enough
    for its double to stay finite: magnitude below 2^1023. *)
Definition halvable (x : float) : bool :=
  match x with
  | S754_zero _ => true
  | S754_finite _ m e => bounded prec emax m e && (e <? emax - prec)
  | _ => false
  end.

End F64.

Abbreviation float := F64.float.

(** Some literals, as [float.hex()] prints them. *)
Definition f0_1 : float := S754_finite false 7205759403792794 (-56). (* 0.1 *)
Definition f0_5 : float := S754_finite false 4503599627370496 (-53). (* 0.5 *)
Definition f1 : float := S754_finite false 4503599627370496 (-52).   (* 1.0 *)
Definition f2 : float := S754_finite false 4503599627370496 (-51).   (* 2.0 *)
Definition f3 : float := S754_finite false 6755399441055744 (-51).   (* 3.0 *)
Definition f4 : float := S754_finite false 4503599627370496 (-50).   (* 4.0 *)
Definition f5 : float := S754_finite false 5629499534213120 (-50).   (* 5.0 *)
Definition f10 : float := S754_finite false 5629499534213120 (-49).  (* 10.0 *)

(* ===================================================================== *)
(** ** Arrays *)
(* ===================================================================== *)

Abbreviation vector := (list float).
Abbreviation matrix := (list (list float)).

(** The shape of a 2-D array given by rows: the length of every row. *)
Definition shape (m : matrix) : list nat := map (@length float) m.

Definition cell (m : list (list float)) (i j : nat) : option float :=
  match m !! i with
  | Some row => row !! j
  | None => None
  end.

Definition vector_eqb (u v : vector) : bool :=
  (length u =? length v)%nat && forallb (fun p => F64.eqb (fst p) (snd p)) (combine u v).

(** [numpy.array_equal] on 2-D arrays: same shape and [==] on every cell. *)
Fixpoint matrix_eqb (a b : matrix) : bool :=
  match a, b with
  | [], [] => true
  | r :: a', s :: b' => vector_eqb r s && matrix_eqb a' b'
  | _, _ => false
  end.

(** numpy arrays of rank 0, 1 and 2. *)
Inductive ndarray : Type :=
| Nd0 (x : float)
| Nd1 (v : vector)
| Nd2 (m : matrix).

(** Column [j] of a matrix (rows too short are skipped). *)
Definition column (m : matrix) (j : nat) : vector :=
  flat_map (fun row => match nth_error row j with Some x => [x] | None => [] end) m.

(** [numpy.swapaxes(m, 0, 1)] of a 2-D array: the list of its columns.
    The column count is read off the first row. *)
Definition swapaxes01 (m : matrix) : matrix :=
  match m with
  | [] => []
  | row :: _ => map (column m) (seq 0 (length row))
  end.

(* ===================================================================== *)
(** ** Python strings and [os.path] *)
(* ===================================================================== *)

Definition chars (s : string) : list ascii := list_ascii_of_string s.
Definition str (l : list ascii) : string := string_of_list_ascii l.

Definition char_in (c : ascii) (cs : list ascii) : bool :=
  existsb (Ascii.eqb c) cs.

(** Drop the longest prefix made of characters of [cs]. *)
Fixpoint lstrip_chars (cs : list ascii) (l : list ascii) : list ascii :=
  match l with
  | [] => []
  | c :: l' => if char_in c cs then lstrip_chars cs l' else l
  end.

(** [s.rstrip(cs)]: strip every trailing character that occurs in [cs]. *)
Definition rstrip (s cs : string) : string :=
  str (rev (lstrip_chars (chars cs) (rev (chars s)))).

Fixpoint list_prefixb (p l : list ascii) : bool :=
  match p, l with
  | [], _ => true
  | a :: p', b :: l' => Ascii.eqb a b && list_prefixb p' l'
  | _ :: _, [] => false
  end.

Definition startswith (s p : string) : bool := list_prefixb (chars p) (chars s).
Definition endswith (s p : string) : bool := list_prefixb (rev (chars p)) (rev (chars s)).

(** Removal of one exact suffix, the operation the specification asks for
    in place of [rstrip]. *)
Definition remove_suffix (s suf : string) : string :=
  if endswith s suf
  then str (firstn (length (chars s) - length (chars suf))%nat (chars s))
  else s.

Definition slash : ascii := "/"%char.

(** [posixpath.join(a, b)]. *)
Definition os_path_join (a b : string) : string :=
  if startswith b "/" then b
  else if (String.eqb a "") || endswith a "/" then (a ++ b)%string
  else (a ++ "/" ++ b)%string.

(** Drop characters up to (not including) the first slash. *)
Fixpoint drop_to_slash (l : list ascii) : list ascii :=
  match l with
  | [] => []
  | c :: l' => if Ascii.eqb c slash then l else drop_to_slash l'
  end.

(** [posixpath.dirname(p)]: everything up to the last slash, without the
    trailing slashes unless the head consists of slashes only. *)
Definition os_path_dirname (p : string) : string :=
  let head := rev (drop_to_slash (rev (chars p))) in
  if forallb (Ascii.eqb slash) head then str head
  else str (rev (lstrip_chars [slash] (rev head))).

(* ===================================================================== *)
(** ** Data model *)
(* ===================================================================== *)

(** The (DT axis, CV axis) pair: [axes[0]] is drift time, [axes[1]] is
    collision voltage. *)
Abbreviation axes_t := (list float * list float)%type.

(** [CIURaw], as far as the two files read it. *)
Record CIURaw : Type := {
  rawdata : matrix;
  dt_axis : vector;
  cv_axis : vector;
  filename : string;
  filepath : string
}.

(** [CIU_Params.Parameters], as far as the two files read it. *)
Record Parameters : Type := {
  interpolation_bins : option Z;
  smoothing_window : option Z;
  smoothing_iterations : Z;
  cropping_window_values : option (list float);
  save_output_csv : bool;
  combine_output_file : bool
}.

(** [CIUAnalysisObj].  The twelve [gauss_*] attributes are set by
    [__init__]; [params], [raw_obj_list] and [filename] are attached
    later by the functions of [CIU2_Main.py] and are absent ([None] here)
    until then.  The attribute [filename] is the field [obj_filename]. *)
Record CIUAnalysisObj : Type := {
  raw_obj : CIURaw;
  ciu_data : matrix;
  axes : axes_t;
  gauss_params : option (list (list float));
  gauss_baselines : option (list float);
  gauss_amplitudes : option (list float);
  gauss_centroids : option (list float);
  gauss_widths : option (list float);
  gauss_fwhms : option (list float);
  gauss_adj_r2s : option (list float);
  gauss_fits : option (list (list float));
  gauss_covariances : option (list matrix);
  gauss_r2s : option (list float);
  gauss_resolutions : option (list float);
  gauss_fit_stats : option (list (list float));
  params : option Parameters;
  raw_obj_list : option (list CIURaw);
  obj_filename : option string
}.

(** Attribute assignments [self.x = v]. *)
Definition set_gauss_params (o : CIUAnalysisObj) v : CIUAnalysisObj :=
  {| raw_obj := raw_obj o; ciu_data := ciu_data o; axes := axes o;
     gauss_params := v; gauss_baselines := gauss_baselines o;
     gauss_amplitudes := gauss_amplitudes o; gauss_centroids := gauss_centroids o;
     gauss_widths := gauss_widths o; gauss_fwhms := gauss_fwhms o;
     gauss_adj_r2s := gauss_adj_r2s o; gauss_fits := gauss_fits o;
     gauss_covariances := gauss_covariances o; gauss_r2s := gauss_r2s o;
     gauss_resolutions := gauss_resolutions o; gauss_fit_stats := gauss_fit_stats o;
     params := params o; raw_obj_list := raw_obj_list o; obj_filename := obj_filename o |}.

Definition set_gauss_baselines (o : CIUAnalysisObj) v : CIUAnalysisObj :=
  {| raw_obj := raw_obj o; ciu_data := ciu_data o; axes := axes o;
     gauss_params := gauss_params o; gauss_baselines := v;
     gauss_amplitudes := gauss_amplitudes o; gauss_centroids := gauss_centroids o;
     gauss_widths := gauss_widths o; gauss_fwhms := gauss_fwhms o;
     gauss_adj_r2s := gauss_adj_r2s o; gauss_fits := gauss_fits o;
     gauss_covariances := gauss_covariances o; gauss_r2s := gauss_r2s o;
     gauss_resolutions := gauss_resolutions o; gauss_fit_stats := gauss_fit_stats o;
     params := params o; raw_obj_list := raw_obj_list o; obj_filename := obj_filename o |}.

Definition set_gauss_amplitudes (o : CIUAnalysisObj) v : CIUAnalysisObj :=
  {| raw_obj := raw_obj o; ciu_data := ciu_data o; axes := axes o;
     gauss_params := gauss_params o; gauss_baselines := gauss_baselines o;
     gauss_amplitudes := v; gauss_centroids := gauss_centroids o;
     gauss_widths := gauss_widths o; gauss_fwhms := gauss_fwhms o;
     gauss_adj_r2s := gauss_adj_r2s o; gauss_fits := gauss_fits o;
     gauss_covariances := gauss_covariances o; gauss_r2s := gauss_r2s o;
     gauss_resolutions := gauss_resolutions o; gauss_fit_stats := gauss_fit_stats o;
     params := params o; raw_obj_list := raw_obj_list o; obj_filename := obj_filename o |}.

Definition set_gauss_centroids (o : CIUAnalysisObj) v : CIUAnalysisObj :=
  {| raw_obj := raw_obj o; ciu_data := ciu_data o; axes := axes o;
     gauss_params := gauss_params o; gauss_baselines := gauss_baselines o;
     gauss_amplitudes := gauss_amplitudes o; gauss_centroids := v;
     gauss_widths := gauss_widths o; gauss_fwhms := gauss_fwhms o;
     gauss_adj_r2s := gauss_adj_r2s o; gauss_fits := gauss_fits o;
     gauss_covariances := gauss_covariances o; gauss_r2s := gauss_r2s o;
     gauss_resolutions := gauss_resolutions o; gauss_fit_stats := gauss_fit_stats o;
     params := params o; raw_obj_list := raw_obj_list o; obj_filename := obj_filename o |}.

Definition set_gauss_widths (o : CIUAnalysisObj) v : CIUAnalysisObj :=
  {| raw_obj := raw_obj o; ciu_data := ciu_data o; axes := axes o;
     gauss_params := gauss_params o; gauss_baselines := gauss_baselines o;
     gauss_amplitudes := gauss_amplitudes o; gauss_centroids := gauss_centroids o;
     gauss_widths := v; gauss_fwhms := gauss_fwhms o;
     gauss_adj_r2s := gauss_adj_r2s o; gauss_fits := gauss_fits o;
     gauss_covariances := gauss_covariances o; gauss_r2s := gauss_r2s o;
     gauss_resolutions := gauss_resolutions o; gauss_fit_stats := gauss_fit_stats o;
     params := params o; raw_obj_list := raw_obj_list o; obj_filename := obj_filename o |}.

Definition set_params (o : CIUAnalysisObj) v : CIUAnalysisObj :=
  {| raw_obj := raw_obj o; ciu_data := ciu_data o; axes := axes o;
     gauss_params := gauss_params o; gauss_baselines := gauss_baselines o;
     gauss_amplitudes := gauss_amplitudes o; gauss_centroids := gauss_centroids o;
     gauss_widths := gauss_widths o; gauss_fwhms := gauss_fwhms o;
     gauss_adj_r2s := gauss_adj_r2s o; gauss_fits := gauss_fits o;
     gauss_covariances := gauss_covariances o; gauss_r2s := gauss_r2s o;
     gauss_resolutions := gauss_resolutions o; gauss_fit_stats := gauss_fit_stats o;
     params := v; raw_obj_list := raw_obj_list o; obj_filename := obj_filename o |}.

Definition set_raw_obj_list (o : CIUAnalysisObj) v : CIUAnalysisObj :=
  {| raw_obj := raw_obj o; ciu_data := ciu_data o; axes := axes o;
     gauss_params := gauss_params o; gauss_baselines := gauss_baselines o;
     gauss_amplitudes := gauss_amplitudes o; gauss_centroids := gauss_centroids o;
     gauss_widths := gauss_widths o; gauss_fwhms := gauss_fwhms o;
     gauss_adj_r2s := gauss_adj_r2s o; gauss_fits := gauss_fits o;
     gauss_covariances := gauss_covariances o; gauss_r2s := gauss_r2s o;
     gauss_resolutions := gauss_resolutions o; gauss_fit_stats := gauss_fit_stats o;
     params := params o; raw_obj_list := v; obj_filename := obj_filename o |}.

Definition set_filename (o : CIUAnalysisObj) v : CIUAnalysisObj :=
  {| raw_obj := raw_obj o; ciu_data := ciu_data o; axes := axes o;
     gauss_params := gauss_params o; gauss_baselines := gauss_baselines o;
     gauss_amplitudes := gauss_amplitudes o; gauss_centroids := gauss_centroids o;
     gauss_widths := gauss_widths o; gauss_fwhms := gauss_fwhms o;
     gauss_adj_r2s := gauss_adj_r2s o; gauss_fits := gauss_fits o;
     gauss_covariances := gauss_covariances o; gauss_r2s := gauss_r2s o;
     gauss_resolutions := gauss_resolutions o; gauss_fit_stats := gauss_fit_stats o;
     params := params o; raw_obj_list := raw_obj_list o; obj_filename := v |}.

(* ===================================================================== *)
(** ** Exceptions, the world, and the monad of effectful functions *)
(* ===================================================================== *)

(** Python's built-in exceptions that the modelled code can raise, and the
    error taxonomy of the design document. *)
Inductive exn : Type :=
| IndexError
| ValueError
| AttributeError
| InputFormatError
| AxisMismatchError
| ConfigurationError
| FitConvergenceError.

(** What a call does: it returns a value or raises.  [Diverged] is the
    answer of a loop of the model that used up its fuel; the loops below
    are given enough fuel, so it never shows (see [smooth_while_fuel]). *)
Inductive outcome (A : Type) : Type :=
| Ok (a : A)
| Raise (e : exn)
| Diverged.
Arguments Ok {A} a.
Arguments Raise {A} e.
Arguments Diverged {A}.

(** One page of the Gaussian-fit PDF: the scatter of a column, the dashed
    fitted curve, and the title. *)
Record pdf_page : Type := {
  scatter_x : vector; scatter_y : vector;
  plot_x : vector; plot_y : vector;
  title : float
}.

Inductive file_content : Type :=
| PickleFile (o : CIUAnalysisObj)
| NpyParams (a : option (list (list float)))
| NpyCovariances (a : option (list matrix))
| NpyStats (a : option (list (list float)))
| CsvFile (header : string) (rows : list (list float))
| PdfFile (pages : list pdf_page) (closed : bool)
| EmptyFile.

(** A call into [Raw_Processing], with its arguments. *)
Inductive stage_call : Type :=
| CallNormalize (data : matrix)
| CallInterpolate (data : matrix) (ax : axes_t) (bins : Z)
| CallSmooth (data : matrix) (window : Z)
| CallCrop (data : matrix) (ax : axes_t) (values : list float).

Record world : Type := {
  files : gmap string file_content;
  stdout : list string;
  calls : list stage_call
}.

Definition M (A : Type) : Type := world -> world * outcome A.

Definition ret {A} (a : A) : M A := fun w => (w, Ok a).
Definition raise {A} (e : exn) : M A := fun w => (w, Raise e).
Definition bind {A B} (c : M A) (k : A -> M B) : M B :=
  fun w => match c w with
           | (w', Ok a) => k a w'
           | (w', Raise e) => (w', Raise e)
           | (w', Diverged) => (w', Diverged)
           end.
Definition lift {A} (r : outcome A) : M A := fun w => (w, r).

Declare Scope py_scope.
Delimit Scope py_scope with py.
Notation "x <- c ;; k" := (bind c (fun x => k))
  (at level 100, c at next level, right associativity) : py_scope.
Notation "c ;;; k" := (bind c (fun _ => k))
  (at level 100, right associativity) : py_scope.
Local Open Scope py_scope.

Definition print (line : string) : M unit :=
  fun w => ({| files := files w; stdout := stdout w ++ [line]; calls := calls w |}, Ok tt).

(** [open(path, 'wb')] followed by a write, and the writes of [np.save]
    and [np.savetxt]: the file at [path] is created or replaced. *)
Definition write_file (path : string) (c : file_content) : M unit :=
  fun w => ({| files := <[path := c]> (files w); stdout := stdout w; calls := calls w |}, Ok tt).

Definition log_call (c : stage_call) : M unit :=
  fun w => ({| files := files w; stdout := stdout w; calls := calls w ++ [c] |}, Ok tt).

Definition empty_world : world := {| files := ∅; stdout := []; calls := [] |}.

(** Binding on plain outcomes, for code without effects on the world. *)
Definition obind {A B} (r : outcome A) (k : A -> outcome B) : outcome B :=
  match r with
  | Ok a => k a
  | Raise e => Raise e
  | Diverged => Diverged
  end.

(** [l[i]] for a non-negative index. *)
Definition getitem {A} (l : list A) (i : nat) : outcome A :=
  match nth_error l i with
  | Some a => Ok a
  | None => Raise IndexError
  end.

(* ===================================================================== *)
(** ** [CIU_analysis_obj.py]: class [CIUAnalysisObj] *)
(* ===================================================================== *)

(** The comprehension [[x[i] for x in gauss_params]]. *)
Fixpoint items_at (i : nat) (gauss_params : list (list float)) : outcome (list float) :=
  match gauss_params with
  | [] => Ok []
  | x :: rest =>
      obind (getitem x i) (fun v =>
      obind (items_at i rest) (fun vs => Ok (v :: vs)))
  end.

(** [init_gauss_lists(self, gauss_params)]: the object after the call and
    whether the call returned or raised.  The four comprehensions run in
    order, so an exception leaves the earlier assignments in place. *)
Definition init_gauss_lists (self : CIUAnalysisObj) (gp : list (list float))
  : CIUAnalysisObj * outcome unit :=
  let self := set_gauss_params self (Some gp) in
  match items_at 0 gp with
  | Ok baselines =>
    let self := set_gauss_baselines self (Some baselines) in
    match items_at 1 gp with
    | Ok amplitudes =>
      let self := set_gauss_amplitudes self (Some amplitudes) in
      match items_at 2 gp with
      | Ok centroids =>
        let self := set_gauss_centroids self (Some centroids) in
        match items_at 3 gp with
        | Ok widths => (set_gauss_widths self (Some widths), Ok tt)
        | Raise e => (self, Raise e)
        | Diverged => (self, Diverged)
        end
      | Raise e => (self, Raise e)
      | Diverged => (self, Diverged)
      end
    | Raise e => (self, Raise e)
    | Diverged => (self, Diverged)
    end
  | Raise e => (self, Raise e)
  | Diverged => (self, Diverged)
  end.

(** [CIUAnalysisObj(ciu_raw_obj, ciu_data, axes, gauss_params=None)]. *)
Definition new_CIUAnalysisObj (ciu_raw_obj : CIURaw) (data : matrix) (ax : axes_t)
    (gp : option (list (list float))) : outcome CIUAnalysisObj :=
  let self :=
    {| raw_obj := ciu_raw_obj; ciu_data := data; axes := ax;
       gauss_params := None; gauss_baselines := None; gauss_amplitudes := None;
       gauss_centroids := None; gauss_widths := None; gauss_fwhms := None;
       gauss_adj_r2s := None; gauss_fits := None; gauss_covariances := None;
       gauss_r2s := None; gauss_resolutions := None; gauss_fit_stats := None;
       params := None; raw_obj_list := None; obj_filename := None |} in
  match gp with
  | None => Ok self
  | Some g =>
      match init_gauss_lists self g with
      | (self', Ok _) => Ok self'
      | (_, Raise e) => Raise e
      | (_, Diverged) => Diverged
      end
  end.

(** [pdf_fig.savefig()]: one more page in the PDF being written. *)
Definition pdf_savefig (path : string) (page : pdf_page) : M unit :=
  fun w =>
    match files w !! path with
    | Some (PdfFile pages closed) => write_file path (PdfFile (pages ++ [page]) closed) w
    | _ => write_file path (PdfFile [page] false) w
    end.

(** [pdf_fig.close()]. *)
Definition pdf_close (path : string) : M unit :=
  fun w =>
    match files w !! path with
    | Some (PdfFile pages _) => write_file path (PdfFile pages true) w
    | _ => write_file path (PdfFile [] true) w
    end.

(** The body of [for k in range(len(self.axes[1]))], over the remaining
    values of [k].  [plt.scatter] and [plt.plot] raise [ValueError] when
    their two arguments differ in length. *)
Fixpoint gaussfit_pages (self : CIUAnalysisObj) (fits intarray : list (list float))
    (path : string) (ks : list nat) : M unit :=
  match ks with
  | [] => ret tt
  | k :: ks' =>
      y <- lift (getitem intarray k) ;;
      (if (length (fst (axes self)) =? length y)%nat then ret tt else raise ValueError) ;;;
      fit <- lift (getitem fits k) ;;
      (if (length (fst (axes self)) =? length fit)%nat then ret tt else raise ValueError) ;;;
      t <- lift (getitem (snd (axes self)) k) ;;
      pdf_savefig path {| scatter_x := fst (axes self); scatter_y := y;
                          plot_x := fst (axes self); plot_y := fit; title := t |} ;;;
      gaussfit_pages self fits intarray path ks'
  end.

(** [save_gaussfits_pdf(self, outputpath)]. *)
Definition save_gaussfits_pdf (self : CIUAnalysisObj) (outputpath : string) : M unit :=
  match gauss_fits self with
  | None => print "No gaussian fit data in this object yet, returning"
  | Some fits =>
      let name := ("Gausfitdata_" ++ filename (raw_obj self) ++ "_.pdf")%string in
      print ("Saving " ++ name ++ " .....")%string ;;;
      let path := os_path_join outputpath name in
      write_file path (PdfFile [] false) ;;;
      let intarray := swapaxes01 (ciu_data self) in
      gaussfit_pages self fits intarray path (seq 0 (length (snd (axes self)))) ;;;
      pdf_close path ;;;
      print ("Saving " ++ name ++ " DONE")%string
  end.

(** [np.array(x, dtype='float')] of a sequence of numbers, or of [None]. *)
Definition np_array_float (x : option (list float)) : ndarray :=
  match x with
  | Some v => Nd1 v
  | None => Nd0 F64.nan
  end.

(** [np.transpose]: reverses the axes; a no-op below rank 2. *)
Definition np_transpose (a : ndarray) : ndarray :=
  match a with
  | Nd2 m => Nd2 (swapaxes01 m)
  | _ => a
  end.

(** The rows [np.savetxt] writes: a 1-D array is written one value per
    line, a 2-D array one row per line, and rank 0 is refused. *)
Definition savetxt_rows (a : ndarray) : outcome (list (list float)) :=
  match a with
  | Nd0 _ => Raise ValueError
  | Nd1 v => Ok (map (fun x => [x]) v)
  | Nd2 m => Ok m
  end.

Definition np_savetxt (path : string) (a : ndarray) (header : string) : M unit :=
  rows <- lift (savetxt_rows a) ;;
  write_file path (CsvFile header rows).

(** Whether a sequence of sequences of numbers is rectangular: every
    inner sequence as long as the first. *)
Definition rectangular (a : list (list float)) : bool :=
  match a with
  | [] => true
  | r :: rest => forallb (fun r' => (length r' =? length r)%nat) rest
  end.

(** The same one level up: rectangular matrices of one common shape. *)
Definition rectangular3 (a : list matrix) : bool :=
  forallb rectangular a &&
  match a with
  | [] => true
  | m :: rest => forallb (fun m' => bool_decide (shape m' = shape m)) rest
  end.

(** What [np.asanyarray] accepts among the values [np.save] is given
    here: [None] and rectangular nested sequences.  A ragged sequence is
    refused with [ValueError] (inhomogeneous shape). *)
Definition asanyarray_ok (c : file_content) : bool :=
  match c with
  | NpyParams (Some a) => rectangular a
  | NpyCovariances (Some a) => rectangular3 a
  | NpyStats (Some a) => rectangular a
  | _ => true
  end.

(** [np.save(path, arr)]: the file is opened for writing, then the value
    is converted to an array and written.  When the conversion is
    refused the file stays behind, empty. *)
Definition np_save (path : string) (c : file_content) : M unit :=
  if asanyarray_ok c then write_file path c
  else (write_file path EmptyFile ;;; raise ValueError).

Definition gauss_csv_header : string :=
  "TrapCV, ATD_centroid, ATD_width, ATD_FWHM, ATD_Resolution, R^2, Adj_R^2".

(** [save_gauss_params(self, outputpath)]. *)
Definition save_gauss_params (self : CIUAnalysisObj) (outputpath : string) : M unit :=
  let outarray : list (option (list float)) :=
    [Some (fst (axes self)); gauss_centroids self; gauss_widths self; gauss_fwhms self;
     gauss_resolutions self; gauss_r2s self; gauss_adj_r2s self] in
  outarray_0 <- lift (getitem outarray 0) ;;
  let outarray := np_array_float outarray_0 in
  let outarray2 := np_transpose outarray in
  let base := filename (raw_obj self) in
  print "Saving files ..." ;;;
  np_save (os_path_join outputpath (base ++ "_curvefit_popt.npy")%string)
          (NpyParams (gauss_params self)) ;;;
  print (base ++ "_curvefit_popt.npy")%string ;;;
  np_save (os_path_join outputpath (base ++ "_curvefit_pcov.npy")%string)
          (NpyCovariances (gauss_covariances self)) ;;;
  print (base ++ "_curvefit_pcov.npy")%string ;;;
  np_save (os_path_join outputpath (base ++ "_curvefit_stats.npy")%string)
          (NpyStats (gauss_fit_stats self)) ;;;
  print (base ++ "_curvefit_stats.npy")%string ;;;
  np_savetxt (os_path_join outputpath (base ++ "_outarraygaussfit.csv")%string)
             outarray2 gauss_csv_header.

(* ===================================================================== *)
(** ** [CIU2_Main.py] *)
(* ===================================================================== *)

(** [save_analysis_obj(analysis_obj, filename_append='', outputdir=None)]:
    the object with its [filename] attribute set, and the path returned. *)
Definition save_analysis_obj (analysis_obj : CIUAnalysisObj) (filename_append : string)
    (outputdir : option string) : M (CIUAnalysisObj * string) :=
  let file_extension := ".ciu" in
  let picklefile :=
    match outputdir with
    | Some dir =>
        os_path_join dir
          (rstrip (filename (raw_obj analysis_obj)) "_raw.csv"
           ++ filename_append ++ file_extension)%string
    | None =>
        os_path_join (os_path_dirname (filepath (raw_obj analysis_obj)))
          (rstrip (filename (raw_obj analysis_obj)) "_raw.csv"
           ++ filename_append ++ file_extension)%string
    end in
  let analysis_obj := set_filename analysis_obj (Some picklefile) in
  write_file picklefile (PickleFile analysis_obj) ;;;
  ret (analysis_obj, picklefile).

(** Elementwise sum of two arrays of one shape. *)
Definition madd (a b : matrix) : matrix := zip_with (zip_with F64.add) a b.

Definition zeros_like (m : matrix) : matrix := map (map (fun _ => F64.zero)) m.

Definition shape_eqb (a b : matrix) : bool :=
  bool_decide (shape a = shape b).

(** [np.mean(ms, axis=0)] of a list of 2-D arrays: the arrays are stacked,
    which needs one common shape ([ValueError] otherwise); the sum along
    the new axis starts from the additive identity and adds the arrays in
    list order; the sum is divided by the number of arrays.  The mean of
    the empty list is the scalar [nan].  (numpy adds in this order up to
    seven arrays, and beyond for arrays of several cells; eight or more
    one-cell arrays it adds in blocks, so what is proved about the value
    of a cell is stated for at most seven arrays or does not depend on
    the order.) *)
Definition np_mean_axis0 (ms : list matrix) : outcome ndarray :=
  match ms with
  | [] => Ok (Nd0 F64.nan)
  | m0 :: _ =>
      if forallb (shape_eqb m0) ms
      then
        let total := fold_left madd ms (zeros_like m0) in
        let count := F64.of_nat (length ms) in
        Ok (Nd2 (map (map (fun s => F64.div s count)) total))
      else Raise ValueError
  end.

(** The 2-D array inside an [ndarray] known to have rank 2. *)
Definition as_matrix (a : ndarray) : outcome matrix :=
  match a with
  | Nd2 m => Ok m
  | _ => Raise ValueError
  end.

(** Reading an attribute that [__init__] does not set. *)
Definition getattr {A} (attr : option A) : outcome A :=
  match attr with
  | Some a => Ok a
  | None => Raise AttributeError
  end.

(** [average_ciu(analysis_obj_list, params_obj, output_dir)]. *)
Definition average_ciu (analysis_obj_list : list CIUAnalysisObj) (params_obj : Parameters)
    (output_dir : string) : M CIUAnalysisObj :=
  let raw_obj_list := map raw_obj analysis_obj_list in
  let ciu_data_list := map ciu_data analysis_obj_list in
  avg_data <- lift (np_mean_axis0 ciu_data_list) ;;
  raw_0 <- lift (getitem raw_obj_list 0) ;;
  obj_0 <- lift (getitem analysis_obj_list 0) ;;
  avg_data <- lift (as_matrix avg_data) ;;
  averaged_obj <- lift (new_CIUAnalysisObj raw_0 avg_data (axes obj_0) None) ;;
  obj_0 <- lift (getitem analysis_obj_list 0) ;;
  p <- lift (getattr (params obj_0)) ;;
  let averaged_obj := set_params averaged_obj (Some p) in
  let averaged_obj := set_raw_obj_list averaged_obj (Some raw_obj_list) in
  saved <- save_analysis_obj averaged_obj "_Avg" None ;;
  let averaged_obj := set_filename (fst saved) (Some (snd saved)) in
  ret averaged_obj.

Section RawProcessing.

(** The four functions of [Raw_Processing] that the pipeline calls.  The
    module is not part of the two files; the pipeline is modelled for
    any such functions. *)
Variable normalize_by_col : matrix -> outcome matrix.
Variable interpolate_cv : matrix -> axes_t -> Z -> outcome (matrix * axes_t).
Variable sav_gol_smooth : matrix -> Z -> outcome matrix.
Variable crop : matrix -> axes_t -> list float -> outcome (matrix * axes_t).

Definition call_normalize (data : matrix) : M matrix :=
  log_call (CallNormalize data) ;;; lift (normalize_by_col data).

Definition call_interpolate (data : matrix) (ax : axes_t) (bins : Z) : M (matrix * axes_t) :=
  log_call (CallInterpolate data ax bins) ;;; lift (interpolate_cv data ax bins).

Definition call_smooth (data : matrix) (window : Z) : M matrix :=
  log_call (CallSmooth data window) ;;; lift (sav_gol_smooth data window).

Definition call_crop (data : matrix) (ax : axes_t) (values : list float) : M (matrix * axes_t) :=
  log_call (CallCrop data ax values) ;;; lift (crop data ax values).

(** The loop [while i < smoothing_iterations: norm_data = sav_gol_smooth(...); i += 1]. *)
Fixpoint smooth_while (fuel : nat) (iterations window i : Z) (norm_data : matrix)
  : M matrix :=
  if i <? iterations then
    match fuel with
    | O => lift Diverged
    | S fuel' =>
        norm_data <- call_smooth norm_data window ;;
        smooth_while fuel' iterations window (i + 1) norm_data
    end
  else ret norm_data.

(** [process_raw_obj(raw_obj, params_obj)]. *)
Definition process_raw_obj (raw : CIURaw) (params_obj : Parameters) : M CIUAnalysisObj :=
  norm_data <- call_normalize (rawdata raw) ;;
  let ax := (dt_axis raw, cv_axis raw) in
  interpolated <-
    match interpolation_bins params_obj with
    | Some bins => call_interpolate norm_data ax bins
    | None => ret (norm_data, ax)
    end ;;
  let norm_data := fst interpolated in
  let ax := snd interpolated in
  norm_data <-
    match smoothing_window params_obj with
    | Some window =>
        smooth_while (Z.to_nat (smoothing_iterations params_obj))
                     (smoothing_iterations params_obj) window 0 norm_data
    | None => ret norm_data
    end ;;
  cropped <-
    match cropping_window_values params_obj with
    | Some values => call_crop norm_data ax values
    | None => ret (norm_data, ax)
    end ;;
  let norm_data := fst cropped in
  let ax := snd cropped in
  analysis_obj <- lift (new_CIUAnalysisObj raw norm_data ax None) ;;
  let analysis_obj := set_params analysis_obj (Some params_obj) in
  ret analysis_obj.

End RawProcessing.

(* ===================================================================== *)
(** ** The stages of [Raw_Processing], after the design document *)
(* ===================================================================== *)

Definition fmax (a b : float) : float := if F64.ltb a b then b else a.

Definition col_max (col : vector) : float :=
  match col with
  | [] => F64.zero
  | x :: rest => fold_left fmax rest x
  end.

Definition ncols (m : matrix) : nat :=
  match m with
  | [] => O
  | row :: _ => length row
  end.

(** Modelled from the spec: [Raw_Processing.normalize_by_col] is not among
    the source files.  Section 4.1: every column is scaled by that
    column's own maximum; a column whose maximum is exactly zero is left
    unchanged; the function is pure and does not fail. *)
Definition spec_normalize_by_col (m : matrix) : outcome matrix :=
  let maxima := map (fun j => col_max (column m j)) (seq 0 (ncols m)) in
  Ok (map (fun row =>
             zip_with (fun x mx => if F64.eqb mx F64.zero then x else F64.div x mx)
                      row maxima) m).

(** Modelled from the spec: [Raw_Processing.interpolate_cv] is not among
    the source files.  Section 4.2 gives when it refuses its input:
    fewer than 2 bins, or a drift-time axis of fewer than 2 points.  The
    resampling itself is the parameter [resample]. *)
Definition spec_interpolate_cv (resample : matrix -> axes_t -> Z -> matrix * axes_t)
    (m : matrix) (ax : axes_t) (bins : Z) : outcome (matrix * axes_t) :=
  if (bins <? 2) || (length (fst ax) <? 2)%nat
  then Raise ConfigurationError
  else Ok (resample m ax bins).

(** Modelled from the spec: [Raw_Processing.sav_gol_smooth] is not among
    the source files.  Section 4.3 gives when it refuses its input: an
    even window, a window longer than the drift-time axis, or a window
    not above the polynomial order.  The filter itself is the parameter
    [filter]. *)
Definition spec_sav_gol_smooth (polyorder : Z) (filter : matrix -> Z -> matrix)
    (m : matrix) (window : Z) : outcome matrix :=
  if Z.even window || (Z.of_nat (length m) <? window) || (window <=? polyorder)
  then Raise ConfigurationError
  else Ok (filter m window).

Definition fleb (a b : float) : bool := SFleb a b.

Definition within (lo hi x : float) : bool := fleb lo x && fleb x hi.

(** The entries of [l] whose axis value passes [keep]. *)
Fixpoint select {A} (keep : float -> bool) (axis : vector) (l : list A) : list A :=
  match axis, l with
  | a :: axis', x :: l' => if keep a then x :: select keep axis' l' else select keep axis' l'
  | _, _ => []
  end.

(** Modelled from the spec: [Raw_Processing.crop] is not among the source
    files.  Section 4.4: the rows and columns whose axis value lies in
    the inclusive bounds [dt_low, dt_high, cv_low, cv_high] are kept;
    [AxisMismatchError] when a low bound exceeds its high bound or when
    nothing is selected. *)
Definition spec_crop (m : matrix) (ax : axes_t) (values : list float)
  : outcome (matrix * axes_t) :=
  obind (getitem values 0) (fun dt_low =>
  obind (getitem values 1) (fun dt_high =>
  obind (getitem values 2) (fun cv_low =>
  obind (getitem values 3) (fun cv_high =>
    if F64.ltb dt_high dt_low || F64.ltb cv_high cv_low then Raise AxisMismatchError
    else
      let dt := List.filter (within dt_low dt_high) (fst ax) in
      let cv := List.filter (within cv_low cv_high) (snd ax) in
      match dt, cv with
      | [], _ | _, [] => Raise AxisMismatchError
      | _, _ =>
          Ok (map (select (within cv_low cv_high) (snd ax))
                  (select (within dt_low dt_high) (fst ax) m),
              (dt, cv))
      end)))).

(* ===================================================================== *)
(** ** Notions used to state the properties *)
(* ===================================================================== *)

(** The object [__init__] builds when no Gaussian parameters are given. *)
Definition fresh_obj (raw : CIURaw) (data : matrix) (ax : axes_t) : CIUAnalysisObj :=
  {| raw_obj := raw; ciu_data := data; axes := ax;
     gauss_params := None; gauss_baselines := None; gauss_amplitudes := None;
     gauss_centroids := None; gauss_widths := None; gauss_fwhms := None;
     gauss_adj_r2s := None; gauss_fits := None; gauss_covariances := None;
     gauss_r2s := None; gauss_resolutions := None; gauss_fit_stats := None;
     params := None; raw_obj_list := None; obj_filename := None |}.

(** The data-model invariant of an analysis object: the processed matrix
    has one row per drift time and one column per collision voltage, and
    the configuration that produced it is attached. *)
Definition matrix_fits_axes (m : matrix) (ax : axes_t) : Prop :=
  length m = length (fst ax) /\ Forall (fun row => length row = length (snd ax)) m.



(** The number a finite float64 stands for, in units of 2^-1074 (the
    smallest positive float64), where it is an integer. *)
Definition scaled_value (x : float) : option Z :=
  match x with
  | S754_zero _ => Some 0
  | S754_finite s m e =>
      if e <? -1074 then None
      else Some ((if s then -1 else 1) * Z.pos m * 2 ^ (e + 1074))
  | _ => None
  end.

(** Whether [y] is the arithmetic mean of [xs] as numbers, without
    rounding: N times [y] is the sum of [xs]. *)
Definition is_exact_mean (y : float) (xs : list float) : bool :=
  match scaled_value y, mapM scaled_value xs with
  | Some vy, Some vs => Z.of_nat (length xs) * vy =? fold_right Z.add 0 vs
  | _, _ => false
  end.



(** The matrix [np.mean] returns for a list of matrices shaped like [m0]. *)
Definition mean_matrix (ms : list matrix) (m0 : matrix) : matrix :=
  map (map (fun s => F64.div s (F64.of_nat (length ms))))
      (fold_left madd ms (zeros_like m0)).

(** Where [average_ciu] saves the average of a list headed by [o0]. *)
Definition avg_path (o0 : CIUAnalysisObj) : string :=
  os_path_join (os_path_dirname (filepath (raw_obj o0)))
               (rstrip (filename (raw_obj o0)) "_raw.csv" ++ "_Avg" ++ ".ciu")%string.

(** The averaged object of a list [objs] headed by [o0], whose parameters
    are [p0]. *)
Definition averaged (o0 : CIUAnalysisObj) (objs : list CIUAnalysisObj) (p0 : Parameters)
  : CIUAnalysisObj :=
  set_filename
    (set_raw_obj_list
       (set_params (fresh_obj (raw_obj o0) (mean_matrix (map ciu_data objs) (ciu_data o0))
                              (axes o0))
                   (Some p0))
       (Some (map raw_obj objs)))
    (Some (avg_path o0)).

Section SmoothingPasses.

Variable sav_gol_smooth : matrix -> Z -> outcome matrix.

(** The n-fold composition of the single-pass smoother: every pass takes
    the output of the pass before it. *)
Fixpoint smooth_passes (n : nat) (window : Z) (data : matrix) : outcome matrix :=
  match n with
  | O => Ok data
  | S n' => obind (sav_gol_smooth data window) (smooth_passes n' window)
  end.

(** The calls those passes make, in order, up to the first that fails. *)
Fixpoint smooth_calls (n : nat) (window : Z) (data : matrix) : list stage_call :=
  match n with
  | O => []
  | S n' =>
      CallSmooth data window ::
      match sav_gol_smooth data window with
      | Ok data' => smooth_calls n' window data'
      | _ => []
      end
  end.

End SmoothingPasses.

(** The world after more calls into [Raw_Processing]. *)
Definition with_calls (w : world) (cs : list stage_call) : world :=
  {| files := files w; stdout := stdout w; calls := calls w ++ cs |}.

(** How a call ended, without the value it returned. *)
Definition outcome_of {A} (r : outcome A) : outcome unit :=
  match r with
  | Ok _ => Ok tt
  | Raise e => Raise e
  | Diverged => Diverged
  end.

Section StageOutcomes.

Variable normalize_by_col : matrix -> outcome matrix.
Variable interpolate_cv : matrix -> axes_t -> Z -> outcome (matrix * axes_t).
Variable sav_gol_smooth : matrix -> Z -> outcome matrix.
Variable crop : matrix -> axes_t -> list float -> outcome (matrix * axes_t).

(** How the stage answered a recorded call. *)
Definition stage_outcome (c : stage_call) : outcome unit :=
  match c with
  | CallNormalize data => outcome_of (normalize_by_col data)
  | CallInterpolate data ax bins => outcome_of (interpolate_cv data ax bins)
  | CallSmooth data window => outcome_of (sav_gol_smooth data window)
  | CallCrop data ax values => outcome_of (crop data ax values)
  end.

(** A run of calls that ended as [r]: when [r] is a return, every call
    returned; otherwise every call but the last returned, and the last
    ended as [r]. *)
Definition stopped_at (cs : list stage_call) (r : outcome unit) : Prop :=
  match r with
  | Ok _ => Forall (fun c => stage_outcome c = Ok tt) cs
  | _ => exists cs' c,
           cs = cs' ++ [c] /\
           Forall (fun c => stage_outcome c = Ok tt) cs' /\
           stage_outcome c = r
  end.

End StageOutcomes.

(* ===================================================================== *)
(** ** Concrete inputs *)
(* ===================================================================== *)

Definition f2_3548 : float := S754_finite false 5302538201266022 (-51). (* 2.3548 *)
Definition f15 : float := S754_finite false 8444249301319680 (-49).     (* 15.0 *)

(** A raw fingerprint of three drift-time bins by two collision voltages. *)
Definition sample_raw : CIURaw :=
  {| rawdata := [[f1; f2]; [f2; f4]; [f1; f2]];
     dt_axis := [f1; f2; f3];
     cv_axis := [f5; f10];
     filename := "sample_raw.csv";
     filepath := "/data/sample_raw.csv" |}.

(** One Gaussian per collision voltage: [baseline, amplitude, centroid, width]. *)
Definition sample_gauss_params : list (list float) :=
  [[F64.zero; f1; f2; f0_5]; [F64.zero; f1; f3; f0_5]].

Definition sample_fwhms : list float :=
  [F64.mul f0_5 f2_3548; F64.mul f0_5 f2_3548].

(** [sample_raw] normalised, with a completed Gaussian fit attached. *)
Definition sample_fitted : CIUAnalysisObj :=
  {| raw_obj := sample_raw;
     ciu_data := [[f0_5; f0_5]; [f1; f1]; [f0_5; f0_5]];
     axes := ([f1; f2; f3], [f5; f10]);
     gauss_params := Some sample_gauss_params;
     gauss_baselines := Some [F64.zero; F64.zero];
     gauss_amplitudes := Some [f1; f1];
     gauss_centroids := Some [f2; f3];
     gauss_widths := Some [f0_5; f0_5];
     gauss_fwhms := Some sample_fwhms;
     gauss_adj_r2s := Some [f1; f1];
     gauss_fits := Some [[f0_5; f1; f0_5]; [f0_5; f1; f0_5]];
     gauss_covariances := Some [[[f1; F64.zero]; [F64.zero; f1]];
                                [[f1; F64.zero]; [F64.zero; f1]]];
     gauss_r2s := Some [f1; f1];
     gauss_resolutions := Some [F64.div f2 (F64.mul f0_5 f2_3548);
                                F64.div f3 (F64.mul f0_5 f2_3548)];
     gauss_fit_stats := Some [[f1; f1]; [f1; f1]];
     params := None; raw_obj_list := None; obj_filename := None |}.

(** A raw file whose stem ends in a character of ["_raw.csv"]. *)
Definition data_raw : CIURaw :=
  {| rawdata := [[f1]];
     dt_axis := [f1];
     cv_axis := [f5];
     filename := "data_raw.csv";
     filepath := "/runs/data_raw.csv" |}.

(** The analysis object of [data_raw], as the constructor leaves it. *)
Definition data_obj : CIUAnalysisObj := fresh_obj data_raw [[f1]] ([f1], [f5]).

(** A resampling and a filter that leave the matrix as it is: stand-ins
    for the arithmetic of the two stages, which the design document does
    not fix. *)
Definition keep_resample (m : matrix) (ax : axes_t) (bins : Z) : matrix * axes_t := (m, ax).
Definition keep_filter (m : matrix) (window : Z) : matrix := m.

(** Smooth twice with a window of 3 and crop to the drift times 2..3. *)
Definition sample_params : Parameters :=
  {| interpolation_bins := Some 3;
     smoothing_window := Some 3;
     smoothing_iterations := 2;
     cropping_window_values := Some [f2; f3; f5; f10];
     save_output_csv := false;
     combine_output_file := false |}.

(** An even smoothing window. *)
Definition even_window_params : Parameters :=
  {| interpolation_bins := None;
     smoothing_window := Some 4;
     smoothing_iterations := 1;
     cropping_window_values := None;
     save_output_csv := false;
     combine_output_file := false |}.

(** A single interpolation bin. *)
Definition one_bin_params : Parameters :=
  {| interpolation_bins := Some 1;
     smoothing_window := None;
     smoothing_iterations := 1;
     cropping_window_values := None;
     save_output_csv := false;
     combine_output_file := false |}.

(** [rawdata sample_raw] with every column scaled by its maximum. *)
Definition sample_normalized : matrix := [[f0_5; f0_5]; [f1; f1]; [f0_5; f0_5]].

(** [sample_normalized] cropped to the drift times 2..3. *)
Definition sample_cropped : matrix := [[f1; f1]; [f0_5; f0_5]].
Definition sample_cropped_axes : axes_t := ([f2; f3], [f5; f10]).

(** The pipeline over the stages of the design document, with a quadratic
    filter left as it is. *)
Definition sample_smooth : matrix -> Z -> outcome matrix :=
  spec_sav_gol_smooth 2 keep_filter.

Definition sample_pipeline : CIURaw -> Parameters -> M CIUAnalysisObj :=
  process_raw_obj spec_normalize_by_col (spec_interpolate_cv keep_resample)
                  sample_smooth spec_crop.

Definition f0_25 : float := S754_finite false 4503599627370496 (-54).  (* 0.25 *)
Definition f0_125 : float := S754_finite false 4503599627370496 (-55). (* 0.125 *)

(** A filter that halves every cell, so that a pass shows in the values:
    another stand-in for the arithmetic of the smoothing stage. *)
Definition halving_filter (m : matrix) (window : Z) : matrix :=
  map (map (fun x => F64.div x f2)) m.

Definition halving_smooth : matrix -> Z -> outcome matrix :=
  spec_sav_gol_smooth 2 halving_filter.

Definition halving_pipeline : CIURaw -> Parameters -> M CIUAnalysisObj :=
  process_raw_obj spec_normalize_by_col (spec_interpolate_cv keep_resample)
                  halving_smooth spec_crop.

(** [sample_normalized] after one and after two halving passes. *)
Definition sample_halved : matrix := [[f0_25; f0_25]; [f0_5; f0_5]; [f0_25; f0_25]].
Definition sample_quartered : matrix := [[f0_125; f0_125]; [f0_25; f0_25]; [f0_125; f0_125]].

(** Stages that take whatever they are given. *)
Definition lenient_interpolate (m : matrix) (ax : axes_t) (bins : Z)
  : outcome (matrix * axes_t) := Ok (m, ax).
Definition lenient_smooth (m : matrix) (window : Z) : outcome matrix := Ok m.
Definition lenient_crop (m : matrix) (ax : axes_t) (values : list float)
  : outcome (matrix * axes_t) := Ok (m, ax).

Definition lenient_pipeline : CIURaw -> Parameters -> M CIUAnalysisObj :=
  process_raw_obj spec_normalize_by_col lenient_interpolate lenient_smooth lenient_crop.

Definition f0_75 : float := S754_finite false 6755399441055744 (-53).  (* 0.75 *)
Definition f0_1_up : float := S754_finite false 7205759403792795 (-56).
(* 0.10000000000000002, the float64 above 0.1 *)

(** A second replicate of the sample. *)
Definition sample_raw_b : CIURaw :=
  {| rawdata := [[f2; f1]; [f1; f2]; [f2; f1]];
     dt_axis := [f1; f2; f3];
     cv_axis := [f5; f10];
     filename := "sample2_raw.csv";
     filepath := "/data/sample2_raw.csv" |}.

(** Two processed replicates on the same axes. *)
Definition sample_a : CIUAnalysisObj :=
  set_params (fresh_obj sample_raw sample_cropped sample_cropped_axes) (Some sample_params).

Definition sample_a2 : CIUAnalysisObj :=
  set_params (fresh_obj sample_raw_b [[f0_5; f1]; [f1; f0_5]] sample_cropped_axes)
             (Some sample_params).

(** The second replicate on another collision-voltage axis: 5 and 15
    volts instead of 5 and 10. *)
Definition sample_b : CIUAnalysisObj :=
  set_params (fresh_obj sample_raw_b [[f0_5; f1]; [f1; f0_5]] ([f2; f3], [f5; f15]))
             (Some sample_params).

(** A one-cell fingerprint holding 0.1. *)
Definition tenth_obj : CIUAnalysisObj :=
  set_params (fresh_obj data_raw [[f0_1]] ([f1], [f5])) (Some sample_params).

(* 0.15000000000000002, the float64 above 0.15 *)


(* ===================================================================== *)
(** ** [CIU2_Main.py]: loading, file ranges and the crop dialog *)
(* ===================================================================== *)

(** What [open(path, 'rb')] and [pickle.load] can raise. *)
Inductive io_error : Type :=
| FileNotFoundError
| EOFError
| UnpicklingError.

Inductive load_result : Type :=
| Loaded (o : CIUAnalysisObj)
| LoadError (e : io_error).

(** [load_analysis_obj(analysis_filename)]: the pickled object at that
    path.  Reading changes nothing in the world. *)
Definition load_analysis_obj (analysis_filename : string) (w : world) : load_result :=
  match files w !! analysis_filename with
  | None => LoadError FileNotFoundError
  | Some (PickleFile analysis_obj) => Loaded analysis_obj
  | Some EmptyFile => LoadError EOFError
  | Some _ => LoadError UnpicklingError
  end.

(** A slice bound brought into [0, n], as Python does for [l[i:j]]:
    a negative bound counts from the end. *)
Definition slice_bound (n i : Z) : Z :=
  if i <? 0 then Z.max (i + n) 0 else Z.min i n.

(** [l[start:stop]]. *)
Definition py_slice {A} (l : list A) (start stop : Z) : list A :=
  let n := Z.of_nat (length l) in
  let a := slice_bound n start in
  let b := slice_bound n stop in
  firstn (Z.to_nat (b - a)) (skipn (Z.to_nat a) l).

Section FileRange.

(** [int(text)] of an entry's text: the integer, or [None] for
    [ValueError]. *)
Variable py_int : string -> option Z.

(** [check_file_range_entries(self)], given the texts of the two entries
    and [self.analysis_file_list]. *)
Definition check_file_range_entries (entry_start_files entry_end_files : string)
    (analysis_file_list : list string) : list string :=
  let start_file :=
    match py_int entry_start_files with
    | Some n => n - 1
    | None => 0
    end in
  let end_file :=
    match py_int entry_end_files with
    | Some n => n
    | None => Z.of_nat (length analysis_file_list)
    end in
  py_slice analysis_file_list start_file end_file.

End FileRange.

Module CropUI.

(** The crop dialog: the texts of its four entries, the values it hands
    back, whether its window is still there, and the warnings shown. *)
Record t : Type := {
  entry_dt_start : string;
  entry_dt_end : string;
  entry_cv_start : string;
  entry_cv_end : string;
  crop_vals : list float;
  window_open : bool;
  warnings : list (string * string)
}.

(** [messagebox.showwarning(title, message)]. *)
Definition showwarning (self : t) (title message : string) : t :=
  {| entry_dt_start := entry_dt_start self; entry_dt_end := entry_dt_end self;
     entry_cv_start := entry_cv_start self; entry_cv_end := entry_cv_end self;
     crop_vals := crop_vals self; window_open := window_open self;
     warnings := warnings self ++ [(title, message)] |}.

(** [on_close_window(self)]: the window is destroyed. *)
Definition on_close_window (self : t) : t :=
  {| entry_dt_start := entry_dt_start self; entry_dt_end := entry_dt_end self;
     entry_cv_start := entry_cv_start self; entry_cv_end := entry_cv_end self;
     crop_vals := crop_vals self; window_open := false;
     warnings := warnings self |}.

(** [on_button_cancel_clicked(self)]. *)
Definition on_button_cancel_clicked (self : t) : t := on_close_window self.

Definition set_crop_vals (self : t) (vals : list float) : t :=
  {| entry_dt_start := entry_dt_start self; entry_dt_end := entry_dt_end self;
     entry_cv_start := entry_cv_start self; entry_cv_end := entry_cv_end self;
     crop_vals := vals; window_open := window_open self;
     warnings := warnings self |}.

Section Parsing.

(** [float(text)]: the number, or [None] for [ValueError]. *)
Variable py_float : string -> option float.

(** [on_button_crop_clicked(self)]: the dialog afterwards and the value
    returned, [-1] after a warning and [None] otherwise. *)
Definition on_button_crop_clicked (self : t) : t * option Z :=
  let dt_low := entry_dt_start self in
  let dt_high := entry_dt_end self in
  let cv_low := entry_cv_start self in
  let cv_high := entry_cv_end self in
  match py_float dt_low with
  | None =>
      (showwarning self "Error" "Invalid starting DT: must be a number (decimals OK)",
       Some (-1))
  | Some dt_low =>
    match py_float dt_high with
    | None =>
        (showwarning self "Error" "Invalid ending DT: must be a number (decimals OK)",
         Some (-1))
    | Some dt_high =>
      match py_float cv_low with
      | None =>
          (showwarning self "Error" "Invalid starting CV: must be a number (decimals OK)",
           Some (-1))
      | Some cv_low =>
        match py_float cv_high with
        | None =>
            (showwarning self "Error" "Invalid ending CV: must be a number (decimals OK)",
             Some (-1))
        | Some cv_high =>
            (on_close_window (set_crop_vals self [dt_low; dt_high; cv_low; cv_high]),
             None)
        end
      end
    end
  end.

End Parsing.

(** [return_values(self)]. *)
Definition return_values (self : t) : option (list float) :=
  if (0 <? length (crop_vals self))%nat then Some (crop_vals self) else None.

End CropUI.

(* ===================================================================== *)
(** ** Notions used to state the further properties *)
(* ===================================================================== *)

(** The page of the Gaussian-fit PDF for collision voltage [cv], column
    [k] of the matrix and fitted curve [fit]. *)
Definition gaussfit_page (self : CIUAnalysisObj) (k : nat) (cv : float) (fit : list float)
  : pdf_page :=
  {| scatter_x := fst (axes self); scatter_y := column (ciu_data self) k;
     plot_x := fst (axes self); plot_y := fit; title := cv |}.

(** Where [save_gaussfits_pdf] writes. *)
Definition gaussfit_pdf_path (self : CIUAnalysisObj) (outputpath : string) : string :=
  os_path_join outputpath ("Gausfitdata_" ++ filename (raw_obj self) ++ "_.pdf")%string.

(** The characters [rstrip('_raw.csv')] strips. *)
Definition raw_suffix_chars : list ascii := chars "_raw.csv".

(** Every character of [s] is one of [cs]. *)
Definition made_of (cs : list ascii) (s : string) : bool :=
  forallb (fun c => char_in c cs) (chars s).

(** The last character of [s] is none of [cs] (or [s] is empty). *)
Definition ends_clear (cs : list ascii) (s : string) : bool :=
  match rev (chars s) with
  | [] => true
  | c :: _ => negb (char_in c cs)
  end.

(* ===================================================================== *)
(** ** Further concrete inputs *)
(* ===================================================================== *)

(** A raw file whose name differs from that of [data_raw] by one stripped
    character. *)
Definition dat_raw : CIURaw :=
  {| rawdata := [[f2]];
     dt_axis := [f1];
     cv_axis := [f5];
     filename := "dat_raw.csv";
     filepath := "/runs/dat_raw.csv" |}.

Definition dat_obj : CIUAnalysisObj := fresh_obj dat_raw [[f1]] ([f1], [f5]).

(** A smoother over the stage of the design document whose filter drops
    the first row: a second pass with a window of 3 no longer fits a
    three-row matrix. *)
Definition shrinking_smooth : matrix -> Z -> outcome matrix :=
  spec_sav_gol_smooth 2 (fun m _ => tl m).

(** A reading of entry texts made of decimal digits, the part of [int]
    and [float] the examples need. *)
Definition digit_value (c : ascii) : option Z :=
  let n := Z.of_nat (nat_of_ascii c) in
  if (48 <=? n) && (n <=? 57) then Some (n - 48) else None.

Fixpoint digits_value (acc : Z) (l : list ascii) : option Z :=
  match l with
  | [] => Some acc
  | c :: l' =>
      match digit_value c with
      | Some d => digits_value (10 * acc + d) l'
      | None => None
      end
  end.

Definition decimal_int (s : string) : option Z :=
  match chars s with
  | [] => None
  | l => digits_value 0 l
  end.

Definition decimal_float (s : string) : option float :=
  option_map F64.of_Z (decimal_int s).

(** Parameter records of five and of four components: the constructor
    takes them, reading the first four of each. *)
Definition uneven_gauss_params : list (list float) :=
  [[F64.zero; f1; f2; f0_5; f1]; [F64.zero; f1; f3; f0_5]].

Definition uneven_fitted : CIUAnalysisObj :=
  set_gauss_params sample_fitted (Some uneven_gauss_params).

(** A fitted object that lost the curve of its second collision voltage. *)
Definition set_gauss_fits_one (o : CIUAnalysisObj) : CIUAnalysisObj :=
  {| raw_obj := raw_obj o; ciu_data := ciu_data o; axes := axes o;
     gauss_params := gauss_params o; gauss_baselines := gauss_baselines o;
     gauss_amplitudes := gauss_amplitudes o; gauss_centroids := gauss_centroids o;
     gauss_widths := gauss_widths o; gauss_fwhms := gauss_fwhms o;
     gauss_adj_r2s := gauss_adj_r2s o; gauss_fits := Some [[f0_5; f1; f0_5]];
     gauss_covariances := gauss_covariances o; gauss_r2s := gauss_r2s o;
     gauss_resolutions := gauss_resolutions o; gauss_fit_stats := gauss_fit_stats o;
     params := params o; raw_obj_list := raw_obj_list o; obj_filename := obj_filename o |}.

(** Five analysis files. *)
Definition five_files : list string :=
  ["/out/a.ciu"; "/out/b.ciu"; "/out/c.ciu"; "/out/d.ciu"; "/out/e.ciu"].

(** The crop dialog with drift times 2..3 and voltages 5..10 typed in, and
    with a word typed in place of the ending drift time. *)
Definition crop_dialog_filled : CropUI.t :=
  {| CropUI.entry_dt_start := "2"; CropUI.entry_dt_end := "3";
     CropUI.entry_cv_start := "5"; CropUI.entry_cv_end := "10";
     CropUI.crop_vals := []; CropUI.window_open := true; CropUI.warnings := [] |}.

Definition crop_dialog_mistyped : CropUI.t :=
  {| CropUI.entry_dt_start := "2"; CropUI.entry_dt_end := "end";
     CropUI.entry_cv_start := "5"; CropUI.entry_cv_end := "10";
     CropUI.crop_vals := []; CropUI.window_open := true; CropUI.warnings := [] |}.

(* ===================================================================== *)
(** * Properties *)
(* ===================================================================== *)

(** ** Strings and paths, on examples *)

Example rstrip_sample : rstrip "sample_raw.csv" "_raw.csv" = "sample".
Proof. reflexivity. Qed.

Example dirname_nested : os_path_dirname "/data/run1/sample_raw.csv" = "/data/run1".
Proof. reflexivity. Qed.

Example dirname_root : os_path_dirname "/sample_raw.csv" = "/".
Proof. reflexivity. Qed.

Example dirname_bare : os_path_dirname "sample_raw.csv" = "".
Proof. reflexivity. Qed.

Example join_plain : os_path_join "/data/run1" "sample.ciu" = "/data/run1/sample.ciu".
Proof. reflexivity. Qed.

Example normalize_columns :
  spec_normalize_by_col [[f2; f0_5]; [f4; f1]] = Ok [[f0_5; f0_5]; [f1; f1]].
Proof. vm_compute. reflexivity. Qed.

(** ** The Gaussian parameter lists *)

Lemma items_at_ok (i : nat) (gp : list (list float)) :
  Forall (fun r => (i < length r)%nat) gp ->
  exists l, items_at i gp = Ok l /\ length l = length gp /\
            forall k r, nth_error gp k = Some r -> nth_error l k = nth_error r i.
Proof.
  induction 1 as [| r gp Hr _ IH].
  - exists []. repeat split; auto. intros [|k] r H; discriminate H.
  - destruct IH as (l & Hl & Hlen & Hnth).
    destruct (nth_error r i) as [v|] eqn:Hv.
    2:{ apply nth_error_None in Hv. lia. }
    exists (v :: l). cbn [items_at]. unfold getitem. rewrite Hv. cbn [obind].
    rewrite Hl. cbn [obind]. repeat split.
    + cbn [length]. now rewrite Hlen.
    + intros [|k] r' H; cbn [nth_error] in *.
      * inversion H; subst. now rewrite Hv.
      * now apply Hnth.
Qed.

(** The fields written by [init_gauss_lists] on success. *)
Lemma init_gauss_lists_ok (self : CIUAnalysisObj) (gp : list (list float)) b a c w :
  items_at 0 gp = Ok b -> items_at 1 gp = Ok a ->
  items_at 2 gp = Ok c -> items_at 3 gp = Ok w ->
  init_gauss_lists self gp =
    (set_gauss_widths (set_gauss_centroids (set_gauss_amplitudes
       (set_gauss_baselines (set_gauss_params self (Some gp)) (Some b)) (Some a))
       (Some c)) (Some w), Ok tt).
Proof.
  intros Hb Ha Hc Hw. unfold init_gauss_lists. now rewrite Hb, Ha, Hc, Hw.
Qed.

Lemma four_components (i : nat) (gp : list (list float)) :
  (i < 4)%nat ->
  Forall (fun r => length r = 4%nat) gp -> Forall (fun r => (i < length r)%nat) gp.
Proof. intros Hi. induction 1 as [| r gp' Hr _ IH]; constructor; [lia | exact IH]. Qed.

(** C9.  For per-column records [baseline, amplitude, centroid, width],
    [init_gauss_lists] returns and leaves four parallel lists
    [gauss_baselines], [gauss_amplitudes], [gauss_centroids],
    [gauss_widths], each as long as the list of records, whose i-th
    elements are components 0, 1, 2 and 3 of the i-th record. *)
Theorem init_gauss_lists_parallel (self : CIUAnalysisObj) (gp : list (list float)) :
  Forall (fun r => length r = 4%nat) gp ->
  exists self' b a c w,
    init_gauss_lists self gp = (self', Ok tt) /\
    gauss_baselines self' = Some b /\ gauss_amplitudes self' = Some a /\
    gauss_centroids self' = Some c /\ gauss_widths self' = Some w /\
    length b = length gp /\ length a = length gp /\
    length c = length gp /\ length w = length gp /\
    forall i r, nth_error gp i = Some r ->
      nth_error b i = nth_error r 0 /\ nth_error a i = nth_error r 1 /\
      nth_error c i = nth_error r 2 /\ nth_error w i = nth_error r 3.
Proof.
  intros Hgp.
  destruct (items_at_ok 0 gp) as (b & Hb & Lb & Nb); [apply four_components; [lia | assumption] |].
  destruct (items_at_ok 1 gp) as (a & Ha & La & Na); [apply four_components; [lia | assumption] |].
  destruct (items_at_ok 2 gp) as (c & Hc & Lc & Nc); [apply four_components; [lia | assumption] |].
  destruct (items_at_ok 3 gp) as (w & Hw & Lw & Nw); [apply four_components; [lia | assumption] |].
  eexists. exists b, a, c, w. split; [apply init_gauss_lists_ok; eassumption |].
  cbn. repeat (split; [first [reflexivity | assumption] |]).
  intros i r H. rewrite (Nb _ _ H), (Na _ _ H), (Nc _ _ H), (Nw _ _ H). repeat split.
Qed.

Lemma init_gauss_lists_parallel_witness :
  Forall (fun r => length r = 4%nat) sample_gauss_params /\
  exists self' b a c w,
    init_gauss_lists sample_fitted sample_gauss_params = (self', Ok tt) /\
    gauss_baselines self' = Some b /\ gauss_amplitudes self' = Some a /\
    gauss_centroids self' = Some c /\ gauss_widths self' = Some w /\
    length b = length sample_gauss_params /\ length a = length sample_gauss_params /\
    length c = length sample_gauss_params /\ length w = length sample_gauss_params /\
    forall i r, nth_error sample_gauss_params i = Some r ->
      nth_error b i = nth_error r 0 /\ nth_error a i = nth_error r 1 /\
      nth_error c i = nth_error r 2 /\ nth_error w i = nth_error r 3.
Proof.
  assert (H : Forall (fun r => length r = 4%nat) sample_gauss_params)
    by (repeat constructor).
  split; [exact H | exact (init_gauss_lists_parallel sample_fitted sample_gauss_params H)].
Defined.

Example init_gauss_lists_sample :
  let self' := fst (init_gauss_lists sample_fitted sample_gauss_params) in
  gauss_baselines self' = Some [F64.zero; F64.zero] /\
  gauss_amplitudes self' = Some [f1; f1] /\
  gauss_centroids self' = Some [f2; f3] /\
  gauss_widths self' = Some [f0_5; f0_5].
Proof. repeat split. Qed.

(** A record that is too short stops the initialisation with [IndexError],
    after the earlier lists have been assigned. *)
Example init_gauss_lists_short_record :
  let r := init_gauss_lists sample_fitted [[F64.zero; f1]] in
  snd r = Raise IndexError /\
  gauss_amplitudes (fst r) = Some [f1] /\
  gauss_centroids (fst r) = gauss_centroids sample_fitted.
Proof. repeat split. Qed.

(** The same, as a lemma shared by the statements about the constructor. *)
Lemma init_gauss_lists_records (self : CIUAnalysisObj) (gp : list (list float)) :
  Forall (fun r => length r = 4%nat) gp ->
  exists b a c w,
    init_gauss_lists self gp =
      (set_gauss_widths (set_gauss_centroids (set_gauss_amplitudes
         (set_gauss_baselines (set_gauss_params self (Some gp)) (Some b)) (Some a))
         (Some c)) (Some w), Ok tt) /\
    (length b = length gp /\ length a = length gp /\
     length c = length gp /\ length w = length gp) /\
    forall i r, nth_error gp i = Some r ->
      nth_error b i = nth_error r 0 /\ nth_error a i = nth_error r 1 /\
      nth_error c i = nth_error r 2 /\ nth_error w i = nth_error r 3.
Proof.
  intros Hgp.
  destruct (items_at_ok 0 gp) as (b & Hb & Lb & Nb); [apply four_components; [lia | assumption] |].
  destruct (items_at_ok 1 gp) as (a & Ha & La & Na); [apply four_components; [lia | assumption] |].
  destruct (items_at_ok 2 gp) as (c & Hc & Lc & Nc); [apply four_components; [lia | assumption] |].
  destruct (items_at_ok 3 gp) as (w & Hw & Lw & Nw); [apply four_components; [lia | assumption] |].
  exists b, a, c, w. split; [apply init_gauss_lists_ok; assumption |].
  split; [auto |].
  intros i r H. rewrite (Nb _ _ H), (Na _ _ H), (Nc _ _ H), (Nw _ _ H). repeat split.
Qed.

(** ** The constructor and the PDF export *)

(** Without fit curves the PDF export prints one line and returns: no
    file is touched. *)
Lemma save_gaussfits_pdf_no_fits (self : CIUAnalysisObj) (outputpath : string) (w : world) :
  gauss_fits self = None ->
  save_gaussfits_pdf self outputpath w =
    ({| files := files w;
        stdout := stdout w ++ ["No gaussian fit data in this object yet, returning"];
        calls := calls w |}, Ok tt).
Proof. intros H. unfold save_gaussfits_pdf. rewrite H. reflexivity. Qed.

(** C10.  An object constructed without Gaussian parameters has every
    [gauss_*] attribute equal to [None] (the parameter list and the eleven
    lists derived from a fit), and [save_gaussfits_pdf] on it returns
    normally and leaves the files as they were; an object constructed with
    parameter records has [gauss_params] set to them and the four
    parameter lists read off their components. *)
Theorem new_CIUAnalysisObj_gauss_fields (raw : CIURaw) (data : matrix) (ax : axes_t) :
  (exists o,
     new_CIUAnalysisObj raw data ax None = Ok o /\
     (gauss_params o = None /\ gauss_baselines o = None /\ gauss_amplitudes o = None /\
      gauss_centroids o = None /\ gauss_widths o = None /\ gauss_fwhms o = None /\
      gauss_adj_r2s o = None /\ gauss_fits o = None /\ gauss_covariances o = None /\
      gauss_r2s o = None /\ gauss_resolutions o = None /\ gauss_fit_stats o = None) /\
     forall outputpath w,
       exists w', save_gaussfits_pdf o outputpath w = (w', Ok tt) /\ files w' = files w)
  /\
  (forall gp,
     Forall (fun r => length r = 4%nat) gp ->
     exists o b a c w,
       new_CIUAnalysisObj raw data ax (Some gp) = Ok o /\
       gauss_params o = Some gp /\
       gauss_baselines o = Some b /\ gauss_amplitudes o = Some a /\
       gauss_centroids o = Some c /\ gauss_widths o = Some w /\
       forall i r, nth_error gp i = Some r ->
         nth_error b i = nth_error r 0 /\ nth_error a i = nth_error r 1 /\
         nth_error c i = nth_error r 2 /\ nth_error w i = nth_error r 3).
Proof.
  split.
  - eexists. split; [reflexivity |]. split; [cbn; repeat split |].
    intros outputpath w. eexists. split.
    + apply save_gaussfits_pdf_no_fits. reflexivity.
    + reflexivity.
  - intros gp Hgp. unfold new_CIUAnalysisObj.
    match goal with
    | |- context [init_gauss_lists ?s gp] =>
        destruct (init_gauss_lists_records s gp Hgp) as (b & a & c & w & Hinit & _ & Hnth);
        rewrite Hinit
    end.
    eexists. exists b, a, c, w. split; [reflexivity |].
    cbn. repeat (split; [reflexivity |]). exact Hnth.
Qed.

Lemma new_CIUAnalysisObj_gauss_fields_witness :
  Forall (fun r => length r = 4%nat) sample_gauss_params /\
  exists o b a c w,
    new_CIUAnalysisObj sample_raw [] ([], []) (Some sample_gauss_params) = Ok o /\
    gauss_params o = Some sample_gauss_params /\
    gauss_baselines o = Some b /\ gauss_amplitudes o = Some a /\
    gauss_centroids o = Some c /\ gauss_widths o = Some w /\
    forall i r, nth_error sample_gauss_params i = Some r ->
      nth_error b i = nth_error r 0 /\ nth_error a i = nth_error r 1 /\
      nth_error c i = nth_error r 2 /\ nth_error w i = nth_error r 3.
Proof.
  assert (H : Forall (fun r => length r = 4%nat) sample_gauss_params)
    by (repeat constructor).
  split; [exact H |].
  exact (proj2 (new_CIUAnalysisObj_gauss_fields sample_raw [] ([], [])) sample_gauss_params H).
Defined.

(** With fit curves present the export writes one page per collision
    voltage. *)
Example save_gaussfits_pdf_sample :
  files (fst (save_gaussfits_pdf sample_fitted "/out" empty_world))
    !! "/out/Gausfitdata_sample_raw.csv_.pdf"
  = Some (PdfFile
            [ {| scatter_x := [f1; f2; f3]; scatter_y := [f0_5; f1; f0_5];
                 plot_x := [f1; f2; f3]; plot_y := [f0_5; f1; f0_5]; title := f5 |};
              {| scatter_x := [f1; f2; f3]; scatter_y := [f0_5; f1; f0_5];
                 plot_x := [f1; f2; f3]; plot_y := [f0_5; f1; f0_5]; title := f10 |} ]
            true).
Proof. vm_compute. reflexivity. Qed.

(** ** The diagnostics table *)

(** C2, on a fitted object with three drift-time bins and two collision
    voltages: the table has three lines of one value each, the drift
    times, where one line per collision voltage with six fit values is
    announced by the header. *)
Theorem save_gauss_params_sample_table :
  length (snd (axes sample_fitted)) = 2%nat /\
  files (fst (save_gauss_params sample_fitted "/out" empty_world))
    !! "/out/sample_raw.csv_outarraygaussfit.csv"
  = Some (CsvFile "TrapCV, ATD_centroid, ATD_width, ATD_FWHM, ATD_Resolution, R^2, Adj_R^2"
                  [[f1]; [f2]; [f3]]).
Proof. split; [reflexivity | vm_compute; reflexivity]. Qed.

(** ** The name of the saved analysis *)

(** C3.  There is a raw file name ending in [_raw.csv] for which the name
    derived by [save_analysis_obj] loses more than that suffix.  The
    analysis of [data_raw.csv], read from [/runs], is pickled to
    [/runs/dat.ciu]: that path is returned, recorded in the object and the
    only file written, whereas removing exactly the suffix names
    [/runs/data.ciu], which the call leaves as it was. *)
Theorem save_analysis_obj_overtrims :
  exists o : CIUAnalysisObj,
    filename (raw_obj o) = "data_raw.csv" /\
    filepath (raw_obj o) = "/runs/data_raw.csv" /\
    endswith (filename (raw_obj o)) "_raw.csv" = true /\
    os_path_join (os_path_dirname (filepath (raw_obj o)))
      (remove_suffix (filename (raw_obj o)) "_raw.csv" ++ ".ciu")%string
    = "/runs/data.ciu" /\
    forall w : world,
      save_analysis_obj o "" None w =
        ({| files := <["/runs/dat.ciu" :=
                         PickleFile (set_filename o (Some "/runs/dat.ciu"))]> (files w);
            stdout := stdout w; calls := calls w |},
         Ok (set_filename o (Some "/runs/dat.ciu"), "/runs/dat.ciu")) /\
      files (fst (save_analysis_obj o "" None w)) !! "/runs/data.ciu"
      = files w !! "/runs/data.ciu".
Proof.
  exists data_obj.
  split; [reflexivity |]. split; [reflexivity |]. split; [reflexivity |].
  split; [reflexivity |].
  intros w. split; [reflexivity |].
  change (files (fst (save_analysis_obj data_obj "" None w)))
    with (<["/runs/dat.ciu" :=
              PickleFile (set_filename data_obj (Some "/runs/dat.ciu"))]> (files w)).
  apply lookup_insert_ne. discriminate.
Qed.

Example save_analysis_obj_data_path :
  snd (save_analysis_obj data_obj "" None empty_world)
  = Ok (set_filename data_obj (Some "/runs/dat.ciu"), "/runs/dat.ciu").
Proof. reflexivity. Qed.

Example remove_suffix_data : remove_suffix "data_raw.csv" "_raw.csv" = "data".
Proof. reflexivity. Qed.

(** ** The raw-processing pipeline *)

Section PipelineFacts.

Variable normalize_by_col : matrix -> outcome matrix.
Variable interpolate_cv : matrix -> axes_t -> Z -> outcome (matrix * axes_t).
Variable sav_gol_smooth : matrix -> Z -> outcome matrix.
Variable crop : matrix -> axes_t -> list float -> outcome (matrix * axes_t).

Lemma with_calls_nil (w : world) : with_calls w [] = w.
Proof. destruct w. unfold with_calls. cbn. now rewrite app_nil_r. Qed.

Lemma with_calls_app (w : world) (cs ds : list stage_call) :
  with_calls (with_calls w cs) ds = with_calls w (cs ++ ds).
Proof. unfold with_calls. cbn. now rewrite app_assoc. Qed.

Lemma call_normalize_run data w :
  call_normalize normalize_by_col data w
  = (with_calls w [CallNormalize data], normalize_by_col data).
Proof. reflexivity. Qed.

Lemma call_interpolate_run data ax bins w :
  call_interpolate interpolate_cv data ax bins w
  = (with_calls w [CallInterpolate data ax bins], interpolate_cv data ax bins).
Proof. reflexivity. Qed.

Lemma call_smooth_run data window w :
  call_smooth sav_gol_smooth data window w
  = (with_calls w [CallSmooth data window], sav_gol_smooth data window).
Proof. reflexivity. Qed.

Lemma call_crop_run data ax values w :
  call_crop crop data ax values w
  = (with_calls w [CallCrop data ax values], crop data ax values).
Proof. reflexivity. Qed.

(** The loop, entered at counter [i] with fuel for the passes that
    remain, makes the calls of [iterations - i] passes and returns what
    their composition returns. *)
Lemma smooth_while_passes (n : nat) :
  forall (fuel : nat) (iterations window i : Z) (data : matrix) (w : world),
    n = Z.to_nat (iterations - i) -> (n <= fuel)%nat ->
    smooth_while sav_gol_smooth fuel iterations window i data w
    = (with_calls w (smooth_calls sav_gol_smooth n window data),
       smooth_passes sav_gol_smooth n window data).
Proof.
  induction n as [| n IH]; intros fuel iterations window i data w Hn Hfuel.
  - assert (Hi : (i <? iterations) = false) by (apply Z.ltb_ge; lia).
    destruct fuel; cbn [smooth_while]; rewrite Hi; cbn; now rewrite with_calls_nil.
  - assert (Hi : (i <? iterations) = true) by (apply Z.ltb_lt; lia).
    destruct fuel as [| fuel]; [lia |].
    cbn [smooth_while smooth_calls smooth_passes]. rewrite Hi.
    unfold bind at 1. rewrite call_smooth_run.
    destruct (sav_gol_smooth data window) as [data' | e |]; cbn [obind]; try reflexivity.
    rewrite (IH fuel iterations window (i + 1) data'); [| lia | lia].
    now rewrite with_calls_app.
Qed.

(** The fuel handed to the loop by [process_raw_obj] is enough. *)
Lemma smooth_while_fuel (iterations window : Z) (data : matrix) (w : world) :
  smooth_while sav_gol_smooth (Z.to_nat iterations) iterations window 0 data w
  = (with_calls w (smooth_calls sav_gol_smooth (Z.to_nat iterations) window data),
     smooth_passes sav_gol_smooth (Z.to_nat iterations) window data).
Proof. apply smooth_while_passes; [f_equal; lia | lia]. Qed.

(** Passes that all succeed make one call each. *)
Lemma smooth_calls_length (n : nat) :
  forall window data data',
    smooth_passes sav_gol_smooth n window data = Ok data' ->
    length (smooth_calls sav_gol_smooth n window data) = n.
Proof.
  induction n as [| n IH]; intros window data data' H; [reflexivity |].
  cbn [smooth_passes smooth_calls] in *.
  destruct (sav_gol_smooth data window) as [d | e |]; cbn [obind] in H; try discriminate H.
  cbn [length]. f_equal. eapply IH. exact H.
Qed.

(** The k-th call of the passes is made on the output of the first k
    passes. *)
Lemma smooth_calls_lookup (n : nat) :
  forall window data (k : nat) dk,
    (k < n)%nat ->
    smooth_passes sav_gol_smooth k window data = Ok dk ->
    smooth_calls sav_gol_smooth n window data !! k = Some (CallSmooth dk window).
Proof.
  induction n as [| n IH]; intros window data k dk Hk Hpass; [lia |].
  destruct k as [| k]; cbn [smooth_passes smooth_calls] in *.
  - inversion Hpass; subst. reflexivity.
  - destruct (sav_gol_smooth data window) as [d | e |]; cbn [obind] in Hpass;
      try discriminate Hpass.
    cbn. apply IH; [lia | exact Hpass].
Qed.

End PipelineFacts.

Section PipelineOrder.

Variable normalize_by_col : matrix -> outcome matrix.
Variable interpolate_cv : matrix -> axes_t -> Z -> outcome (matrix * axes_t).
Variable sav_gol_smooth : matrix -> Z -> outcome matrix.
Variable crop : matrix -> axes_t -> list float -> outcome (matrix * axes_t).

(** [process_raw_obj] with its binds run, the loop replaced by the
    composition of its passes. *)
Lemma process_raw_obj_unfold (raw : CIURaw) (p : Parameters) (w : world) :
  process_raw_obj normalize_by_col interpolate_cv sav_gol_smooth crop raw p w =
  let ax0 := (dt_axis raw, cv_axis raw) in
  let w1 := with_calls w [CallNormalize (rawdata raw)] in
  match normalize_by_col (rawdata raw) with
  | Ok d0 =>
    let '(w2, r2) :=
      match interpolation_bins p with
      | Some bins => (with_calls w1 [CallInterpolate d0 ax0 bins], interpolate_cv d0 ax0 bins)
      | None => (w1, Ok (d0, ax0))
      end in
    match r2 with
    | Ok (d1, a1) =>
      let '(w3, r3) :=
        match smoothing_window p with
        | Some window =>
            (with_calls w2 (smooth_calls sav_gol_smooth
                              (Z.to_nat (smoothing_iterations p)) window d1),
             smooth_passes sav_gol_smooth (Z.to_nat (smoothing_iterations p)) window d1)
        | None => (w2, Ok d1)
        end in
      match r3 with
      | Ok d2 =>
        let '(w4, r4) :=
          match cropping_window_values p with
          | Some values => (with_calls w3 [CallCrop d2 a1 values], crop d2 a1 values)
          | None => (w3, Ok (d2, a1))
          end in
        match r4 with
        | Ok (d3, a3) => (w4, Ok (set_params (fresh_obj raw d3 a3) (Some p)))
        | Raise e => (w4, Raise e)
        | Diverged => (w4, Diverged)
        end
      | Raise e => (w3, Raise e)
      | Diverged => (w3, Diverged)
      end
    | Raise e => (w2, Raise e)
    | Diverged => (w2, Diverged)
    end
  | Raise e => (w1, Raise e)
  | Diverged => (w1, Diverged)
  end.
Proof.
  unfold process_raw_obj. unfold bind at 1. rewrite call_normalize_run.
  destruct (normalize_by_col (rawdata raw)) as [d0 | e |]; cbn zeta; try reflexivity.
  unfold bind at 1.
  destruct (interpolation_bins p) as [bins |].
  - rewrite call_interpolate_run.
    destruct (interpolate_cv d0 (dt_axis raw, cv_axis raw) bins) as [[d1 a1] | e |];
      try reflexivity.
    cbn [fst snd]. unfold bind at 1.
    destruct (smoothing_window p) as [window |].
    + rewrite smooth_while_fuel.
      destruct (smooth_passes sav_gol_smooth _ window d1) as [d2 | e |]; try reflexivity.
      unfold bind at 1.
      destruct (cropping_window_values p) as [values |].
      * rewrite call_crop_run. destruct (crop d2 a1 values) as [[d3 a3] | e |]; reflexivity.
      * reflexivity.
    + unfold ret at 1. unfold bind at 1.
      destruct (cropping_window_values p) as [values |].
      * rewrite call_crop_run. destruct (crop d1 a1 values) as [[d3 a3] | e |]; reflexivity.
      * reflexivity.
  - unfold ret at 1. cbn [fst snd]. unfold bind at 1.
    destruct (smoothing_window p) as [window |].
    + rewrite smooth_while_fuel.
      destruct (smooth_passes sav_gol_smooth _ window d0) as [d2 | e |]; try reflexivity.
      unfold bind at 1.
      destruct (cropping_window_values p) as [values |].
      * rewrite call_crop_run. destruct (crop d2 _ values) as [[d3 a3] | e |]; reflexivity.
      * reflexivity.
    + unfold ret at 1. unfold bind at 1.
      destruct (cropping_window_values p) as [values |].
      * rewrite call_crop_run. destruct (crop d0 _ values) as [[d3 a3] | e |]; reflexivity.
      * reflexivity.
Qed.

(** The last entry of a non-empty list does not depend on the default. *)
Lemma last_default {A} (l : list A) (x d d' : A) :
  List.last (x :: l) d = List.last (x :: l) d'.
Proof.
  revert x. induction l as [| y l IH]; intros x; [reflexivity |].
  change (List.last (y :: l) d = List.last (y :: l) d'). apply IH.
Qed.

(** A chain of matrices, each the smoothing of the one before: the passes
    return its last entry, and are called on every entry but the last. *)
Lemma smooth_chain (window : Z) (ds : list matrix) :
  forall d1,
    (forall (k : nat) d d',
       (d1 :: ds) !! k = Some d -> ds !! k = Some d' -> sav_gol_smooth d window = Ok d') ->
    smooth_passes sav_gol_smooth (length ds) window d1 = Ok (List.last ds d1) /\
    smooth_calls sav_gol_smooth (length ds) window d1
    = map (fun d => CallSmooth d window) (take (length ds) (d1 :: ds)).
Proof.
  induction ds as [| d2 ds IH]; intros d1 Hchain; [split; reflexivity |].
  pose proof (Hchain 0%nat d1 d2 eq_refl eq_refl) as H0.
  destruct (IH d2) as [Hp Hc].
  { intros k d d' Hd Hd'. apply (Hchain (S k) d d'); assumption. }
  cbn [length smooth_passes smooth_calls]. rewrite H0. cbn [obind].
  split.
  - rewrite Hp. f_equal. destruct ds as [| x l]; [reflexivity |].
    change (List.last (x :: l) d2 = List.last (x :: l) d1). apply last_default.
  - rewrite Hc. reflexivity.
Qed.

(** C8.  With a smoothing window W and K >= 1 iterations, and the earlier
    stages and the K passes returning, [process_raw_obj] calls the
    smoothing filter exactly K times, after the interpolation and before
    the crop: first on the matrix the earlier stages produced, then K - 1
    times on the output of the pass before.  The output of the last
    pass, which is the K-fold composition of the filter on that matrix,
    is what is cropped and stored in the analysis object. *)
Theorem smoothing_is_k_fold_composition
    (raw : CIURaw) (p : Parameters) (w : world) (window : Z)
    (d0 d1 : matrix) (a1 : axes_t) (ds : list matrix) :
  smoothing_window p = Some window ->
  1 <= smoothing_iterations p ->
  normalize_by_col (rawdata raw) = Ok d0 ->
  match interpolation_bins p with
  | Some bins => interpolate_cv d0 (dt_axis raw, cv_axis raw) bins = Ok (d1, a1)
  | None => (d1, a1) = (d0, (dt_axis raw, cv_axis raw))
  end ->
  Z.of_nat (length ds) = smoothing_iterations p ->
  (forall (k : nat) d d',
     (d1 :: ds) !! k = Some d -> ds !! k = Some d' -> sav_gol_smooth d window = Ok d') ->
  let smoothed := List.last ds d1 in
  process_raw_obj normalize_by_col interpolate_cv sav_gol_smooth crop raw p w =
    (with_calls w
       ([CallNormalize (rawdata raw)]
        ++ match interpolation_bins p with
           | Some bins => [CallInterpolate d0 (dt_axis raw, cv_axis raw) bins]
           | None => []
           end
        ++ map (fun d => CallSmooth d window) (take (length ds) (d1 :: ds))
        ++ match cropping_window_values p with
           | Some values => [CallCrop smoothed a1 values]
           | None => []
           end),
     match cropping_window_values p with
     | Some values =>
         obind (crop smoothed a1 values)
               (fun c => Ok (set_params (fresh_obj raw (fst c) (snd c)) (Some p)))
     | None => Ok (set_params (fresh_obj raw smoothed a1) (Some p))
     end)
  /\
  smooth_passes sav_gol_smooth (Z.to_nat (smoothing_iterations p)) window d1 = Ok smoothed.
Proof.
  intros Hwin HK Hnorm Hint Hlen Hchain smoothed.
  destruct (smooth_chain window ds d1 Hchain) as [Hp Hc].
  assert (HKn : Z.to_nat (smoothing_iterations p) = length ds) by lia.
  split; [| rewrite HKn; exact Hp].
  rewrite process_raw_obj_unfold. cbn zeta. rewrite Hnorm, Hwin, HKn.
  destruct (interpolation_bins p) as [bins |];
    [rewrite Hint | inversion Hint; subst d1 a1];
    rewrite Hp, Hc;
    (destruct (cropping_window_values p) as [values |];
       [fold smoothed; destruct (crop smoothed _ values) as [[d3 a3] | e |] |]);
    cbn [obind fst snd]; rewrite ?with_calls_app, ?app_nil_r; reflexivity.
Qed.


(** C5.  When the stages succeed, [process_raw_obj] has normalised the raw
    matrix first, then interpolated if and only if [interpolation_bins] is
    present, then smoothed (the configured number of passes, at least one)
    if and only if [smoothing_window] is present, then cropped if and only
    if [cropping_window_values] is present, in that order and with nothing
    else, every stage on the output of the one before; the resulting
    matrix and axes are those of the new analysis object. *)
Theorem process_raw_obj_stage_order
    (raw : CIURaw) (p : Parameters) (w : world)
    (d0 d1 d2 d3 : matrix) (a1 a3 : axes_t) :
  1 <= smoothing_iterations p ->
  normalize_by_col (rawdata raw) = Ok d0 ->
  match interpolation_bins p with
  | Some bins => interpolate_cv d0 (dt_axis raw, cv_axis raw) bins = Ok (d1, a1)
  | None => (d1, a1) = (d0, (dt_axis raw, cv_axis raw))
  end ->
  match smoothing_window p with
  | Some window =>
      smooth_passes sav_gol_smooth (Z.to_nat (smoothing_iterations p)) window d1 = Ok d2
  | None => d2 = d1
  end ->
  match cropping_window_values p with
  | Some values => crop d2 a1 values = Ok (d3, a3)
  | None => (d3, a3) = (d2, a1)
  end ->
  process_raw_obj normalize_by_col interpolate_cv sav_gol_smooth crop raw p w =
    (with_calls w
       ([CallNormalize (rawdata raw)]
        ++ match interpolation_bins p with
           | Some bins => [CallInterpolate d0 (dt_axis raw, cv_axis raw) bins]
           | None => []
           end
        ++ match smoothing_window p with
           | Some window =>
               smooth_calls sav_gol_smooth (Z.to_nat (smoothing_iterations p)) window d1
           | None => []
           end
        ++ match cropping_window_values p with
           | Some values => [CallCrop d2 a1 values]
           | None => []
           end),
     Ok (set_params (fresh_obj raw d3 a3) (Some p)))
  /\
  (forall window, smoothing_window p = Some window ->
     Z.of_nat (length (smooth_calls sav_gol_smooth
                         (Z.to_nat (smoothing_iterations p)) window d1))
     = smoothing_iterations p).
Proof.
  intros HK Hnorm Hinterp Hsmooth Hcrop. split.
  - rewrite process_raw_obj_unfold. cbn zeta. rewrite Hnorm.
    destruct (interpolation_bins p) as [bins |];
      [rewrite Hinterp | inversion Hinterp; subst d1 a1];
      (destruct (smoothing_window p) as [window |];
         [rewrite Hsmooth | subst d2]);
      (destruct (cropping_window_values p) as [values |];
         [rewrite Hcrop | inversion Hcrop; subst d3 a3]);
      rewrite ?with_calls_app, ?app_nil_r; reflexivity.
  - intros window Hw. rewrite Hw in Hsmooth.
    rewrite (smooth_calls_length _ _ _ _ _ Hsmooth). lia.
Qed.

(** Whatever the configuration, the first thing [process_raw_obj] does is
    normalise the raw matrix. *)
Lemma process_raw_obj_normalizes_first (raw : CIURaw) (p : Parameters) (w : world) :
  exists later,
    fst (process_raw_obj normalize_by_col interpolate_cv sav_gol_smooth crop raw p w) = with_calls w (CallNormalize (rawdata raw) :: later).
Proof.
  rewrite process_raw_obj_unfold. cbn zeta.
  destruct (normalize_by_col (rawdata raw)) as [d0 | e |];
    [| exists []; reflexivity | exists []; reflexivity].
  destruct (interpolation_bins p) as [bins |];
    [destruct (interpolate_cv d0 (dt_axis raw, cv_axis raw) bins) as [[d1 a1] | e |] |];
    try (eexists; cbn [fst]; rewrite ?with_calls_app; reflexivity);
    (destruct (smoothing_window p) as [window |];
     [ match goal with
       | |- context [smooth_passes ?f ?n ?win ?d] =>
           destruct (smooth_passes f n win d) as [d2 | e |]
       end |];
     try (eexists; cbn [fst]; rewrite ?with_calls_app; reflexivity);
     (destruct (cropping_window_values p) as [values |];
      [ match goal with
        | |- context [crop ?d ?a values] => destruct (crop d a values) as [[d3 a3] | e |]
        end |];
      eexists; cbn [fst]; rewrite ?with_calls_app; reflexivity)).
Qed.

(** ** Where the pipeline can stop *)

Lemma stopped_at_call (c : stage_call) :
  stopped_at normalize_by_col interpolate_cv sav_gol_smooth crop [c]
    (stage_outcome normalize_by_col interpolate_cv sav_gol_smooth crop c).
Proof.
  unfold stopped_at.
  destruct (stage_outcome normalize_by_col interpolate_cv sav_gol_smooth crop c)
    as [[] | e |] eqn:H.
  - constructor; [exact H | constructor].
  - exists [], c. split; [reflexivity |]. split; [constructor | exact H].
  - exists [], c. split; [reflexivity |]. split; [constructor | exact H].
Qed.

Lemma stopped_at_app (cs1 cs2 : list stage_call) (r : outcome unit) :
  stopped_at normalize_by_col interpolate_cv sav_gol_smooth crop cs1 (Ok tt) ->
  stopped_at normalize_by_col interpolate_cv sav_gol_smooth crop cs2 r ->
  stopped_at normalize_by_col interpolate_cv sav_gol_smooth crop (cs1 ++ cs2) r.
Proof.
  intros H1 H2. destruct r as [u | e |]; cbn in *.
  - apply Forall_app. split; assumption.
  - destruct H2 as (cs' & c & -> & Hcs & Hc). exists (cs1 ++ cs'), c.
    rewrite app_assoc. split; [reflexivity |]. split; [| exact Hc].
    apply Forall_app. split; assumption.
  - destruct H2 as (cs' & c & -> & Hcs & Hc). exists (cs1 ++ cs'), c.
    rewrite app_assoc. split; [reflexivity |]. split; [| exact Hc].
    apply Forall_app. split; assumption.
Qed.

(** The smoothing passes stop at the first pass that does not return. *)
Lemma smooth_calls_stopped (n : nat) :
  forall window d,
    stopped_at normalize_by_col interpolate_cv sav_gol_smooth crop
      (smooth_calls sav_gol_smooth n window d)
      (outcome_of (smooth_passes sav_gol_smooth n window d)).
Proof.
  induction n as [| n IH]; intros window d; [constructor |].
  cbn [smooth_calls smooth_passes].
  pose proof (stopped_at_call (CallSmooth d window)) as Hc. cbn [stage_outcome] in Hc.
  revert Hc. destruct (sav_gol_smooth d window) as [d' | e |]; cbn [obind outcome_of];
    intros Hc; [| exact Hc ..].
  change (CallSmooth d window :: smooth_calls sav_gol_smooth n window d')
    with ([CallSmooth d window] ++ smooth_calls sav_gol_smooth n window d').
  apply stopped_at_app; [exact Hc | apply IH].
Qed.

Ltac stopped_here :=
  first [ assumption
        | apply stopped_at_app; [stopped_here | stopped_here] ].

Ltac stop_here :=
  eexists; split;
  [ cbn [fst]; rewrite ?with_calls_app; reflexivity
  | cbn [snd outcome_of]; stopped_here ].

(** [process_raw_obj] ends where its last call into [Raw_Processing]
    ended: every call before returned, and when the last did not,
    [process_raw_obj] ends the same way. *)
Lemma process_raw_obj_stopped (raw : CIURaw) (p : Parameters) (w : world) :
  exists cs,
    fst (process_raw_obj normalize_by_col interpolate_cv sav_gol_smooth crop raw p w)
    = with_calls w cs /\
    stopped_at normalize_by_col interpolate_cv sav_gol_smooth crop cs
      (outcome_of
         (snd (process_raw_obj normalize_by_col interpolate_cv sav_gol_smooth crop raw p w))).
Proof.
  rewrite process_raw_obj_unfold. cbn zeta.
  pose proof (stopped_at_call (CallNormalize (rawdata raw))) as H1.
  cbn [stage_outcome] in H1. revert H1.
  destruct (normalize_by_col (rawdata raw)) as [d0 | e |]; cbn [outcome_of]; intros H1;
    [| stop_here ..].
  destruct (interpolation_bins p) as [bins |];
    [ pose proof (stopped_at_call (CallInterpolate d0 (dt_axis raw, cv_axis raw) bins)) as H2;
      cbn [stage_outcome] in H2; revert H2;
      destruct (interpolate_cv d0 (dt_axis raw, cv_axis raw) bins) as [[d1 a1] | e |];
      cbn [outcome_of]; intros H2; [| stop_here ..]
    |];
    (destruct (smoothing_window p) as [window |];
     [ match goal with
       | |- context [smooth_passes ?f ?n ?win ?d] =>
           pose proof (smooth_calls_stopped n win d) as H3; revert H3;
           destruct (smooth_passes f n win d) as [d2 | e |];
           cbn [outcome_of]; intros H3; [| stop_here ..]
       end
     |];
     (destruct (cropping_window_values p) as [values |];
      [ match goal with
        | |- context [crop ?d ?a values] =>
            pose proof (stopped_at_call (CallCrop d a values)) as H4;
            cbn [stage_outcome] in H4; revert H4;
            destruct (crop d a values) as [[d3 a3] | e |];
            cbn [outcome_of]; intros H4
        end
      |];
      stop_here)).
Qed.

(** C4, as the code has it.  [process_raw_obj] checks no parameter itself.
    It normalises the raw matrix first, whatever the configuration.  A
    parameter is refused, if at all, by the stage that uses it: the bin
    count by the interpolation, called on the normalised matrix; the
    window by the first smoothing pass, called on the normalised (and, if
    requested, interpolated) matrix.  The stage's exception leaves
    [process_raw_obj] and no analysis object is built.  Nothing else
    makes [process_raw_obj] raise: when it does not return, the last thing
    it did was a call into a stage, every call before had returned, and it
    ends as that call ended; so with stages that take every input it
    returns an analysis object for every configuration. *)
Theorem process_raw_obj_rejects_in_stage (raw : CIURaw) (p : Parameters) (w : world) :
  (exists later,
     fst (process_raw_obj normalize_by_col interpolate_cv sav_gol_smooth crop raw p w) = with_calls w (CallNormalize (rawdata raw) :: later))
  /\
  (forall bins d0 e,
     interpolation_bins p = Some bins ->
     normalize_by_col (rawdata raw) = Ok d0 ->
     interpolate_cv d0 (dt_axis raw, cv_axis raw) bins = Raise e ->
     process_raw_obj normalize_by_col interpolate_cv sav_gol_smooth crop raw p w =
       (with_calls w [CallNormalize (rawdata raw);
                      CallInterpolate d0 (dt_axis raw, cv_axis raw) bins],
        Raise e))
  /\
  (forall window d0 d1 a1 e,
     smoothing_window p = Some window ->
     1 <= smoothing_iterations p ->
     normalize_by_col (rawdata raw) = Ok d0 ->
     match interpolation_bins p with
     | Some bins => interpolate_cv d0 (dt_axis raw, cv_axis raw) bins = Ok (d1, a1)
     | None => (d1, a1) = (d0, (dt_axis raw, cv_axis raw))
     end ->
     sav_gol_smooth d1 window = Raise e ->
     process_raw_obj normalize_by_col interpolate_cv sav_gol_smooth crop raw p w =
       (with_calls w
          ([CallNormalize (rawdata raw)]
           ++ match interpolation_bins p with
              | Some bins => [CallInterpolate d0 (dt_axis raw, cv_axis raw) bins]
              | None => []
              end
           ++ [CallSmooth d1 window]),
        Raise e))
  /\
  (exists cs,
     fst (process_raw_obj normalize_by_col interpolate_cv sav_gol_smooth crop raw p w)
     = with_calls w cs /\
     stopped_at normalize_by_col interpolate_cv sav_gol_smooth crop cs
       (outcome_of
          (snd (process_raw_obj normalize_by_col interpolate_cv sav_gol_smooth crop raw p w))))
  /\
  ((forall c, stage_outcome normalize_by_col interpolate_cv sav_gol_smooth crop c = Ok tt) ->
   exists obj,
     snd (process_raw_obj normalize_by_col interpolate_cv sav_gol_smooth crop raw p w)
     = Ok obj).
Proof.
  split; [apply process_raw_obj_normalizes_first |].
  split; [| split; [| split; [apply process_raw_obj_stopped |]]].
  - intros bins d0 e Hbins Hnorm Hint.
    rewrite process_raw_obj_unfold. cbn zeta. rewrite Hnorm, Hbins, Hint.
    now rewrite with_calls_app.
  - intros window d0 d1 a1 e Hwin HK Hnorm Hint Hsm.
    rewrite process_raw_obj_unfold. cbn zeta. rewrite Hnorm, Hwin.
    destruct (Z.to_nat (smoothing_iterations p)) as [| n] eqn:Hn; [lia |].
    cbn [smooth_passes smooth_calls].
    destruct (interpolation_bins p) as [bins |];
      [rewrite Hint | inversion Hint; subst d1 a1];
      rewrite Hsm; cbn [obind]; rewrite ?with_calls_app; reflexivity.
  - intros Hall.
    destruct (process_raw_obj_stopped raw p w) as (cs & _ & Hstop).
    destruct (snd (process_raw_obj normalize_by_col interpolate_cv sav_gol_smooth crop
                     raw p w)) as [obj | e |];
      [exists obj; reflexivity | exfalso ..];
      cbn in Hstop; destruct Hstop as (cs' & c & _ & _ & Hc);
      rewrite Hall in Hc; discriminate Hc.
Qed.

End PipelineOrder.

Lemma smoothing_is_k_fold_composition_witness :
  smoothing_window sample_params = Some 3 /\
  1 <= smoothing_iterations sample_params /\
  spec_normalize_by_col (rawdata sample_raw) = Ok sample_normalized /\
  halving_smooth sample_normalized 3 = Ok sample_halved /\
  halving_smooth sample_halved 3 = Ok sample_quartered /\
  halving_pipeline sample_raw sample_params empty_world =
    (with_calls empty_world
       [CallNormalize (rawdata sample_raw);
        CallInterpolate sample_normalized (dt_axis sample_raw, cv_axis sample_raw) 3;
        CallSmooth sample_normalized 3;
        CallSmooth sample_halved 3;
        CallCrop sample_quartered (dt_axis sample_raw, cv_axis sample_raw) [f2; f3; f5; f10]],
     Ok (set_params (fresh_obj sample_raw [[f0_25; f0_25]; [f0_125; f0_125]]
                               sample_cropped_axes)
                    (Some sample_params))) /\
  smooth_passes halving_smooth 2 3 sample_normalized = Ok sample_quartered.
Proof.
  assert (H1 : smoothing_window sample_params = Some 3) by reflexivity.
  assert (H2 : 1 <= smoothing_iterations sample_params) by (cbn; lia).
  assert (H3 : spec_normalize_by_col (rawdata sample_raw) = Ok sample_normalized)
    by (vm_compute; reflexivity).
  assert (H4 : spec_interpolate_cv keep_resample sample_normalized
                 (dt_axis sample_raw, cv_axis sample_raw) 3
               = Ok (sample_normalized, (dt_axis sample_raw, cv_axis sample_raw)))
    by reflexivity.
  assert (H5 : Z.of_nat (length [sample_halved; sample_quartered])
               = smoothing_iterations sample_params) by reflexivity.
  assert (Ha : halving_smooth sample_normalized 3 = Ok sample_halved)
    by (vm_compute; reflexivity).
  assert (Hb : halving_smooth sample_halved 3 = Ok sample_quartered)
    by (vm_compute; reflexivity).
  assert (H6 : forall (k : nat) d d',
             (sample_normalized :: [sample_halved; sample_quartered]) !! k = Some d ->
             [sample_halved; sample_quartered] !! k = Some d' ->
             halving_smooth d 3 = Ok d').
  { intros [| [| k]] d d' Hd Hd'; cbn in Hd, Hd'.
    - inversion Hd; inversion Hd'; subst; exact Ha.
    - inversion Hd; inversion Hd'; subst; exact Hb.
    - discriminate Hd'. }
  split; [exact H1 |]. split; [exact H2 |]. split; [exact H3 |].
  split; [exact Ha |]. split; [exact Hb |].
  exact (smoothing_is_k_fold_composition
           spec_normalize_by_col (spec_interpolate_cv keep_resample) halving_smooth spec_crop
           sample_raw sample_params empty_world 3
           sample_normalized sample_normalized (dt_axis sample_raw, cv_axis sample_raw)
           [sample_halved; sample_quartered] H1 H2 H3 H4 H5 H6).
Defined.

Example smooth_while_two_passes :
  smooth_while sample_smooth 2 2 3 0 sample_normalized empty_world
  = (with_calls empty_world [CallSmooth sample_normalized 3; CallSmooth sample_normalized 3],
     Ok sample_normalized).
Proof. reflexivity. Qed.

Lemma process_raw_obj_stage_order_witness :
  1 <= smoothing_iterations sample_params /\
  spec_normalize_by_col (rawdata sample_raw) = Ok sample_normalized /\
  spec_interpolate_cv keep_resample sample_normalized
    (dt_axis sample_raw, cv_axis sample_raw) 3
    = Ok (sample_normalized, (dt_axis sample_raw, cv_axis sample_raw)) /\
  smooth_passes sample_smooth 2 3 sample_normalized = Ok sample_normalized /\
  spec_crop sample_normalized (dt_axis sample_raw, cv_axis sample_raw) [f2; f3; f5; f10]
    = Ok (sample_cropped, sample_cropped_axes) /\
  sample_pipeline sample_raw sample_params empty_world =
    (with_calls empty_world
       [CallNormalize (rawdata sample_raw);
        CallInterpolate sample_normalized (dt_axis sample_raw, cv_axis sample_raw) 3;
        CallSmooth sample_normalized 3;
        CallSmooth sample_normalized 3;
        CallCrop sample_normalized (dt_axis sample_raw, cv_axis sample_raw) [f2; f3; f5; f10]],
     Ok (set_params (fresh_obj sample_raw sample_cropped sample_cropped_axes)
                    (Some sample_params))).
Proof.
  assert (H1 : 1 <= smoothing_iterations sample_params) by (cbn; lia).
  assert (H2 : spec_normalize_by_col (rawdata sample_raw) = Ok sample_normalized)
    by (vm_compute; reflexivity).
  assert (H3 : spec_interpolate_cv keep_resample sample_normalized
                 (dt_axis sample_raw, cv_axis sample_raw) 3
               = Ok (sample_normalized, (dt_axis sample_raw, cv_axis sample_raw)))
    by reflexivity.
  assert (H4 : smooth_passes sample_smooth 2 3 sample_normalized = Ok sample_normalized)
    by reflexivity.
  assert (H5 : spec_crop sample_normalized (dt_axis sample_raw, cv_axis sample_raw)
                 [f2; f3; f5; f10]
               = Ok (sample_cropped, sample_cropped_axes))
    by (vm_compute; reflexivity).
  repeat (split; [assumption |]).
  exact (proj1 (process_raw_obj_stage_order
                  spec_normalize_by_col (spec_interpolate_cv keep_resample)
                  sample_smooth spec_crop sample_raw sample_params empty_world
                  sample_normalized sample_normalized sample_normalized sample_cropped
                  (dt_axis sample_raw, cv_axis sample_raw) sample_cropped_axes
                  H1 H2 H3 H4 H5)).
Defined.

(** The claim of C4 fails on a configuration with an even smoothing window:
    the error surfaces, but only from the smoothing stage, after the raw
    matrix has been normalised. *)
Lemma process_raw_obj_even_window_counterexample :
  smoothing_window even_window_params = Some 4 /\ Z.even 4 = true /\
  let r := sample_pipeline sample_raw even_window_params empty_world in
  snd r = Raise ConfigurationError /\
  calls (fst r) = [CallNormalize (rawdata sample_raw); CallSmooth sample_normalized 4] /\
  ~ (calls (fst r) = calls empty_world).
Proof.
  split; [reflexivity |]. split; [reflexivity |].
  assert (Hc : calls (fst (sample_pipeline sample_raw even_window_params empty_world))
               = [CallNormalize (rawdata sample_raw); CallSmooth sample_normalized 4])
    by (vm_compute; reflexivity).
  cbn zeta. split; [vm_compute; reflexivity |]. split; [exact Hc |].
  rewrite Hc. cbn. discriminate.
Qed.

Lemma process_raw_obj_rejects_in_stage_witness :
  (interpolation_bins one_bin_params = Some 1 /\
   spec_normalize_by_col (rawdata sample_raw) = Ok sample_normalized /\
   spec_interpolate_cv keep_resample sample_normalized
     (dt_axis sample_raw, cv_axis sample_raw) 1 = Raise ConfigurationError /\
   sample_pipeline sample_raw one_bin_params empty_world =
     (with_calls empty_world
        [CallNormalize (rawdata sample_raw);
         CallInterpolate sample_normalized (dt_axis sample_raw, cv_axis sample_raw) 1],
      Raise ConfigurationError))
  /\
  (smoothing_window even_window_params = Some 4 /\
   1 <= smoothing_iterations even_window_params /\
   sample_smooth sample_normalized 4 = Raise ConfigurationError /\
   sample_pipeline sample_raw even_window_params empty_world =
     (with_calls empty_world
        [CallNormalize (rawdata sample_raw); CallSmooth sample_normalized 4],
      Raise ConfigurationError))
  /\
  (exists cs,
     fst (sample_pipeline sample_raw even_window_params empty_world)
     = with_calls empty_world cs /\
     stopped_at spec_normalize_by_col (spec_interpolate_cv keep_resample)
       sample_smooth spec_crop cs
       (outcome_of (snd (sample_pipeline sample_raw even_window_params empty_world))))
  /\
  ((forall c, stage_outcome spec_normalize_by_col lenient_interpolate lenient_smooth
                lenient_crop c = Ok tt) /\
   exists obj, snd (lenient_pipeline sample_raw even_window_params empty_world) = Ok obj).
Proof.
  assert (Hn : spec_normalize_by_col (rawdata sample_raw) = Ok sample_normalized)
    by (vm_compute; reflexivity).
  assert (Hi : spec_interpolate_cv keep_resample sample_normalized
                 (dt_axis sample_raw, cv_axis sample_raw) 1 = Raise ConfigurationError)
    by reflexivity.
  assert (Hs : sample_smooth sample_normalized 4 = Raise ConfigurationError)
    by reflexivity.
  assert (Hk : 1 <= smoothing_iterations even_window_params) by (cbn; lia).
  assert (Hl : forall c, stage_outcome spec_normalize_by_col lenient_interpolate
                           lenient_smooth lenient_crop c = Ok tt)
    by (intros c; destruct c; reflexivity).
  split; [| split; [| split]].
  - split; [reflexivity |]. split; [exact Hn |]. split; [exact Hi |].
    exact (proj1 (proj2 (process_raw_obj_rejects_in_stage
                           spec_normalize_by_col (spec_interpolate_cv keep_resample)
                           sample_smooth spec_crop sample_raw one_bin_params empty_world))
             1 sample_normalized ConfigurationError eq_refl Hn Hi).
  - split; [reflexivity |]. split; [exact Hk |]. split; [exact Hs |].
    exact (proj1 (proj2 (proj2 (process_raw_obj_rejects_in_stage
                           spec_normalize_by_col (spec_interpolate_cv keep_resample)
                           sample_smooth spec_crop sample_raw even_window_params
                           empty_world)))
             4 sample_normalized sample_normalized (dt_axis sample_raw, cv_axis sample_raw)
             ConfigurationError eq_refl Hk Hn eq_refl Hs).
  - exact (proj1 (proj2 (proj2 (proj2 (process_raw_obj_rejects_in_stage
                           spec_normalize_by_col (spec_interpolate_cv keep_resample)
                           sample_smooth spec_crop sample_raw even_window_params
                           empty_world))))).
  - split; [exact Hl |].
    exact (proj2 (proj2 (proj2 (proj2 (process_raw_obj_rejects_in_stage
                           spec_normalize_by_col lenient_interpolate lenient_smooth
                           lenient_crop sample_raw even_window_params empty_world))))
             Hl).
Defined.

(** ** Replicate averaging *)









Lemma forallb_shape (m0 : matrix) (ms : list matrix) :
  Forall (fun m => shape m = shape m0) ms -> forallb (shape_eqb m0) ms = true.
Proof.
  induction 1 as [| m ms Hm _ IH]; [reflexivity |].
  cbn. rewrite IH. unfold shape_eqb. rewrite bool_decide_eq_true_2; [reflexivity | now symmetry].
Qed.

(** [average_ciu], one case per way out. *)
Lemma average_ciu_unfold (objs : list CIUAnalysisObj) (params_obj : Parameters)
    (output_dir : string) (w : world) :
  average_ciu objs params_obj output_dir w =
  match objs with
  | [] => (w, Raise IndexError)
  | o0 :: _ =>
      if forallb (shape_eqb (ciu_data o0)) (map ciu_data objs) then
        match params o0 with
        | Some p0 =>
            ({| files := <[avg_path o0 := PickleFile (averaged o0 objs p0)]> (files w);
                stdout := stdout w; calls := calls w |},
             Ok (averaged o0 objs p0))
        | None => (w, Raise AttributeError)
        end
      else (w, Raise ValueError)
  end.
Proof.
  destruct objs as [| o0 rest]; [reflexivity |].
  unfold average_ciu. cbn [map np_mean_axis0].
  destruct (forallb (shape_eqb (ciu_data o0)) (ciu_data o0 :: map ciu_data rest)) eqn:Hs;
    [| reflexivity].
  cbn. destruct (params o0) as [p0 |]; reflexivity.
Qed.



(** What [average_ciu] returns on matrices of one shape. *)
Lemma average_ciu_same_shape (o0 : CIUAnalysisObj) (rest : list CIUAnalysisObj)
    (p0 params_obj : Parameters) (output_dir : string) (w : world) :
  params o0 = Some p0 ->
  Forall (fun m => shape m = shape (ciu_data o0)) (map ciu_data rest) ->
  average_ciu (o0 :: rest) params_obj output_dir w =
    ({| files := <[avg_path o0 := PickleFile (averaged o0 (o0 :: rest) p0)]> (files w);
        stdout := stdout w; calls := calls w |},
     Ok (averaged o0 (o0 :: rest) p0)).
Proof.
  intros Hp Hs. rewrite average_ciu_unfold.
  rewrite forallb_shape; [now rewrite Hp |].
  cbn [map]. constructor; [reflexivity | exact Hs].
Qed.






(** The check is met where no rounding occurs: 0.75 is the mean of 1 and
    0.5. *)
Example is_exact_mean_three_quarters :
  is_exact_mean f0_75 [f1; f0_5] = true /\
  cell (mean_matrix [[[f1]]; [[f0_5]]] [[f1]]) 0 0 = Some f0_75.
Proof. split; vm_compute; reflexivity. Qed.



Example average_ciu_two_replicates :
  snd (average_ciu [sample_a; sample_a2] sample_params "/out" empty_world)
  = Ok (averaged sample_a [sample_a; sample_a2] sample_params) /\
  ciu_data (averaged sample_a [sample_a; sample_a2] sample_params)
  = [[f0_75; f1]; [f0_75; f0_5]] /\
  obj_filename (averaged sample_a [sample_a; sample_a2] sample_params)
  = Some "/data/sample_Avg.ciu".
Proof. repeat split; vm_compute; reflexivity. Qed.

(** The claim of C1 fails on two replicates whose collision-voltage axes
    differ in value: [average_ciu] averages them and returns an object on
    the first replicate's axes. *)
Lemma average_ciu_axes_differ_counterexample :
  axes sample_a <> axes sample_b /\
  snd (average_ciu [sample_a; sample_b] sample_params "/out" empty_world)
  = Ok (averaged sample_a [sample_a; sample_b] sample_params) /\
  snd (average_ciu [sample_a; sample_b] sample_params "/out" empty_world)
  <> Raise AxisMismatchError /\
  ciu_data (averaged sample_a [sample_a; sample_b] sample_params)
  = [[f0_75; f1]; [f0_75; f0_5]] /\
  axes (averaged sample_a [sample_a; sample_b] sample_params) = axes sample_a.
Proof.
  split; [intros H; discriminate H |].
  assert (Hr : snd (average_ciu [sample_a; sample_b] sample_params "/out" empty_world)
               = Ok (averaged sample_a [sample_a; sample_b] sample_params))
    by (vm_compute; reflexivity).
  split; [exact Hr |]. split; [rewrite Hr; discriminate |].
  split; [vm_compute; reflexivity | reflexivity].
Qed.

(** C1, as the code has it.  [average_ciu] never looks at the axes of its
    inputs beyond taking those of the first one: whenever the input
    matrices have one shape (and the first input carries its parameters)
    it returns an averaged object on the first input's axes, whatever the
    axes of the other inputs; and no input makes it raise
    [AxisMismatchError]. *)
Theorem average_ciu_never_checks_axes :
  (forall (o0 : CIUAnalysisObj) (rest : list CIUAnalysisObj) (p0 params_obj : Parameters)
          (output_dir : string) (w : world),
      params o0 = Some p0 ->
      Forall (fun o => shape (ciu_data o) = shape (ciu_data o0)) rest ->
      exists avg w',
        average_ciu (o0 :: rest) params_obj output_dir w = (w', Ok avg) /\
        axes avg = axes o0)
  /\
  (forall (objs : list CIUAnalysisObj) (params_obj : Parameters)
          (output_dir : string) (w : world),
      snd (average_ciu objs params_obj output_dir w) <> Raise AxisMismatchError).
Proof.
  split.
  - intros o0 rest p0 params_obj output_dir w Hp Hs.
    exists (averaged o0 (o0 :: rest) p0). eexists. split; [| reflexivity].
    apply (average_ciu_same_shape o0 rest p0); [exact Hp |].
    induction Hs; cbn; constructor; auto.
  - intros objs params_obj output_dir w. rewrite average_ciu_unfold.
    destruct objs as [| o0 rest]; [discriminate |].
    destruct (forallb _ _); [| discriminate].
    destruct (params o0); discriminate.
Qed.

Lemma average_ciu_never_checks_axes_witness :
  params sample_a = Some sample_params /\
  Forall (fun o => shape (ciu_data o) = shape (ciu_data sample_a)) [sample_b] /\
  axes sample_b <> axes sample_a /\
  exists avg w',
    average_ciu [sample_a; sample_b] sample_params "/out" empty_world = (w', Ok avg) /\
    axes avg = axes sample_a.
Proof.
  assert (H1 : params sample_a = Some sample_params) by reflexivity.
  assert (H2 : Forall (fun o => shape (ciu_data o) = shape (ciu_data sample_a)) [sample_b])
    by (repeat constructor).
  split; [exact H1 |]. split; [exact H2 |].
  split; [intros H; discriminate H |].
  exact (proj1 average_ciu_never_checks_axes sample_a [sample_b] sample_params sample_params
           "/out" empty_world H1 H2).
Defined.

(** Inputs whose matrices differ in shape are refused by numpy's mean, with
    a [ValueError]; an empty list fails on [raw_obj_list[0]]. *)
Example average_ciu_shapes_differ :
  snd (average_ciu [sample_a; tenth_obj] sample_params "/out" empty_world)
  = Raise ValueError.
Proof. vm_compute. reflexivity. Qed.

Example average_ciu_empty_list :
  average_ciu [] sample_params "/out" empty_world = (empty_world, Raise IndexError).
Proof. reflexivity. Qed.

(** The claim of C6 fails on the one-cell matrix holding 0.1: the mean of
    three copies is (0.1 + 0.1 + 0.1) / 3 = 0.10000000000000002 in
    float64, which is not 0.1. *)
Lemma average_ciu_three_copies_counterexample :
  exists avg,
    snd (average_ciu [tenth_obj; tenth_obj; tenth_obj] sample_params "/out" empty_world)
    = Ok avg /\
    ciu_data avg = [[f0_1_up]] /\
    matrix_eqb (ciu_data avg) (ciu_data tenth_obj) = false.
Proof.
  eexists. split; [vm_compute; reflexivity |].
  split; vm_compute; reflexivity.
Qed.

(** ** float64: when the mean of copies is exact *)

Lemma fexp_eq (z : Z) : fexp F64.prec F64.emax z = Z.max (z - 53) (-1074).
Proof. reflexivity. Qed.

Lemma bounded_inv (m : positive) (e : Z) :
  bounded F64.prec F64.emax m e = true ->
  Z.max (Zpos (digits2_pos m) + e - 53) (-1074) = e /\ e <= 971.
Proof.
  unfold bounded, canonical_mantissa. rewrite andb_true_iff, Z.eqb_eq, Z.leb_le.
  rewrite fexp_eq. cbn. intros [H1 H2]. split; assumption.
Qed.

Lemma bounded_intro (m : positive) (e : Z) :
  Z.max (Zpos (digits2_pos m) + e - 53) (-1074) = e -> e <= 971 ->
  bounded F64.prec F64.emax m e = true.
Proof.
  intros H1 H2. unfold bounded, canonical_mantissa.
  rewrite andb_true_iff, Z.eqb_eq, Z.leb_le, fexp_eq. split; [exact H1 | exact H2].
Qed.

(** Rounding an exact, canonical mantissa leaves it alone. *)
Lemma round_exact_0 (s : bool) (m : positive) (e : Z) :
  bounded F64.prec F64.emax m e = true ->
  binary_round_aux F64.prec F64.emax s (Zpos m) e loc_Exact = S754_finite s m e.
Proof.
  intros Hb. destruct (bounded_inv _ _ Hb) as [Hc He].
  unfold binary_round_aux, shr_fexp. cbn [Zdigits2 shr_record_of_loc].
  rewrite fexp_eq. rewrite Hc. rewrite Z.sub_diag.
  cbn [shr shr_m loc_of_shr_record round_nearest_even].
  cbn [Zdigits2 shr_record_of_loc]. rewrite fexp_eq, Hc, Z.sub_diag. cbn [shr shr_m].
  replace (e <=? F64.emax - F64.prec) with true; [reflexivity |].
  symmetry. apply Z.leb_le. exact He.
Qed.

(** The same for a mantissa with one spare low bit. *)
Lemma round_exact_1 (s : bool) (m : positive) (e : Z) :
  bounded F64.prec F64.emax m e = true ->
  binary_round_aux F64.prec F64.emax s (Zpos m~0) (e - 1) loc_Exact = S754_finite s m e.
Proof.
  intros Hb. destruct (bounded_inv _ _ Hb) as [Hc He].
  unfold binary_round_aux, shr_fexp. cbn [Zdigits2 shr_record_of_loc digits2_pos].
  rewrite fexp_eq.
  replace (Z.pos (Pos.succ (digits2_pos m)) + (e - 1) - 53)
    with (Z.pos (digits2_pos m) + e - 53) by lia.
  rewrite Hc. replace (e - (e - 1)) with 1 by lia.
  cbn [shr SpecFloat.iter_pos shr_1 shr_m loc_of_shr_record round_nearest_even orb].
  replace (e - 1 + 1) with e by lia.
  cbn [Zdigits2 shr_record_of_loc]. rewrite fexp_eq, Hc, Z.sub_diag. cbn [shr shr_m].
  replace (e <=? F64.emax - F64.prec) with true; [reflexivity |].
  symmetry. apply Z.leb_le. exact He.
Qed.

(** [x + x] before rounding: the mantissa doubled, the exponent kept. *)
Lemma add_self (s : bool) (m : positive) (e : Z) :
  bounded F64.prec F64.emax m e = true ->
  F64.add (S754_finite s m e) (S754_finite s m e)
  = binary_round_aux F64.prec F64.emax s (Zpos m~0) e loc_Exact.
Proof.
  intros Hb. destruct (bounded_inv _ _ Hb) as [Hc He].
  unfold F64.add, SFadd. rewrite Z.min_id. unfold shl_align at 1 2.
  rewrite Z.sub_diag. cbn [fst].
  assert (Hsum : cond_Zopp s (Zpos m) + cond_Zopp s (Zpos m) = cond_Zopp s (Zpos m~0)).
  { destruct s; cbn [cond_Zopp]; lia. }
  rewrite Hsum.
  assert (Hnorm : binary_normalize F64.prec F64.emax (cond_Zopp s (Zpos m~0)) e false
                  = binary_round F64.prec F64.emax s m~0 e).
  { destruct s; reflexivity. }
  rewrite Hnorm. unfold binary_round, shl_align. rewrite fexp_eq.
  cbn [digits2_pos].
  destruct (Z.max (Z.pos (Pos.succ (digits2_pos m)) + e - 53) (-1074) - e) eqn:Hd;
    try reflexivity.
  lia.
Qed.

(** Division of a mantissa shifted left by [sh] by 2^52, when it is exact. *)
Lemma div_eucl_shift (M q : positive) (sh : Z) :
  0 <= sh ->
  Zpos M * 2 ^ sh = Zpos q * 4503599627370496 ->
  Z.div_eucl match sh with
             | Zpos _ => Z.shiftl (Zpos M) sh
             | Z0 => Zpos M
             | Zneg _ => 0
             end 4503599627370496 = (Zpos q, 0).
Proof.
  intros Hsh Heq.
  assert (Hm : match sh with
               | Zpos _ => Z.shiftl (Zpos M) sh
               | Z0 => Zpos M
               | Zneg _ => 0
               end = Zpos q * 4503599627370496).
  { destruct sh as [| p | p]; [| | lia].
    - rewrite <- Heq. cbn. lia.
    - rewrite Z.shiftl_mul_pow2 by lia. exact Heq. }
  rewrite Hm.
  pose proof (Z.div_eucl_eq (Zpos q * 4503599627370496) 4503599627370496 ltac:(lia)) as Hde.
  pose proof (Z.mod_pos_bound (Zpos q * 4503599627370496) 4503599627370496 ltac:(lia)) as Hmod.
  unfold Z.modulo in Hmod.
  destruct (Z.div_eucl (Zpos q * 4503599627370496) 4503599627370496) as [qq rr].
  assert (rr = 0 /\ qq = Zpos q) as [-> ->] by nia.
  reflexivity.
Qed.

(** Division by a power of two 2^(52 + ey), when the quotient mantissa
    [q] at exponent [ec] is exact. *)
Lemma div_pow2 (s : bool) (M q : positive) (E ey ec : Z) :
  Z.min (Z.max (Zpos (digits2_pos M) + E - (53 + ey) - 53) (-1074)) (E - ey) = ec ->
  0 <= E - ey - ec ->
  Zpos M * 2 ^ (E - ey - ec) = Zpos q * 4503599627370496 ->
  F64.div (S754_finite s M E) (S754_finite false 4503599627370496 ey)
  = binary_round_aux F64.prec F64.emax s (Zpos q) ec loc_Exact.
Proof.
  intros Hec Hsh Hq.
  unfold F64.div, SFdiv, SFdiv_core_binary. cbn [Zdigits2].
  change (Zpos (digits2_pos 4503599627370496)) with 53.
  rewrite fexp_eq, Hec.
  rewrite (div_eucl_shift M q (E - ey - ec) Hsh Hq).
  rewrite xorb_false_r. reflexivity.
Qed.

Lemma eqb_refl_finite (s : bool) (m : positive) (e : Z) :
  F64.eqb (S754_finite s m e) (S754_finite s m e) = true.
Proof.
  unfold F64.eqb, SFeqb, SFcompare. rewrite Z.compare_refl.
  change (Pos.compare_cont Eq m m) with (Pos.compare m m).
  rewrite Pos.compare_refl. destruct s; reflexivity.
Qed.

(** The mean of one copy: (0 + x) / 1 == x. *)
Lemma mean_of_one (x : float) :
  F64.halvable x = true ->
  F64.eqb (F64.div (F64.add F64.zero x) (F64.of_nat 1)) x = true.
Proof.
  change (F64.of_nat 1) with f1. unfold f1.
  destruct x as [s | s | | s m e]; cbn [F64.halvable]; try discriminate.
  - intros _. destruct s; reflexivity.
  - rewrite andb_true_iff. intros [Hb _].
    change (F64.add F64.zero (S754_finite s m e)) with (S754_finite s m e).
    destruct (bounded_inv _ _ Hb) as [Hc He].
    destruct (Z_lt_le_dec (Zpos (digits2_pos m) + e - 53 - 1) (-1074)) as [Hlow | Hhigh].
    + (* the quotient keeps the exponent *)
      rewrite (div_pow2 s m m e (-52) e); [| lia | lia | ].
      * rewrite round_exact_0 by exact Hb. apply eqb_refl_finite.
      * replace (e - -52 - e) with 52 by lia. reflexivity.
    + rewrite (div_pow2 s m m~0 e (-52) (e - 1)); [| lia | lia | ].
      * rewrite round_exact_1 by exact Hb. apply eqb_refl_finite.
      * replace (e - -52 - (e - 1)) with 53 by lia. lia.
Qed.

(** The mean of two copies: ((0 + x) + x) / 2 == x. *)
Lemma mean_of_two (x : float) :
  F64.halvable x = true ->
  F64.eqb (F64.div (F64.add (F64.add F64.zero x) x) (F64.of_nat 2)) x = true.
Proof.
  change (F64.of_nat 2) with f2. unfold f2.
  destruct x as [s | s | | s m e]; cbn [F64.halvable]; try discriminate.
  - intros _. destruct s; reflexivity.
  - rewrite andb_true_iff, Z.ltb_lt. intros [Hb Hlt].
    change (F64.add F64.zero (S754_finite s m e)) with (S754_finite s m e).
    rewrite add_self by exact Hb.
    destruct (bounded_inv _ _ Hb) as [Hc He].
    change (F64.emax - F64.prec) with 971 in Hlt.
    destruct (Z.eq_dec (Zpos (digits2_pos m)) 53) as [Hd | Hd].
    + (* normal: the double has the same mantissa, one exponent up *)
      assert (Hb' : bounded F64.prec F64.emax m (e + 1) = true)
        by (apply bounded_intro; lia).
      replace e with (e + 1 - 1) at 1 by lia.
      rewrite round_exact_1 by exact Hb'.
      destruct (Z_lt_le_dec e (-1073)) as [Hlow | Hhigh].
      * rewrite (div_pow2 s m m (e + 1) (-51) e); [| lia | lia | ].
        -- rewrite round_exact_0 by exact Hb. apply eqb_refl_finite.
        -- replace (e + 1 - -51 - e) with 52 by lia. reflexivity.
      * rewrite (div_pow2 s m m~0 (e + 1) (-51) (e - 1)); [| lia | lia | ].
        -- rewrite round_exact_1 by exact Hb. apply eqb_refl_finite.
        -- replace (e + 1 - -51 - (e - 1)) with 53 by lia. lia.
    + (* subnormal: the double has the doubled mantissa *)
      assert (Hb' : bounded F64.prec F64.emax m~0 e = true).
      { apply bounded_intro; [cbn [digits2_pos]; lia | lia]. }
      rewrite round_exact_0 by exact Hb'.
      rewrite (div_pow2 s m~0 m e (-51) e); [| cbn [digits2_pos]; lia | lia | ].
      * rewrite round_exact_0 by exact Hb. apply eqb_refl_finite.
      * replace (e - -51 - e) with 51 by lia. lia.
Qed.

Lemma zip_with_map_l {A B C} (f : B -> A -> C) (g : A -> B) (l : list A) :
  zip_with f (map g l) l = map (fun x => f (g x) x) l.
Proof. induction l as [| x l IH]; cbn; [reflexivity | now rewrite IH]. Qed.

Lemma madd_map (g : float -> float) (m : matrix) :
  madd (map (map g) m) m = map (map (fun x => F64.add (g x) x)) m.
Proof.
  unfold madd. rewrite (zip_with_map_l (zip_with F64.add) (map g) m).
  apply map_ext. intros row. apply zip_with_map_l.
Qed.

Lemma map_map_matrix (g h : float -> float) (m : matrix) :
  map (map h) (map (map g) m) = map (map (fun x => h (g x))) m.
Proof.
  rewrite map_map. apply map_ext. intros row. apply map_map.
Qed.

Lemma mean_matrix_one_copy (m : matrix) :
  mean_matrix [m] m
  = map (map (fun x => F64.div (F64.add F64.zero x) (F64.of_nat 1))) m.
Proof.
  unfold mean_matrix, zeros_like. cbn [fold_left length].
  rewrite madd_map, map_map_matrix. reflexivity.
Qed.

Lemma mean_matrix_two_copies (m : matrix) :
  mean_matrix [m; m] m
  = map (map (fun x => F64.div (F64.add (F64.add F64.zero x) x) (F64.of_nat 2))) m.
Proof.
  unfold mean_matrix, zeros_like. cbn [fold_left length].
  rewrite madd_map, madd_map, map_map_matrix. reflexivity.
Qed.

(** A matrix changed cell by cell into equal values is an equal matrix. *)
Lemma vector_eqb_map (h : float -> float) (v : vector) :
  Forall (fun x => F64.eqb (h x) x = true) v -> vector_eqb (map h v) v = true.
Proof.
  unfold vector_eqb. rewrite length_map, Nat.eqb_refl. cbn [andb].
  induction 1 as [| x v Hx _ IH]; [reflexivity |].
  cbn. now rewrite Hx, IH.
Qed.

Lemma matrix_eqb_map (h : float -> float) (m : matrix) :
  Forall (Forall (fun x => F64.eqb (h x) x = true)) m ->
  matrix_eqb (map (map h) m) m = true.
Proof.
  induction 1 as [| row m Hrow _ IH]; [reflexivity |].
  cbn. now rewrite vector_eqb_map, IH.
Qed.

Lemma Forall_cells (P Q : float -> Prop) (m : matrix) :
  (forall x, P x -> Q x) -> Forall (Forall P) m -> Forall (Forall Q) m.
Proof.
  intros HPQ. induction 1 as [| row m Hrow _ IH]; constructor; [| exact IH].
  induction Hrow; constructor; auto.
Qed.

(** C6, as the code has it.  Averaging one or two objects that hold the
    same matrix M, of finite cells below 2^1023 in magnitude, returns an
    object whose matrix equals M cell by cell: (0 + x) / 1 and
    ((0 + x) + x) / 2 are computed without rounding.  (With three copies
    the sum 3x is rounded, and so is the quotient.) *)
Theorem average_ciu_copies_exact (M : matrix) (objs : list CIUAnalysisObj)
    (params_obj : Parameters) (output_dir : string) (w : world) :
  (length objs = 1 \/ length objs = 2)%nat ->
  Forall (fun o => ciu_data o = M /\ params o <> None) objs ->
  Forall (Forall (fun x => F64.halvable x = true)) M ->
  exists avg w',
    average_ciu objs params_obj output_dir w = (w', Ok avg) /\
    matrix_eqb (ciu_data avg) M = true.
Proof.
  intros Hlen Hobjs Hcells.
  destruct objs as [| o0 [| o1 [| o2 rest]]]; cbn in Hlen; try lia.
  - inversion Hobjs as [| ? ? [HM Hp] _]; subst.
    destruct (params o0) as [p0 |] eqn:Hp0; [| now elim Hp].
    exists (averaged o0 [o0] p0). eexists. split.
    + apply (average_ciu_same_shape o0 [] p0); [exact Hp0 | constructor].
    + cbn [averaged set_filename set_raw_obj_list set_params fresh_obj ciu_data map].
      rewrite mean_matrix_one_copy. apply matrix_eqb_map.
      revert Hcells. apply Forall_cells. exact mean_of_one.
  - inversion Hobjs as [| ? ? [HM Hp] Hrest]; subst.
    inversion Hrest as [| ? ? [HM1 _] _]; subst.
    destruct (params o0) as [p0 |] eqn:Hp0; [| now elim Hp].
    exists (averaged o0 [o0; o1] p0). eexists. split.
    + apply (average_ciu_same_shape o0 [o1] p0); [exact Hp0 |].
      cbn. constructor; [now rewrite HM1 | constructor].
    + cbn [averaged set_filename set_raw_obj_list set_params fresh_obj ciu_data map].
      rewrite HM1. rewrite mean_matrix_two_copies. apply matrix_eqb_map.
      revert Hcells. apply Forall_cells. exact mean_of_two.
Qed.

Lemma average_ciu_copies_exact_witness :
  (length [tenth_obj; tenth_obj] = 1 \/ length [tenth_obj; tenth_obj] = 2)%nat /\
  Forall (fun o => ciu_data o = [[f0_1]] /\ params o <> None) [tenth_obj; tenth_obj] /\
  Forall (Forall (fun x => F64.halvable x = true)) [[f0_1]] /\
  exists avg w',
    average_ciu [tenth_obj; tenth_obj] sample_params "/out" empty_world = (w', Ok avg) /\
    matrix_eqb (ciu_data avg) [[f0_1]] = true.
Proof.
  assert (H1 : (length [tenth_obj; tenth_obj] = 1 \/ length [tenth_obj; tenth_obj] = 2)%nat)
    by (right; reflexivity).
  assert (H2 : Forall (fun o => ciu_data o = [[f0_1]] /\ params o <> None)
                      [tenth_obj; tenth_obj])
    by (repeat constructor; discriminate).
  assert (H3 : Forall (Forall (fun x => F64.halvable x = true)) [[f0_1]])
    by (repeat constructor).
  repeat (split; [assumption |]).
  exact (average_ciu_copies_exact [[f0_1]] [tenth_obj; tenth_obj] sample_params "/out"
           empty_world H1 H2 H3).
Defined.

Example mean_of_two_tenths :
  F64.div (F64.add (F64.add F64.zero f0_1) f0_1) (F64.of_nat 2) = f0_1.
Proof. vm_compute. reflexivity. Qed.

Example mean_of_three_tenths :
  F64.div (F64.add (F64.add (F64.add F64.zero f0_1) f0_1) f0_1) (F64.of_nat 3) = f0_1_up.
Proof. vm_compute. reflexivity. Qed.

(* ===================================================================== *)
(** * Further properties *)
(* ===================================================================== *)

(** ** Saving and loading *)

Lemma chars_app (s t : string) : chars (s ++ t)%string = chars s ++ chars t.
Proof.
  unfold chars. induction s as [| c s IH]; [reflexivity |].
  change (list_ascii_of_string (String c s +:+ t))
    with (c :: list_ascii_of_string (s +:+ t)).
  rewrite IH. reflexivity.
Qed.

Lemma str_chars (s : string) : str (chars s) = s.
Proof. apply string_of_list_ascii_of_string. Qed.

Lemma chars_str (l : list ascii) : chars (str l) = l.
Proof. apply list_ascii_of_string_of_list_ascii. Qed.

Lemma lstrip_chars_app (cs t l : list ascii) :
  forallb (fun c => char_in c cs) t = true ->
  lstrip_chars cs (t ++ l) = lstrip_chars cs l.
Proof.
  induction t as [| c t IH]; cbn; [reflexivity |].
  rewrite andb_true_iff. intros [Hc Ht]. rewrite Hc. now apply IH.
Qed.

Lemma forallb_rev {A} (f : A -> bool) (l : list A) :
  forallb f (rev l) = forallb f l.
Proof.
  induction l as [| x l IH]; cbn; [reflexivity |].
  rewrite forallb_app, IH. cbn. rewrite andb_true_r. apply andb_comm.
Qed.

(** Trailing characters of the stripped set do not matter to [rstrip]. *)
Lemma rstrip_app (s t cs : string) :
  made_of (chars cs) t = true -> rstrip (s ++ t) cs = rstrip s cs.
Proof.
  intros Ht. unfold rstrip. rewrite chars_app, rev_app_distr.
  rewrite lstrip_chars_app; [reflexivity |]. now rewrite forallb_rev.
Qed.

(** A string that does not end in a stripped character is left alone. *)
Lemma rstrip_clear (s cs : string) :
  ends_clear (chars cs) s = true -> rstrip s cs = s.
Proof.
  unfold ends_clear, rstrip. intros H.
  destruct (rev (chars s)) as [| c l] eqn:Hr.
  - cbn. apply (f_equal (@rev ascii)) in Hr. rewrite rev_involutive in Hr. cbn in Hr.
    rewrite <- (str_chars s), Hr. reflexivity.
  - cbn [lstrip_chars]. apply negb_true_iff in H. rewrite H.
    rewrite <- Hr, rev_involutive. apply str_chars.
Qed.

Lemma raw_suffix_made_of : made_of (chars "_raw.csv") "_raw.csv" = true.
Proof. reflexivity. Qed.

Lemma made_of_app (cs : list ascii) (s t : string) :
  made_of cs (s ++ t) = made_of cs s && made_of cs t.
Proof. unfold made_of. rewrite chars_app. apply forallb_app. Qed.

(** What [save_analysis_obj] does, with the name it derives written out. *)
Lemma save_analysis_obj_run (o : CIUAnalysisObj) (filename_append : string)
    (outputdir : option string) (w : world) :
  let dir := match outputdir with
             | Some d => d
             | None => os_path_dirname (filepath (raw_obj o))
             end in
  let path := os_path_join dir (rstrip (filename (raw_obj o)) "_raw.csv"
                                ++ filename_append ++ ".ciu")%string in
  save_analysis_obj o filename_append outputdir w =
    ({| files := <[path := PickleFile (set_filename o (Some path))]> (files w);
        stdout := stdout w; calls := calls w |},
     Ok (set_filename o (Some path), path)).
Proof. destruct outputdir; reflexivity. Qed.

(** X1.  An object saved by [save_analysis_obj] is what
    [load_analysis_obj] reads back from the returned path: the object
    given, with its [filename] attribute set to that path, whatever was
    stored there before. *)
Theorem save_then_load (o : CIUAnalysisObj) (filename_append : string)
    (outputdir : option string) (w : world) :
  exists w' o' picklefile,
    save_analysis_obj o filename_append outputdir w = (w', Ok (o', picklefile)) /\
    o' = set_filename o (Some picklefile) /\
    load_analysis_obj picklefile w' = Loaded o'.
Proof.
  eexists. eexists. eexists. split; [apply save_analysis_obj_run |].
  cbn zeta. split; [reflexivity |].
  unfold load_analysis_obj. cbn [files]. now rewrite lookup_insert_eq.
Qed.

Lemma set_filename_twice (o : CIUAnalysisObj) (a b : option string) :
  set_filename (set_filename o a) b = set_filename o b.
Proof. reflexivity. Qed.

(** X2.  Saving again the object that [save_analysis_obj] returned, with
    the same arguments, changes nothing: same path, same object, same
    files. *)
Theorem save_analysis_obj_again (o : CIUAnalysisObj) (filename_append : string)
    (outputdir : option string) (w w' : world) (o' : CIUAnalysisObj) (picklefile : string) :
  save_analysis_obj o filename_append outputdir w = (w', Ok (o', picklefile)) ->
  save_analysis_obj o' filename_append outputdir w' = (w', Ok (o', picklefile)).
Proof.
  rewrite save_analysis_obj_run. cbn zeta. intros H. inversion H; subst. clear H.
  rewrite save_analysis_obj_run. cbn zeta. cbn [raw_obj set_filename files stdout calls].
  rewrite set_filename_twice, insert_insert_eq. reflexivity.
Qed.

Lemma save_analysis_obj_again_witness :
  save_analysis_obj data_obj "" None empty_world
  = (fst (save_analysis_obj data_obj "" None empty_world),
     Ok (set_filename data_obj (Some "/runs/dat.ciu"), "/runs/dat.ciu")) /\
  save_analysis_obj (set_filename data_obj (Some "/runs/dat.ciu")) "" None
    (fst (save_analysis_obj data_obj "" None empty_world))
  = (fst (save_analysis_obj data_obj "" None empty_world),
     Ok (set_filename data_obj (Some "/runs/dat.ciu"), "/runs/dat.ciu")).
Proof.
  assert (H : save_analysis_obj data_obj "" None empty_world
              = (fst (save_analysis_obj data_obj "" None empty_world),
                 Ok (set_filename data_obj (Some "/runs/dat.ciu"), "/runs/dat.ciu")))
    by reflexivity.
  split; [exact H |].
  exact (save_analysis_obj_again data_obj "" None empty_world _ _ _ H).
Defined.

(** X3.  For a raw file named [stem ++ "_raw.csv"] whose stem does not end
    in one of the characters [_ r a w . c s v], the analysis is saved
    under [stem ++ filename_append ++ ".ciu"]: there the stripping removes
    the suffix and nothing more. *)
Theorem save_analysis_obj_exact_name (o : CIUAnalysisObj) (stem filename_append dir : string)
    (w : world) :
  filename (raw_obj o) = (stem ++ "_raw.csv")%string ->
  ends_clear raw_suffix_chars stem = true ->
  snd (save_analysis_obj o filename_append (Some dir) w)
  = Ok (set_filename o (Some (os_path_join dir (stem ++ filename_append ++ ".ciu")%string)),
        os_path_join dir (stem ++ filename_append ++ ".ciu")%string).
Proof.
  intros Hname Hclear. rewrite save_analysis_obj_run. cbn zeta. cbn [snd].
  rewrite Hname, rstrip_app by reflexivity.
  rewrite rstrip_clear by exact Hclear. reflexivity.
Qed.

Lemma save_analysis_obj_exact_name_witness :
  filename (raw_obj sample_a) = ("sample" ++ "_raw.csv")%string /\
  ends_clear raw_suffix_chars "sample" = true /\
  snd (save_analysis_obj sample_a "_crop" (Some "/out") empty_world)
  = Ok (set_filename sample_a (Some "/out/sample_crop.ciu"), "/out/sample_crop.ciu").
Proof.
  assert (H1 : filename (raw_obj sample_a) = ("sample" ++ "_raw.csv")%string) by reflexivity.
  assert (H2 : ends_clear raw_suffix_chars "sample" = true) by reflexivity.
  split; [exact H1 |]. split; [exact H2 |].
  exact (save_analysis_obj_exact_name sample_a "sample" "_crop" "/out" empty_world H1 H2).
Defined.

(** X4.  Two raw files whose names differ only in characters of
    [_ r a w . c s v] placed before the suffix are saved under one name:
    the second save replaces the first, which can no longer be loaded. *)
Theorem save_analysis_obj_collision (o1 o2 : CIUAnalysisObj)
    (stem t1 t2 filename_append dir : string) (w : world) :
  filename (raw_obj o1) = (stem ++ t1 ++ "_raw.csv")%string ->
  filename (raw_obj o2) = (stem ++ t2 ++ "_raw.csv")%string ->
  made_of raw_suffix_chars t1 = true ->
  made_of raw_suffix_chars t2 = true ->
  exists w1 w2 o1' o2' picklefile,
    save_analysis_obj o1 filename_append (Some dir) w = (w1, Ok (o1', picklefile)) /\
    save_analysis_obj o2 filename_append (Some dir) w1 = (w2, Ok (o2', picklefile)) /\
    load_analysis_obj picklefile w2 = Loaded o2'.
Proof.
  intros H1 H2 Ht1 Ht2.
  assert (Hr : forall t, made_of raw_suffix_chars t = true ->
                         rstrip (stem ++ t ++ "_raw.csv") "_raw.csv" = rstrip stem "_raw.csv").
  { intros t Ht. apply rstrip_app. unfold raw_suffix_chars in Ht.
    rewrite made_of_app, Ht. reflexivity. }
  eexists. eexists. eexists. eexists. eexists.
  split; [apply save_analysis_obj_run |]. cbn zeta.
  rewrite save_analysis_obj_run. cbn zeta.
  rewrite H1, H2, (Hr t1 Ht1), (Hr t2 Ht2).
  split; [reflexivity |].
  unfold load_analysis_obj. cbn [files]. now rewrite lookup_insert_eq.
Qed.

(** ** More on replicate averaging *)

Lemma forallb_shape_iff (m0 : matrix) (ms : list matrix) :
  forallb (shape_eqb m0) ms = true <-> Forall (fun m => shape m = shape m0) ms.
Proof.
  split; [| apply forallb_shape].
  induction ms as [| m ms IH]; cbn; [constructor |].
  rewrite andb_true_iff. intros [Hm Hms]. constructor; [| now apply IH].
  unfold shape_eqb in Hm. apply bool_decide_eq_true in Hm. now symmetry.
Qed.

Lemma Forall_map_shape (o0 : CIUAnalysisObj) (objs : list CIUAnalysisObj) :
  Forall (fun m => shape m = shape (ciu_data o0)) (map ciu_data objs)
  <-> Forall (fun o => shape (ciu_data o) = shape (ciu_data o0)) objs.
Proof.
  induction objs as [| o objs IH]; cbn; [split; constructor |].
  split; intros H; inversion H; subst; constructor; auto; now apply IH.
Qed.

(** X5.  [average_ciu] returns an object exactly when the list is not
    empty, every matrix has the shape of the first one, and the first
    object carries its parameters.  Otherwise it raises [IndexError] (empty
    list), [ValueError] (shapes) or [AttributeError] (no parameters), and
    then it has written no file and changed nothing. *)
Theorem average_ciu_outcomes (objs : list CIUAnalysisObj) (params_obj : Parameters)
    (output_dir : string) (w : world) :
  let r := average_ciu objs params_obj output_dir w in
  ((exists avg, snd r = Ok avg) <->
   (exists o0 rest p0,
       objs = o0 :: rest /\ params o0 = Some p0 /\
       Forall (fun o => shape (ciu_data o) = shape (ciu_data o0)) rest))
  /\
  ((forall avg, snd r <> Ok avg) ->
   fst r = w /\
   (snd r = Raise IndexError /\ objs = []
    \/ snd r = Raise ValueError
    \/ snd r = Raise AttributeError)).
Proof.
  cbn zeta. rewrite average_ciu_unfold.
  destruct objs as [| o0 rest].
  - split.
    + split; [intros [avg H]; discriminate H | intros (o0 & rest & p0 & H & _); discriminate H].
    + intros _. split; [reflexivity |]. left. split; reflexivity.
  - destruct (forallb (shape_eqb (ciu_data o0)) (map ciu_data (o0 :: rest))) eqn:Hs.
    + apply forallb_shape_iff, Forall_map_shape in Hs.
      destruct (params o0) as [p0 |] eqn:Hp.
      * split.
        -- split; [| intros _; eexists; reflexivity].
           intros _. exists o0, rest, p0. repeat split; auto. now inversion Hs.
        -- intros H. exfalso. eapply H. reflexivity.
      * split.
        -- split; [intros [avg H]; discriminate H |].
           intros (o0' & rest' & p0 & Heq & Hp' & _). inversion Heq; subst. congruence.
        -- intros _. split; [reflexivity |]. right. right. reflexivity.
    + split.
      * split; [intros [avg H]; discriminate H |].
        intros (o0' & rest' & p0 & Heq & _ & Hsh). inversion Heq; subst.
        assert (Hall : forallb (shape_eqb (ciu_data o0')) (map ciu_data (o0' :: rest')) = true).
        { apply forallb_shape_iff, Forall_map_shape. constructor; [reflexivity | exact Hsh]. }
        congruence.
      * intros _. split; [reflexivity |]. right. left. reflexivity.
Qed.


(** X7.  The averaged object carries no Gaussian fit, even when the inputs
    do: every [gauss_*] attribute is [None].  Its raw object and its
    parameters are those of the first input, not the [params_obj] passed
    to [average_ciu]. *)
Theorem average_ciu_drops_fits (o0 : CIUAnalysisObj) (rest : list CIUAnalysisObj)
    (params_obj : Parameters) (output_dir : string) (w w' : world) (avg : CIUAnalysisObj) :
  average_ciu (o0 :: rest) params_obj output_dir w = (w', Ok avg) ->
  (gauss_params avg = None /\ gauss_baselines avg = None /\ gauss_amplitudes avg = None /\
   gauss_centroids avg = None /\ gauss_widths avg = None /\ gauss_fwhms avg = None /\
   gauss_adj_r2s avg = None /\ gauss_fits avg = None /\ gauss_covariances avg = None /\
   gauss_r2s avg = None /\ gauss_resolutions avg = None /\ gauss_fit_stats avg = None) /\
  raw_obj avg = raw_obj o0 /\
  params avg = params o0.
Proof.
  rewrite average_ciu_unfold.
  destruct (forallb _ _); [| discriminate].
  destruct (params o0) as [p0 |] eqn:Hp; [| discriminate].
  intros H. inversion H; subst. clear H. cbn. repeat split.
Qed.

Lemma zip_with_flip {A B C} (f : A -> B -> C) (l : list A) (k : list B) :
  zip_with f l k = zip_with (fun b a => f a b) k l.
Proof.
  revert k. induction l as [| a l IH]; intros [| b k]; cbn; try reflexivity.
  now rewrite IH.
Qed.

Lemma zip_with_map_first {A A' B C} (f : A' -> B -> C) (g : A -> A') (l : list A)
    (k : list B) :
  zip_with f (map g l) k = zip_with (fun a b => f (g a) b) l k.
Proof.
  revert k. induction l as [| a l IH]; intros [| b k]; cbn; try reflexivity.
  now rewrite IH.
Qed.

Lemma zip_with_ext_all {A B C} (f g : A -> B -> C) (l : list A) (k : list B) :
  (forall a b, f a b = g a b) -> zip_with f l k = zip_with g l k.
Proof.
  intros H. revert k. induction l as [| a l IH]; intros [| b k]; cbn; try reflexivity.
  now rewrite H, IH.
Qed.

(** float64 addition commutes. *)
Lemma F64_add_comm (x y : float) : F64.add x y = F64.add y x.
Proof.
  destruct x as [sx | sx | | sx mx ex], y as [sy | sy | | sy my ey];
    try reflexivity; try (destruct sx, sy; reflexivity).
  unfold F64.add, SFadd. rewrite (Z.min_comm ex ey), Z.add_comm. reflexivity.
Qed.

(** The running sum from zero of two cells does not depend on their order. *)
Lemma sum_two_comm (a b : float) :
  F64.add (F64.add F64.zero a) b = F64.add (F64.add F64.zero b) a.
Proof.
  destruct a as [sa | sa | | sa ma ea], b as [sb | sb | | sb mb eb];
    try reflexivity; try (destruct sa, sb; reflexivity);
    try (destruct sa; reflexivity); try (destruct sb; reflexivity).
  change (F64.add F64.zero (S754_finite sa ma ea)) with (S754_finite sa ma ea).
  change (F64.add F64.zero (S754_finite sb mb eb)) with (S754_finite sb mb eb).
  apply F64_add_comm.
Qed.

Lemma running_sum_two (a b : matrix) :
  madd (madd (zeros_like a) a) b
  = zip_with (zip_with (fun x y => F64.add (F64.add F64.zero x) y)) a b.
Proof.
  unfold zeros_like. rewrite madd_map. unfold madd.
  rewrite zip_with_map_first. apply zip_with_ext_all. intros r1 r2.
  apply zip_with_map_first.
Qed.

Lemma mean_matrix_swap (a b : matrix) :
  mean_matrix [a; b] a = mean_matrix [b; a] b.
Proof.
  unfold mean_matrix. cbn [fold_left length]. f_equal.
  rewrite !running_sum_two. rewrite zip_with_flip.
  apply zip_with_ext_all. intros r1 r2. rewrite zip_with_flip.
  apply zip_with_ext_all. intros x y. apply sum_two_comm.
Qed.

(** X8.  The average of two replicates has the same matrix whichever comes
    first; the axes, the raw object, the parameters and the place of the
    saved file are those of whichever comes first. *)
Theorem average_ciu_two_any_order (a b : CIUAnalysisObj) (params_obj : Parameters)
    (output_dir : string) (w : world) :
  shape (ciu_data a) = shape (ciu_data b) ->
  params a <> None -> params b <> None ->
  exists w1 w2 avg_ab avg_ba,
    average_ciu [a; b] params_obj output_dir w = (w1, Ok avg_ab) /\
    average_ciu [b; a] params_obj output_dir w = (w2, Ok avg_ba) /\
    ciu_data avg_ab = ciu_data avg_ba /\
    axes avg_ab = axes a /\ axes avg_ba = axes b.
Proof.
  intros Hs Ha Hb.
  destruct (params a) as [pa |] eqn:Hpa; [| now elim Ha].
  destruct (params b) as [pb |] eqn:Hpb; [| now elim Hb].
  exists (fst (average_ciu [a; b] params_obj output_dir w)),
         (fst (average_ciu [b; a] params_obj output_dir w)),
         (averaged a [a; b] pa), (averaged b [b; a] pb).
  rewrite (average_ciu_same_shape a [b] pa params_obj output_dir w Hpa)
    by (cbn; constructor; [now symmetry | constructor]).
  rewrite (average_ciu_same_shape b [a] pb params_obj output_dir w Hpb)
    by (cbn; constructor; [exact Hs | constructor]).
  repeat split. cbn. apply mean_matrix_swap.
Qed.

Lemma average_ciu_two_any_order_witness :
  shape (ciu_data sample_a) = shape (ciu_data sample_b) /\
  params sample_a <> None /\ params sample_b <> None /\
  exists w1 w2 avg_ab avg_ba,
    average_ciu [sample_a; sample_b] sample_params "/out" empty_world = (w1, Ok avg_ab) /\
    average_ciu [sample_b; sample_a] sample_params "/out" empty_world = (w2, Ok avg_ba) /\
    ciu_data avg_ab = ciu_data avg_ba /\
    axes avg_ab = axes sample_a /\ axes avg_ba = axes sample_b.
Proof.
  assert (H1 : shape (ciu_data sample_a) = shape (ciu_data sample_b)) by reflexivity.
  assert (H2 : params sample_a <> None) by discriminate.
  assert (H3 : params sample_b <> None) by discriminate.
  repeat (split; [assumption |]).
  exact (average_ciu_two_any_order sample_a sample_b sample_params "/out" empty_world
           H1 H2 H3).
Defined.


Lemma average_ciu_drops_fits_witness :
  average_ciu [set_params sample_fitted (Some sample_params)] sample_params "/out" empty_world
  = (fst (average_ciu [set_params sample_fitted (Some sample_params)] sample_params "/out"
            empty_world),
     Ok (averaged (set_params sample_fitted (Some sample_params))
                  [set_params sample_fitted (Some sample_params)] sample_params)) /\
  gauss_fits (set_params sample_fitted (Some sample_params)) <> None /\
  gauss_fits (averaged (set_params sample_fitted (Some sample_params))
                       [set_params sample_fitted (Some sample_params)] sample_params) = None.
Proof.
  assert (H : average_ciu [set_params sample_fitted (Some sample_params)] sample_params
                "/out" empty_world
              = (fst (average_ciu [set_params sample_fitted (Some sample_params)]
                        sample_params "/out" empty_world),
                 Ok (averaged (set_params sample_fitted (Some sample_params))
                       [set_params sample_fitted (Some sample_params)] sample_params)))
    by reflexivity.
  split; [exact H |]. split; [discriminate |].
  pose proof (average_ciu_drops_fits _ [] sample_params "/out" empty_world _ _ H)
    as (Hg & _).
  exact (proj1 (proj2 (proj2 (proj2 (proj2 (proj2 (proj2 (proj2 Hg)))))))).
Defined.

Lemma average_ciu_outcomes_witness :
  (forall avg, snd (average_ciu [] sample_params "/out" empty_world) <> Ok avg) /\
  fst (average_ciu [] sample_params "/out" empty_world) = empty_world /\
  snd (average_ciu [] sample_params "/out" empty_world) = Raise IndexError.
Proof.
  assert (H : forall avg, snd (average_ciu [] sample_params "/out" empty_world) <> Ok avg)
    by (intros avg; discriminate).
  split; [exact H |].
  destruct (proj2 (average_ciu_outcomes [] sample_params "/out" empty_world) H)
    as [Hw _].
  split; [exact Hw | reflexivity].
Defined.

(** ** More on the pipeline *)

Section PipelineMore.

Variable normalize_by_col : matrix -> outcome matrix.
Variable interpolate_cv : matrix -> axes_t -> Z -> outcome (matrix * axes_t).
Variable sav_gol_smooth : matrix -> Z -> outcome matrix.
Variable crop : matrix -> axes_t -> list float -> outcome (matrix * axes_t).

(** X9.  With zero or a negative number of iterations the smoothing loop
    calls nothing and hands the matrix back as it is, although a window is
    configured. *)
Theorem smoothing_skipped_without_iterations
    (fuel : nat) (iterations window : Z) (data : matrix) (w : world) :
  iterations <= 0 ->
  smooth_while sav_gol_smooth fuel iterations window 0 data w = (w, Ok data).
Proof.
  intros H. assert (Hi : (0 <? iterations) = false) by (apply Z.ltb_ge; lia).
  destruct fuel; cbn [smooth_while]; rewrite Hi; reflexivity.
Qed.

Lemma smooth_passes_add (n1 n2 : nat) :
  forall window data,
    smooth_passes sav_gol_smooth (n1 + n2) window data
    = obind (smooth_passes sav_gol_smooth n1 window data)
            (smooth_passes sav_gol_smooth n2 window).
Proof.
  induction n1 as [| n1 IH]; intros window data; [reflexivity |].
  cbn [Nat.add smooth_passes].
  destruct (sav_gol_smooth data window) as [d | e |]; cbn [obind]; [apply IH | | ];
    reflexivity.
Qed.

Lemma smooth_calls_add (n1 n2 : nat) :
  forall window data,
    smooth_calls sav_gol_smooth (n1 + n2) window data
    = smooth_calls sav_gol_smooth n1 window data
      ++ match smooth_passes sav_gol_smooth n1 window data with
         | Ok d => smooth_calls sav_gol_smooth n2 window d
         | _ => []
         end.
Proof.
  induction n1 as [| n1 IH]; intros window data; [reflexivity |].
  cbn [Nat.add smooth_passes smooth_calls].
  destruct (sav_gol_smooth data window) as [d | e |]; cbn [obind app]; [| reflexivity ..].
  now rewrite IH.
Qed.

(** X10.  Smoothing with K1 + K2 iterations is smoothing with K1
    iterations followed by smoothing the result with K2 iterations: same
    matrix or same exception, same calls. *)
Theorem smoothing_iterations_add (k1 k2 window : Z) (data : matrix) (w : world) :
  0 <= k1 -> 0 <= k2 ->
  smooth_while sav_gol_smooth (Z.to_nat (k1 + k2)) (k1 + k2) window 0 data w
  = bind (smooth_while sav_gol_smooth (Z.to_nat k1) k1 window 0 data)
         (fun smoothed => smooth_while sav_gol_smooth (Z.to_nat k2) k2 window 0 smoothed) w.
Proof.
  intros H1 H2. unfold bind. rewrite !smooth_while_fuel.
  rewrite Z2Nat.inj_add by lia. rewrite smooth_passes_add, smooth_calls_add.
  destruct (smooth_passes sav_gol_smooth (Z.to_nat k1) window data) as [d | e |];
    cbn [obind].
  - rewrite smooth_while_fuel. now rewrite with_calls_app.
  - now rewrite app_nil_r.
  - now rewrite app_nil_r.
Qed.

(** X11.  When the first j passes succeed and the next one raises, the
    loop raises the same exception after exactly j + 1 calls of the
    filter: the passes still due are not run. *)
Theorem smoothing_stops_at_first_failure
    (iterations window : Z) (data dj : matrix) (j : nat) (e : exn) (w : world) :
  Z.of_nat j < iterations ->
  smooth_passes sav_gol_smooth j window data = Ok dj ->
  sav_gol_smooth dj window = Raise e ->
  let r := smooth_while sav_gol_smooth (Z.to_nat iterations) iterations window 0 data w in
  snd r = Raise e /\
  exists made,
    fst r = with_calls w made /\ length made = S j /\
    made !! j = Some (CallSmooth dj window).
Proof.
  intros Hj Hpass Hfail. cbn zeta. rewrite smooth_while_fuel. cbn [fst snd].
  replace (Z.to_nat iterations) with (j + S (Z.to_nat iterations - S j))%nat by lia.
  rewrite smooth_passes_add, smooth_calls_add, Hpass. cbn [obind smooth_passes smooth_calls].
  rewrite Hfail. cbn [obind]. split; [reflexivity |].
  eexists. split; [reflexivity |].
  pose proof (smooth_calls_length sav_gol_smooth j window data dj Hpass) as Hlen.
  split.
  - rewrite length_app, Hlen. cbn. lia.
  - rewrite lookup_app_r by lia. rewrite Hlen, Nat.sub_diag. reflexivity.
Qed.

(** X12.  Whatever the stages return, an object returned by
    [process_raw_obj] holds the raw object it was given and the parameters
    used, and has no Gaussian fit, no file name and no list of raw
    objects yet. *)
Theorem process_raw_obj_result (raw : CIURaw) (p : Parameters) (w w' : world)
    (obj : CIUAnalysisObj) :
  process_raw_obj normalize_by_col interpolate_cv sav_gol_smooth crop raw p w
  = (w', Ok obj) ->
  raw_obj obj = raw /\ params obj = Some p /\
  gauss_params obj = None /\ gauss_fits obj = None /\ gauss_centroids obj = None /\
  obj_filename obj = None /\ raw_obj_list obj = None.
Proof.
  rewrite process_raw_obj_unfold. cbn zeta.
  destruct (normalize_by_col (rawdata raw)) as [d0 | e |]; [| discriminate ..].
  destruct (interpolation_bins p) as [bins |];
    [destruct (interpolate_cv d0 (dt_axis raw, cv_axis raw) bins) as [[d1 a1] | e |];
     [| discriminate ..] |];
    (destruct (smoothing_window p) as [window |];
     [ match goal with
       | |- context [smooth_passes ?f ?n ?win ?d] =>
           destruct (smooth_passes f n win d) as [d2 | e |]; [| discriminate ..]
       end |];
     (destruct (cropping_window_values p) as [values |];
      [ match goal with
        | |- context [crop ?d ?a values] =>
            destruct (crop d a values) as [[d3 a3] | e |]; [| discriminate ..]
        end |];
      intros H; inversion H; subst; repeat split)).
Qed.

End PipelineMore.

(** ** More on the analysis object *)

(** The comprehension [[x[i] for x in gauss_params]] either gives one
    value per record or raises [IndexError]. *)
Lemma items_at_outcome (i : nat) (gp : list (list float)) :
  (Forall (fun r => (i < length r)%nat) gp /\ exists l, items_at i gp = Ok l)
  \/ (~ Forall (fun r => (i < length r)%nat) gp /\ items_at i gp = Raise IndexError).
Proof.
  induction gp as [| r gp IH].
  - left. split; [constructor | eexists; reflexivity].
  - cbn [items_at]. unfold getitem.
    destruct (nth_error r i) as [v |] eqn:Hv.
    + assert (Hi : (i < length r)%nat) by (apply nth_error_Some; congruence).
      cbn [obind]. destruct IH as [[Hall [l Hl]] | [Hnot Hl]]; rewrite Hl; cbn [obind].
      * left. split; [constructor; assumption | eexists; reflexivity].
      * right. split; [| reflexivity]. intros H. apply Hnot. now inversion H.
    + apply nth_error_None in Hv. right. split; [| reflexivity].
      intros H. inversion H; subst. lia.
Qed.

Lemma Forall_lt_le (i n : nat) (gp : list (list float)) :
  (i < n)%nat ->
  Forall (fun r => (n <= length r)%nat) gp -> Forall (fun r => (i < length r)%nat) gp.
Proof. intros Hi. induction 1; constructor; [lia | assumption]. Qed.

Lemma not_Forall_lt_le (gp : list (list float)) :
  Forall (fun r => (3 < length r)%nat) gp -> Forall (fun r => (4 <= length r)%nat) gp.
Proof. induction 1; constructor; [lia | assumption]. Qed.

(** The ways out of [init_gauss_lists], and what it leaves alone. *)
Lemma init_gauss_lists_cases (self : CIUAnalysisObj) (gp : list (list float)) :
  let r := init_gauss_lists self gp in
  (Forall (fun rec => (4 <= length rec)%nat) gp -> snd r = Ok tt) /\
  (~ Forall (fun rec => (4 <= length rec)%nat) gp ->
     snd r = Raise IndexError /\ gauss_widths (fst r) = gauss_widths self) /\
  gauss_params (fst r) = Some gp /\
  ciu_data (fst r) = ciu_data self /\ axes (fst r) = axes self /\
  raw_obj (fst r) = raw_obj self /\ gauss_fits (fst r) = gauss_fits self.
Proof.
  cbn zeta. unfold init_gauss_lists.
  destruct (items_at_outcome 0 gp) as [[H0 [b Hb]] | [H0 Hb]]; rewrite Hb.
  2:{ split; [intros H4; elim H0; apply (Forall_lt_le 0 4); [lia | exact H4] |].
      split; [intros _; split; reflexivity |]. repeat split. }
  destruct (items_at_outcome 1 gp) as [[H1 [a Ha]] | [H1 Ha]]; rewrite Ha.
  2:{ split; [intros H4; elim H1; apply (Forall_lt_le 1 4); [lia | exact H4] |].
      split; [intros _; split; reflexivity |]. repeat split. }
  destruct (items_at_outcome 2 gp) as [[H2 [c Hc]] | [H2 Hc]]; rewrite Hc.
  2:{ split; [intros H4; elim H2; apply (Forall_lt_le 2 4); [lia | exact H4] |].
      split; [intros _; split; reflexivity |]. repeat split. }
  destruct (items_at_outcome 3 gp) as [[H3 [wd Hw]] | [H3 Hw]]; rewrite Hw.
  2:{ split; [intros H4; elim H3; apply (Forall_lt_le 3 4); [lia | exact H4] |].
      split; [intros _; split; reflexivity |]. repeat split. }
  split; [intros _; reflexivity |].
  split; [intros H4; elim H4; now apply not_Forall_lt_le |]. repeat split.
Qed.

(** X13.  [init_gauss_lists] returns exactly when every record has at
    least four components (further components are ignored), and raises
    [IndexError] otherwise.  Either way [gauss_params] holds the records
    given and the matrix, the axes, the raw object and the fit curves are
    untouched; after an [IndexError] the widths are still the old ones, so
    the four lists may be out of step. *)
Theorem init_gauss_lists_outcome (self : CIUAnalysisObj) (gp : list (list float)) :
  let r := init_gauss_lists self gp in
  (Forall (fun rec => (4 <= length rec)%nat) gp -> snd r = Ok tt) /\
  (~ Forall (fun rec => (4 <= length rec)%nat) gp ->
     snd r = Raise IndexError /\ gauss_widths (fst r) = gauss_widths self) /\
  gauss_params (fst r) = Some gp /\
  ciu_data (fst r) = ciu_data self /\ axes (fst r) = axes self /\
  raw_obj (fst r) = raw_obj self /\ gauss_fits (fst r) = gauss_fits self.
Proof. exact (init_gauss_lists_cases self gp). Qed.

Lemma init_gauss_lists_outcome_witness :
  ~ Forall (fun rec => (4 <= length rec)%nat) [[F64.zero; f1; f2; f0_5]; [F64.zero; f1]] /\
  snd (init_gauss_lists sample_fitted [[F64.zero; f1; f2; f0_5]; [F64.zero; f1]])
  = Raise IndexError /\
  gauss_widths (fst (init_gauss_lists sample_fitted
                       [[F64.zero; f1; f2; f0_5]; [F64.zero; f1]]))
  = gauss_widths sample_fitted.
Proof.
  assert (H : ~ Forall (fun rec => (4 <= length rec)%nat)
                [[F64.zero; f1; f2; f0_5]; [F64.zero; f1]]).
  { intros H. inversion H as [| ? ? _ H']; subst.
    inversion H' as [| ? ? Hlen _]; subst. cbn in Hlen. lia. }
  split; [exact H |].
  exact (proj1 (proj2 (init_gauss_lists_outcome sample_fitted
                         [[F64.zero; f1; f2; f0_5]; [F64.zero; f1]])) H).
Defined.

(** X14.  The constructor given parameter records builds an object exactly
    when every record has at least four components; a shorter record
    makes the construction fail with [IndexError]. *)
Theorem new_CIUAnalysisObj_outcome (raw : CIURaw) (data : matrix) (ax : axes_t)
    (gp : list (list float)) :
  (Forall (fun rec => (4 <= length rec)%nat) gp ->
     exists o, new_CIUAnalysisObj raw data ax (Some gp) = Ok o /\
               gauss_params o = Some gp /\ ciu_data o = data /\ axes o = ax /\
               raw_obj o = raw) /\
  (~ Forall (fun rec => (4 <= length rec)%nat) gp ->
     new_CIUAnalysisObj raw data ax (Some gp) = Raise IndexError).
Proof.
  unfold new_CIUAnalysisObj.
  match goal with
  | |- context [init_gauss_lists ?s gp] =>
      pose proof (init_gauss_lists_cases s gp) as (Hok & Hbad & Hgp & Hd & Ha & Hr & _);
      destruct (init_gauss_lists s gp) as [self' res]
  end.
  cbn [fst snd] in *. split.
  - intros H. rewrite (Hok H). eexists. split; [reflexivity |]. auto.
  - intros H. destruct (Hbad H) as [Hres _]. now rewrite Hres.
Qed.

(** ** The exports, in general *)

Lemma string_app_inv_head (a x y : string) :
  (a ++ x)%string = (a ++ y)%string -> x = y.
Proof.
  induction a as [| c a IH]; intros H; [exact H |].
  change (String c (a ++ x)%string = String c (a ++ y)%string) in H.
  inversion H. now apply IH.
Qed.

Lemma string_app_assoc (a b c : string) :
  ((a ++ b) ++ c)%string = (a ++ (b ++ c))%string.
Proof.
  induction a as [| x a IH]; [reflexivity |].
  change (String x ((a ++ b) ++ c)%string = String x (a ++ (b ++ c))%string).
  now rewrite IH.
Qed.

Lemma startswith_slash_app (base s : string) :
  startswith s "_" = true ->
  startswith (base ++ s) "/" = startswith (base ++ "_") "/".
Proof.
  unfold startswith. rewrite !chars_app. intros Hs.
  destruct (chars base) as [| c l]; [| reflexivity].
  cbn [app]. destruct (chars s) as [| c l]; [discriminate Hs |].
  change (Ascii.eqb "_" c && true = true) in Hs.
  rewrite andb_true_r in Hs. apply Ascii.eqb_eq in Hs. subst c. reflexivity.
Qed.

(** Two names that differ in a suffix starting with an underscore are
    joined to different paths. *)
Lemma os_path_join_suffix_inj (a base s1 s2 : string) :
  startswith s1 "_" = true -> startswith s2 "_" = true ->
  os_path_join a (base ++ s1) = os_path_join a (base ++ s2) -> s1 = s2.
Proof.
  intros H1 H2. unfold os_path_join.
  rewrite (startswith_slash_app base s1 H1), (startswith_slash_app base s2 H2).
  destruct (startswith (base ++ "_") "/").
  - apply string_app_inv_head.
  - destruct (String.eqb a "" || endswith a "/"); intros H.
    + apply string_app_inv_head in H. now apply string_app_inv_head in H.
    + apply string_app_inv_head in H. apply string_app_inv_head in H.
      now apply string_app_inv_head in H.
Qed.

(** X15.  [save_gauss_params] has no guard for a missing fit.  When the
    parameters, the covariances and the fit statistics are each [None] or
    rectangular, it returns: it has written the three [.npy] files with
    them and the table, whose lines are the drift-time axis one value per
    line, and printed the announcement and the three [.npy] names.  When
    the parameter records differ in length, [np.save] refuses the first
    file with [ValueError]: only the announcement is printed, and the
    other three files are not written. *)
Theorem save_gauss_params_files (self : CIUAnalysisObj) (outputpath : string) (w : world) :
  let base := filename (raw_obj self) in
  let r := save_gauss_params self outputpath w in
  (asanyarray_ok (NpyParams (gauss_params self)) = true ->
   asanyarray_ok (NpyCovariances (gauss_covariances self)) = true ->
   asanyarray_ok (NpyStats (gauss_fit_stats self)) = true ->
   snd r = Ok tt /\
   files (fst r) !! os_path_join outputpath (base ++ "_curvefit_popt.npy")%string
     = Some (NpyParams (gauss_params self)) /\
   files (fst r) !! os_path_join outputpath (base ++ "_curvefit_pcov.npy")%string
     = Some (NpyCovariances (gauss_covariances self)) /\
   files (fst r) !! os_path_join outputpath (base ++ "_curvefit_stats.npy")%string
     = Some (NpyStats (gauss_fit_stats self)) /\
   files (fst r) !! os_path_join outputpath (base ++ "_outarraygaussfit.csv")%string
     = Some (CsvFile gauss_csv_header (map (fun x => [x]) (fst (axes self)))) /\
   stdout (fst r)
     = stdout w ++ ["Saving files ..."; (base ++ "_curvefit_popt.npy")%string;
                    (base ++ "_curvefit_pcov.npy")%string;
                    (base ++ "_curvefit_stats.npy")%string])
  /\
  (asanyarray_ok (NpyParams (gauss_params self)) = false ->
   snd r = Raise ValueError /\
   stdout (fst r) = stdout w ++ ["Saving files ..."] /\
   forall s, In s ["_curvefit_pcov.npy"; "_curvefit_stats.npy"; "_outarraygaussfit.csv"] ->
     files (fst r) !! os_path_join outputpath (base ++ s)%string
     = files w !! os_path_join outputpath (base ++ s)%string).
Proof.
  cbn zeta.
  assert (Hne : forall s1 s2, startswith s1 "_" = true -> startswith s2 "_" = true ->
                  s1 <> s2 ->
                  os_path_join outputpath (filename (raw_obj self) ++ s1)
                  <> os_path_join outputpath (filename (raw_obj self) ++ s2)).
  { intros s1 s2 H1 H2 Hd Heq. apply Hd. eapply os_path_join_suffix_inj; eassumption. }
  split.
  - intros Hp Hc Hs.
    unfold save_gauss_params, np_savetxt, np_save, bind, lift, print.
    rewrite Hp, Hc, Hs. unfold write_file.
    cbn [getitem nth_error np_array_float np_transpose savetxt_rows fst snd files stdout calls].
    split; [reflexivity |].
    split.
    { rewrite !lookup_insert_ne by (apply Hne; [reflexivity | reflexivity | discriminate]).
      apply lookup_insert_eq. }
    split.
    { rewrite !lookup_insert_ne by (apply Hne; [reflexivity | reflexivity | discriminate]).
      apply lookup_insert_eq. }
    split.
    { rewrite !lookup_insert_ne by (apply Hne; [reflexivity | reflexivity | discriminate]).
      apply lookup_insert_eq. }
    split; [apply lookup_insert_eq |].
    rewrite <- !app_assoc. reflexivity.
  - intros Hp.
    unfold save_gauss_params, np_save, bind, lift, print.
    rewrite Hp. unfold write_file, raise.
    cbn [getitem nth_error fst snd files stdout calls].
    split; [reflexivity |]. split; [reflexivity |].
    intros s Hs. apply lookup_insert_ne.
    cbn in Hs. destruct Hs as [<- | [<- | [<- | []]]];
      (apply Hne; [reflexivity | reflexivity | discriminate]).
Qed.

Lemma save_gauss_params_files_witness :
  (asanyarray_ok (NpyParams (gauss_params sample_fitted)) = true /\
   asanyarray_ok (NpyCovariances (gauss_covariances sample_fitted)) = true /\
   asanyarray_ok (NpyStats (gauss_fit_stats sample_fitted)) = true /\
   snd (save_gauss_params sample_fitted "/out" empty_world) = Ok tt /\
   files (fst (save_gauss_params sample_fitted "/out" empty_world))
     !! os_path_join "/out" (filename (raw_obj sample_fitted) ++ "_curvefit_popt.npy")%string
   = Some (NpyParams (gauss_params sample_fitted)))
  /\
  (asanyarray_ok (NpyParams (gauss_params uneven_fitted)) = false /\
   snd (save_gauss_params uneven_fitted "/out" empty_world) = Raise ValueError /\
   stdout (fst (save_gauss_params uneven_fitted "/out" empty_world))
   = stdout empty_world ++ ["Saving files ..."]).
Proof.
  assert (H1 : asanyarray_ok (NpyParams (gauss_params sample_fitted)) = true) by reflexivity.
  assert (H2 : asanyarray_ok (NpyCovariances (gauss_covariances sample_fitted)) = true)
    by reflexivity.
  assert (H3 : asanyarray_ok (NpyStats (gauss_fit_stats sample_fitted)) = true) by reflexivity.
  assert (H4 : asanyarray_ok (NpyParams (gauss_params uneven_fitted)) = false) by reflexivity.
  split.
  - split; [exact H1 |]. split; [exact H2 |]. split; [exact H3 |].
    pose proof (proj1 (save_gauss_params_files sample_fitted "/out" empty_world) H1 H2 H3)
      as (Hok & Hpopt & _).
    split; [exact Hok | exact Hpopt].
  - split; [exact H4 |].
    pose proof (proj2 (save_gauss_params_files uneven_fitted "/out" empty_world) H4)
      as (Hraise & Hout & _).
    split; [exact Hraise | exact Hout].
Defined.

Lemma nth_error_map_seq {A} (f : nat -> A) (n k : nat) :
  (k < n)%nat -> nth_error (map f (seq 0 n)) k = Some (f k).
Proof.
  intros Hk. rewrite nth_error_map, nth_error_seq.
  destruct (Nat.ltb_spec k n); [reflexivity | lia].
Qed.

Lemma length_column (m : matrix) (k : nat) :
  Forall (fun row => (k < length row)%nat) m -> length (column m k) = length m.
Proof.
  unfold column. induction 1 as [| row m Hrow _ IH]; [reflexivity |].
  cbn [flat_map]. destruct (nth_error row k) eqn:Hk.
  - cbn. now rewrite IH.
  - apply nth_error_None in Hk. lia.
Qed.

(** The loop over the collision voltages, started on an open PDF: one page
    is added for every voltage. *)
Lemma gaussfit_pages_run (self : CIUAnalysisObj) (fits intarray : list (list float))
    (path : string) (F : gmap string file_content) :
  forall (ks : list nat) (pages : list pdf_page) (w : world),
    files w = <[path := PdfFile pages false]> F ->
    Forall (fun k =>
              exists y fit cv,
                nth_error intarray k = Some y /\
                length y = length (fst (axes self)) /\
                nth_error fits k = Some fit /\
                length fit = length (fst (axes self)) /\
                nth_error (snd (axes self)) k = Some cv) ks ->
    gaussfit_pages self fits intarray path ks w =
      ({| files := <[path := PdfFile
                       (pages ++ map (fun k =>
                                        {| scatter_x := fst (axes self);
                                           scatter_y := nth k intarray [];
                                           plot_x := fst (axes self);
                                           plot_y := nth k fits [];
                                           title := nth k (snd (axes self)) F64.zero |})
                                     ks) false]> F;
          stdout := stdout w; calls := calls w |}, Ok tt).
Proof.
  induction ks as [| k ks IH]; intros pages w Hfiles Hall.
  - cbn. rewrite app_nil_r, <- Hfiles. destruct w; reflexivity.
  - inversion Hall as [| ? ? (y & fit & cv & Hy & Ly & Hf & Lf & Hcv) Hrest]; subst.
    cbn [gaussfit_pages]. unfold bind at 1. unfold lift at 1, getitem at 1. rewrite Hy.
    unfold bind at 1. rewrite Ly, Nat.eqb_refl. unfold ret at 1.
    unfold bind at 1. unfold lift at 1, getitem at 1. rewrite Hf.
    unfold bind at 1. rewrite Lf, Nat.eqb_refl. unfold ret at 1.
    unfold bind at 1. unfold lift at 1, getitem at 1. rewrite Hcv.
    unfold bind at 1. unfold pdf_savefig. rewrite Hfiles, lookup_insert_eq.
    unfold write_file. cbn [files stdout calls].
    rewrite Hfiles, insert_insert_eq.
    rewrite (IH (pages ++ [{| scatter_x := fst (axes self); scatter_y := y;
                              plot_x := fst (axes self); plot_y := fit; title := cv |}]));
      [| reflexivity | exact Hrest].
    cbn [files stdout calls map]. rewrite <- app_assoc. cbn [app].
    rewrite (nth_error_nth _ _ _ Hy), (nth_error_nth _ _ _ Hf), (nth_error_nth _ _ _ Hcv).
    reflexivity.
Qed.

(** X16.  For an object whose matrix fits its axes (at least one drift
    time) and whose fit has one curve per collision voltage, each as long
    as the drift-time axis, [save_gaussfits_pdf] returns normally and
    leaves one closed PDF with exactly one page per collision voltage, in
    axis order: page k shows column k of the matrix and curve k over the
    drift-time axis, under the k-th voltage as title. *)
Theorem save_gaussfits_pdf_pages (self : CIUAnalysisObj) (fits : list (list float))
    (outputpath : string) (w : world) :
  gauss_fits self = Some fits ->
  matrix_fits_axes (ciu_data self) (axes self) ->
  fst (axes self) <> [] ->
  length fits = length (snd (axes self)) ->
  Forall (fun fit => length fit = length (fst (axes self))) fits ->
  exists w' pages,
    save_gaussfits_pdf self outputpath w = (w', Ok tt) /\
    files w' !! gaussfit_pdf_path self outputpath = Some (PdfFile pages true) /\
    length pages = length (snd (axes self)) /\
    forall k cv fit,
      nth_error (snd (axes self)) k = Some cv ->
      nth_error fits k = Some fit ->
      nth_error pages k = Some (gaussfit_page self k cv fit).
Proof.
  intros Hfits [Hrows Hcols] Hdt Hlen Hfitlen.
  destruct (ciu_data self) as [| row0 m] eqn:Hm.
  { cbn in Hrows. destruct (fst (axes self)); [now elim Hdt | discriminate]. }
  assert (Hrow0 : length row0 = length (snd (axes self))) by now inversion Hcols.
  set (ncv := length (snd (axes self))) in *.
  assert (Hall : Forall (fun k =>
              exists y fit cv,
                nth_error (swapaxes01 (row0 :: m)) k = Some y /\
                length y = length (fst (axes self)) /\
                nth_error fits k = Some fit /\
                length fit = length (fst (axes self)) /\
                nth_error (snd (axes self)) k = Some cv) (seq 0 ncv)).
  { apply Forall_forall. intros k Hk. apply list_elem_of_In, in_seq in Hk.
    destruct (nth_error fits k) as [fit |] eqn:Hf;
      [| apply nth_error_None in Hf; lia].
    destruct (nth_error (snd (axes self)) k) as [cv |] eqn:Hcv;
      [| apply nth_error_None in Hcv; fold ncv in Hcv; lia].
    exists (column (row0 :: m) k), fit, cv. repeat split; auto.
    - unfold swapaxes01. rewrite Hrow0. apply nth_error_map_seq. lia.
    - rewrite length_column, <- Hrows; [reflexivity |].
      eapply Forall_impl; [exact Hcols |]. cbn. intros r Hr. rewrite Hr. fold ncv. lia.
    - rewrite Forall_forall in Hfitlen. apply Hfitlen. apply list_elem_of_In.
      eapply nth_error_In. exact Hf. }
  unfold save_gaussfits_pdf. rewrite Hfits.
  unfold bind at 1. unfold print at 1. unfold bind at 1. unfold write_file at 1.
  cbn [files stdout calls]. unfold bind at 1.
  rewrite Hm. fold ncv.
  rewrite (gaussfit_pages_run self fits (swapaxes01 (row0 :: m)) _ (files w) (seq 0 ncv) []);
    [| reflexivity | exact Hall].
  unfold bind at 1. unfold pdf_close. cbn [files]. rewrite lookup_insert_eq.
  unfold write_file, print. cbn [files stdout calls app].
  eexists. eexists. split; [reflexivity |]. cbn [files].
  rewrite insert_insert_eq. split; [apply lookup_insert_eq |].
  split; [now rewrite length_map, length_seq |].
  intros k cv fit Hcv Hf.
  assert (Hk : (k < ncv)%nat) by (apply nth_error_Some; unfold ncv; congruence).
  rewrite nth_error_map_seq by exact Hk.
  rewrite (nth_error_nth _ _ _ Hf), (nth_error_nth _ _ _ Hcv).
  unfold gaussfit_page. rewrite Hm. f_equal. f_equal.
  apply nth_error_nth. unfold swapaxes01. rewrite Hrow0. apply nth_error_map_seq. exact Hk.
Qed.

(** ** The range of files to read *)

Section FileRangeFacts.

Variable py_int : string -> option Z.

(** X17.  With a start entry a and an end entry b, 1 <= a <= b, the files
    read are those numbered a to b counting from 1, as far as the list
    goes: at most b - a + 1 files, none when a is beyond the list. *)
Theorem check_file_range_entries_range (entry_start entry_end : string)
    (analysis_file_list : list string) (a b : Z) :
  py_int entry_start = Some a -> py_int entry_end = Some b ->
  1 <= a -> a <= b ->
  check_file_range_entries py_int entry_start entry_end analysis_file_list
  = firstn (Z.to_nat (b - a + 1)) (skipn (Z.to_nat (a - 1)) analysis_file_list).
Proof.
  intros Ha Hb H1 Hab. unfold check_file_range_entries, py_slice. rewrite Ha, Hb.
  set (l := analysis_file_list). set (n := Z.of_nat (length l)).
  unfold slice_bound.
  destruct (Z.ltb_spec (a - 1) 0) as [? | _]; [lia |].
  destruct (Z.ltb_spec b 0) as [? | _]; [lia |].
  destruct (Z_lt_le_dec (a - 1) n) as [Hlt | Hge].
  - rewrite (Z.min_l (a - 1) n) by lia.
    destruct (Z_le_gt_dec b n) as [Hbn | Hbn].
    + rewrite (Z.min_l b n) by lia. f_equal. lia.
    + rewrite (Z.min_r b n) by lia.
      assert (Hlen : length (skipn (Z.to_nat (a - 1)) l) = Z.to_nat (n - (a - 1))).
      { rewrite length_skipn. unfold n. lia. }
      rewrite firstn_all2 by lia. rewrite firstn_all2 by lia. reflexivity.
  - rewrite (Z.min_r (a - 1) n) by lia.
    assert (Hnil : forall k, (length l <= k)%nat -> skipn k l = [])
      by (intros k Hk; now apply skipn_all2).
    rewrite (Hnil (Z.to_nat n)) by (unfold n; lia).
    rewrite (Hnil (Z.to_nat (a - 1))) by (unfold n in Hge; lia).
    now rewrite !firstn_nil.
Qed.

(** X18.  When neither entry holds a number, every file is read. *)
Theorem check_file_range_entries_default (entry_start entry_end : string)
    (analysis_file_list : list string) :
  py_int entry_start = None -> py_int entry_end = None ->
  check_file_range_entries py_int entry_start entry_end analysis_file_list
  = analysis_file_list.
Proof.
  intros Ha Hb. unfold check_file_range_entries, py_slice, slice_bound. rewrite Ha, Hb.
  destruct (Z.ltb_spec 0 0) as [? | _]; [lia |].
  destruct (Z.ltb_spec (Z.of_nat (length analysis_file_list)) 0) as [? | _]; [lia |].
  rewrite !Z.min_l by lia. cbn [Z.to_nat skipn].
  rewrite Z.sub_0_r, Nat2Z.id. apply firstn_all.
Qed.

(** X19.  Whatever the entries hold, the files read are one unbroken run
    of the list, in list order: no entry makes the function fail, repeat a
    file or reorder the files. *)
Theorem check_file_range_entries_run (entry_start entry_end : string)
    (analysis_file_list : list string) :
  exists before after,
    analysis_file_list
    = before ++ check_file_range_entries py_int entry_start entry_end analysis_file_list
      ++ after.
Proof.
  unfold check_file_range_entries, py_slice.
  match goal with
  | |- context [firstn ?n (skipn ?a analysis_file_list)] =>
      exists (firstn a analysis_file_list), (skipn n (skipn a analysis_file_list))
  end.
  now rewrite firstn_skipn, firstn_skipn.
Qed.

(** X20.  A start entry of 0 or below does not mean "from the first file":
    the start index becomes negative and counts from the end of the list,
    so with no end entry the last 1 - n files are read. *)
Theorem check_file_range_entries_start_below_one (entry_start entry_end : string)
    (analysis_file_list : list string) (n : Z) :
  py_int entry_start = Some n -> n <= 0 -> py_int entry_end = None ->
  check_file_range_entries py_int entry_start entry_end analysis_file_list
  = skipn (length analysis_file_list - Z.to_nat (1 - n)) analysis_file_list.
Proof.
  intros Ha Hn Hb. unfold check_file_range_entries, py_slice, slice_bound. rewrite Ha, Hb.
  set (l := analysis_file_list). set (len := Z.of_nat (length l)).
  destruct (Z.ltb_spec (n - 1) 0) as [_ | ?]; [| lia].
  destruct (Z.ltb_spec len 0) as [? | _]; [unfold len in *; lia |].
  rewrite Z.min_id.
  replace (Z.to_nat (Z.max (n - 1 + len) 0)) with (length l - Z.to_nat (1 - n))%nat
    by (unfold len; lia).
  apply firstn_all2. rewrite length_skipn. unfold len. lia.
Qed.

End FileRangeFacts.

(** ** The crop dialog *)

Section CropDialogFacts.

Variable py_float : string -> option float.

(** X21.  A click on Crop with four numbers stores them, in the order
    [dt_low, dt_high, cv_low, cv_high], and closes the window, whatever
    the numbers are (a low bound above its high bound is accepted).  A
    click with a field that is not a number returns -1, shows exactly one
    warning, and leaves the stored values and the window as they were. *)
Theorem crop_dialog_click (ui : CropUI.t) :
  (forall dt_low dt_high cv_low cv_high,
      py_float (CropUI.entry_dt_start ui) = Some dt_low ->
      py_float (CropUI.entry_dt_end ui) = Some dt_high ->
      py_float (CropUI.entry_cv_start ui) = Some cv_low ->
      py_float (CropUI.entry_cv_end ui) = Some cv_high ->
      snd (CropUI.on_button_crop_clicked py_float ui) = None /\
      CropUI.crop_vals (fst (CropUI.on_button_crop_clicked py_float ui))
      = [dt_low; dt_high; cv_low; cv_high] /\
      CropUI.window_open (fst (CropUI.on_button_crop_clicked py_float ui)) = false /\
      CropUI.warnings (fst (CropUI.on_button_crop_clicked py_float ui))
      = CropUI.warnings ui)
  /\
  (py_float (CropUI.entry_dt_start ui) = None \/
   py_float (CropUI.entry_dt_end ui) = None \/
   py_float (CropUI.entry_cv_start ui) = None \/
   py_float (CropUI.entry_cv_end ui) = None ->
   snd (CropUI.on_button_crop_clicked py_float ui) = Some (-1) /\
   CropUI.crop_vals (fst (CropUI.on_button_crop_clicked py_float ui))
   = CropUI.crop_vals ui /\
   CropUI.window_open (fst (CropUI.on_button_crop_clicked py_float ui))
   = CropUI.window_open ui /\
   exists warning,
     CropUI.warnings (fst (CropUI.on_button_crop_clicked py_float ui))
     = CropUI.warnings ui ++ [("Error", warning)]).
Proof.
  unfold CropUI.on_button_crop_clicked. split.
  - intros a b c d Ha Hb Hc Hd. rewrite Ha, Hb, Hc, Hd. repeat split.
  - intros H.
    destruct (py_float (CropUI.entry_dt_start ui));
      [| repeat split; eexists; reflexivity].
    destruct (py_float (CropUI.entry_dt_end ui));
      [| repeat split; eexists; reflexivity].
    destruct (py_float (CropUI.entry_cv_start ui));
      [| repeat split; eexists; reflexivity].
    destruct (py_float (CropUI.entry_cv_end ui));
      [| repeat split; eexists; reflexivity].
    destruct H as [H | [H | [H | H]]]; discriminate H.
Qed.

(** X22.  For a dialog that holds no values yet, [return_values] after a
    click on Crop gives the four numbers typed, and [None] when a field is
    not a number; after Cancel it gives [None]. *)
Theorem crop_dialog_return_values (ui : CropUI.t) :
  CropUI.crop_vals ui = [] ->
  CropUI.return_values (fst (CropUI.on_button_crop_clicked py_float ui))
  = match py_float (CropUI.entry_dt_start ui), py_float (CropUI.entry_dt_end ui),
          py_float (CropUI.entry_cv_start ui), py_float (CropUI.entry_cv_end ui) with
    | Some dt_low, Some dt_high, Some cv_low, Some cv_high =>
        Some [dt_low; dt_high; cv_low; cv_high]
    | _, _, _, _ => None
    end
  /\ CropUI.return_values (CropUI.on_button_cancel_clicked ui) = None.
Proof.
  intros Hempty. unfold CropUI.on_button_crop_clicked, CropUI.return_values. split.
  - destruct (py_float (CropUI.entry_dt_start ui));
      [| cbn; now rewrite Hempty].
    destruct (py_float (CropUI.entry_dt_end ui));
      [| cbn; now rewrite Hempty].
    destruct (py_float (CropUI.entry_cv_start ui));
      [| cbn; now rewrite Hempty].
    destruct (py_float (CropUI.entry_cv_end ui));
      [| cbn; now rewrite Hempty].
    reflexivity.
  - cbn. now rewrite Hempty.
Qed.

End CropDialogFacts.

(** ** The further properties on concrete inputs *)

Lemma save_analysis_obj_collision_witness :
  filename (raw_obj data_obj) = ("dat" ++ "a" ++ "_raw.csv")%string /\
  filename (raw_obj dat_obj) = ("dat" ++ "" ++ "_raw.csv")%string /\
  made_of raw_suffix_chars "a" = true /\
  made_of raw_suffix_chars "" = true /\
  exists w1 w2 o1' o2' picklefile,
    save_analysis_obj data_obj "" (Some "/out") empty_world = (w1, Ok (o1', picklefile)) /\
    save_analysis_obj dat_obj "" (Some "/out") w1 = (w2, Ok (o2', picklefile)) /\
    load_analysis_obj picklefile w2 = Loaded o2'.
Proof.
  assert (H1 : filename (raw_obj data_obj) = ("dat" ++ "a" ++ "_raw.csv")%string)
    by reflexivity.
  assert (H2 : filename (raw_obj dat_obj) = ("dat" ++ "" ++ "_raw.csv")%string)
    by reflexivity.
  assert (H3 : made_of raw_suffix_chars "a" = true) by reflexivity.
  assert (H4 : made_of raw_suffix_chars "" = true) by reflexivity.
  repeat (split; [assumption |]).
  exact (save_analysis_obj_collision data_obj dat_obj "dat" "a" "" "" "/out" empty_world
           H1 H2 H3 H4).
Defined.

Lemma smoothing_skipped_without_iterations_witness :
  0 <= 0 /\
  smooth_while sample_smooth 5 0 3 0 sample_normalized empty_world
  = (empty_world, Ok sample_normalized).
Proof.
  assert (H : 0 <= 0) by lia.
  split; [exact H |].
  exact (smoothing_skipped_without_iterations sample_smooth 5 0 3 sample_normalized
           empty_world H).
Defined.

Lemma smoothing_iterations_add_witness :
  0 <= 1 /\ 0 <= 2 /\
  smooth_while sample_smooth (Z.to_nat (1 + 2)) (1 + 2) 3 0 sample_normalized empty_world
  = bind (smooth_while sample_smooth (Z.to_nat 1) 1 3 0 sample_normalized)
         (fun smoothed => smooth_while sample_smooth (Z.to_nat 2) 2 3 0 smoothed)
         empty_world.
Proof.
  assert (H1 : 0 <= 1) by lia. assert (H2 : 0 <= 2) by lia.
  split; [exact H1 |]. split; [exact H2 |].
  exact (smoothing_iterations_add sample_smooth 1 2 3 sample_normalized empty_world H1 H2).
Defined.

Lemma smoothing_stops_at_first_failure_witness :
  Z.of_nat 1 < 4 /\
  smooth_passes shrinking_smooth 1 3 sample_normalized = Ok (tl sample_normalized) /\
  shrinking_smooth (tl sample_normalized) 3 = Raise ConfigurationError /\
  snd (smooth_while shrinking_smooth (Z.to_nat 4) 4 3 0 sample_normalized empty_world)
  = Raise ConfigurationError /\
  exists made,
    fst (smooth_while shrinking_smooth (Z.to_nat 4) 4 3 0 sample_normalized empty_world)
    = with_calls empty_world made /\
    length made = 2%nat /\
    made !! 1%nat = Some (CallSmooth (tl sample_normalized) 3).
Proof.
  assert (H1 : Z.of_nat 1 < 4) by (cbn; lia).
  assert (H2 : smooth_passes shrinking_smooth 1 3 sample_normalized
               = Ok (tl sample_normalized)) by reflexivity.
  assert (H3 : shrinking_smooth (tl sample_normalized) 3 = Raise ConfigurationError)
    by reflexivity.
  split; [exact H1 |]. split; [exact H2 |]. split; [exact H3 |].
  exact (smoothing_stops_at_first_failure shrinking_smooth 4 3 sample_normalized
           (tl sample_normalized) 1 ConfigurationError empty_world H1 H2 H3).
Defined.

Lemma process_raw_obj_result_witness :
  sample_pipeline sample_raw sample_params empty_world
  = (fst (sample_pipeline sample_raw sample_params empty_world),
     Ok (set_params (fresh_obj sample_raw sample_cropped sample_cropped_axes)
                    (Some sample_params))) /\
  raw_obj (set_params (fresh_obj sample_raw sample_cropped sample_cropped_axes)
                      (Some sample_params)) = sample_raw /\
  params (set_params (fresh_obj sample_raw sample_cropped sample_cropped_axes)
                     (Some sample_params)) = Some sample_params /\
  gauss_fits (set_params (fresh_obj sample_raw sample_cropped sample_cropped_axes)
                         (Some sample_params)) = None.
Proof.
  assert (H : sample_pipeline sample_raw sample_params empty_world
              = (fst (sample_pipeline sample_raw sample_params empty_world),
                 Ok (set_params (fresh_obj sample_raw sample_cropped sample_cropped_axes)
                                (Some sample_params))))
    by (vm_compute; reflexivity).
  split; [exact H |].
  pose proof (process_raw_obj_result spec_normalize_by_col (spec_interpolate_cv keep_resample)
                sample_smooth spec_crop sample_raw sample_params empty_world _ _ H)
    as (Hraw & Hparams & _ & Hfits & _).
  split; [exact Hraw |]. split; [exact Hparams | exact Hfits].
Defined.

Lemma new_CIUAnalysisObj_outcome_witness :
  Forall (fun rec => (4 <= length rec)%nat) sample_gauss_params /\
  exists o,
    new_CIUAnalysisObj sample_raw sample_normalized (dt_axis sample_raw, cv_axis sample_raw)
      (Some sample_gauss_params) = Ok o /\
    gauss_params o = Some sample_gauss_params /\ ciu_data o = sample_normalized /\
    axes o = (dt_axis sample_raw, cv_axis sample_raw) /\ raw_obj o = sample_raw.
Proof.
  assert (H : Forall (fun rec => (4 <= length rec)%nat) sample_gauss_params)
    by (repeat constructor).
  split; [exact H |].
  exact (proj1 (new_CIUAnalysisObj_outcome sample_raw sample_normalized
                  (dt_axis sample_raw, cv_axis sample_raw) sample_gauss_params) H).
Defined.

Lemma save_gaussfits_pdf_pages_witness :
  gauss_fits sample_fitted = Some [[f0_5; f1; f0_5]; [f0_5; f1; f0_5]] /\
  matrix_fits_axes (ciu_data sample_fitted) (axes sample_fitted) /\
  fst (axes sample_fitted) <> [] /\
  exists w' pages,
    save_gaussfits_pdf sample_fitted "/out" empty_world = (w', Ok tt) /\
    files w' !! gaussfit_pdf_path sample_fitted "/out" = Some (PdfFile pages true) /\
    length pages = length (snd (axes sample_fitted)) /\
    forall k cv fit,
      nth_error (snd (axes sample_fitted)) k = Some cv ->
      nth_error [[f0_5; f1; f0_5]; [f0_5; f1; f0_5]] k = Some fit ->
      nth_error pages k = Some (gaussfit_page sample_fitted k cv fit).
Proof.
  assert (H1 : gauss_fits sample_fitted = Some [[f0_5; f1; f0_5]; [f0_5; f1; f0_5]])
    by reflexivity.
  assert (H2 : matrix_fits_axes (ciu_data sample_fitted) (axes sample_fitted))
    by (split; [reflexivity | repeat constructor]).
  assert (H3 : fst (axes sample_fitted) <> []) by discriminate.
  assert (H4 : length [[f0_5; f1; f0_5]; [f0_5; f1; f0_5]]
               = length (snd (axes sample_fitted))) by reflexivity.
  assert (H5 : Forall (fun fit => length fit = length (fst (axes sample_fitted)))
                      [[f0_5; f1; f0_5]; [f0_5; f1; f0_5]])
    by (repeat constructor).
  repeat (split; [assumption |]).
  exact (save_gaussfits_pdf_pages sample_fitted [[f0_5; f1; f0_5]; [f0_5; f1; f0_5]]
           "/out" empty_world H1 H2 H3 H4 H5).
Defined.

Lemma check_file_range_entries_range_witness :
  decimal_int "2" = Some 2 /\ decimal_int "4" = Some 4 /\ 1 <= 2 /\ 2 <= 4 /\
  check_file_range_entries decimal_int "2" "4" five_files
  = firstn (Z.to_nat (4 - 2 + 1)) (skipn (Z.to_nat (2 - 1)) five_files).
Proof.
  assert (H1 : decimal_int "2" = Some 2) by reflexivity.
  assert (H2 : decimal_int "4" = Some 4) by reflexivity.
  assert (H3 : 1 <= 2) by lia. assert (H4 : 2 <= 4) by lia.
  repeat (split; [assumption |]).
  exact (check_file_range_entries_range decimal_int "2" "4" five_files 2 4 H1 H2 H3 H4).
Defined.

Example check_file_range_entries_two_to_four :
  check_file_range_entries decimal_int "2" "4" five_files
  = ["/out/b.ciu"; "/out/c.ciu"; "/out/d.ciu"].
Proof. reflexivity. Qed.

Lemma check_file_range_entries_default_witness :
  decimal_int "" = None /\ decimal_int "all" = None /\
  check_file_range_entries decimal_int "" "all" five_files = five_files.
Proof.
  assert (H1 : decimal_int "" = None) by reflexivity.
  assert (H2 : decimal_int "all" = None) by reflexivity.
  repeat (split; [assumption |]).
  exact (check_file_range_entries_default decimal_int "" "all" five_files H1 H2).
Defined.

Lemma check_file_range_entries_start_below_one_witness :
  decimal_int "0" = Some 0 /\ 0 <= 0 /\ decimal_int "" = None /\
  check_file_range_entries decimal_int "0" "" five_files
  = skipn (length five_files - Z.to_nat (1 - 0)) five_files.
Proof.
  assert (H1 : decimal_int "0" = Some 0) by reflexivity.
  assert (H2 : 0 <= 0) by lia.
  assert (H3 : decimal_int "" = None) by reflexivity.
  repeat (split; [assumption |]).
  exact (check_file_range_entries_start_below_one decimal_int "0" "" five_files 0
           H1 H2 H3).
Defined.

Example check_file_range_entries_start_zero :
  check_file_range_entries decimal_int "0" "" five_files = ["/out/e.ciu"].
Proof. reflexivity. Qed.

Lemma crop_dialog_click_witness :
  (decimal_float "2" = Some f2 /\ decimal_float "3" = Some f3 /\
   decimal_float "5" = Some f5 /\ decimal_float "10" = Some f10 /\
   CropUI.crop_vals (fst (CropUI.on_button_crop_clicked decimal_float crop_dialog_filled))
   = [f2; f3; f5; f10])
  /\
  (decimal_float "end" = None /\
   snd (CropUI.on_button_crop_clicked decimal_float crop_dialog_mistyped) = Some (-1)).
Proof.
  assert (H2 : decimal_float "2" = Some f2) by (vm_compute; reflexivity).
  assert (H3 : decimal_float "3" = Some f3) by (vm_compute; reflexivity).
  assert (H5 : decimal_float "5" = Some f5) by (vm_compute; reflexivity).
  assert (H10 : decimal_float "10" = Some f10) by (vm_compute; reflexivity).
  assert (He : decimal_float "end" = None) by reflexivity.
  split.
  - repeat (split; [assumption |]).
    exact (proj1 (proj2 (proj1 (crop_dialog_click decimal_float crop_dialog_filled)
                           f2 f3 f5 f10 H2 H3 H5 H10))).
  - split; [exact He |].
    exact (proj1 (proj2 (crop_dialog_click decimal_float crop_dialog_mistyped)
                    (or_intror (or_introl He)))).
Defined.

Lemma crop_dialog_return_values_witness :
  CropUI.crop_vals crop_dialog_filled = [] /\
  CropUI.return_values (fst (CropUI.on_button_crop_clicked decimal_float crop_dialog_filled))
  = Some [f2; f3; f5; f10].
Proof.
  assert (H : CropUI.crop_vals crop_dialog_filled = []) by reflexivity.
  split; [exact H |].
  pose proof (proj1 (crop_dialog_return_values decimal_float crop_dialog_filled H)) as Hr.
  rewrite Hr. vm_compute. reflexivity.
Defined.

(** The loop stops at the first collision voltage that has no fitted
    curve, with the pages made so far in a PDF that stays open. *)
Lemma gaussfit_pages_missing_fit (self : CIUAnalysisObj) (fits intarray : list (list float))
    (path : string) (F : gmap string file_content) (k : nat) (rest : list nat)
    (y : list float) :
  nth_error intarray k = Some y ->
  length y = length (fst (axes self)) ->
  nth_error fits k = None ->
  forall (ks : list nat) (pages : list pdf_page) (w : world),
    files w = <[path := PdfFile pages false]> F ->
    Forall (fun k =>
              exists y fit cv,
                nth_error intarray k = Some y /\
                length y = length (fst (axes self)) /\
                nth_error fits k = Some fit /\
                length fit = length (fst (axes self)) /\
                nth_error (snd (axes self)) k = Some cv) ks ->
    exists pages',
      gaussfit_pages self fits intarray path (ks ++ k :: rest) w =
        ({| files := <[path := PdfFile pages' false]> F;
            stdout := stdout w; calls := calls w |}, Raise IndexError) /\
      length pages' = (length pages + length ks)%nat.
Proof.
  intros Hy Ly Hf.
  induction ks as [| k0 ks IH]; intros pages w Hfiles Hall.
  - exists pages. cbn [app gaussfit_pages]. split; [| cbn; lia].
    unfold bind at 1. unfold lift at 1, getitem at 1. rewrite Hy.
    unfold bind at 1. rewrite Ly, Nat.eqb_refl. unfold ret at 1.
    unfold bind at 1. unfold lift at 1, getitem at 1. rewrite Hf.
    rewrite <- Hfiles. destruct w; reflexivity.
  - inversion Hall as [| ? ? (y0 & fit & cv & Hy0 & Ly0 & Hf0 & Lf0 & Hcv) Hrest]; subst.
    destruct (IH (pages ++ [{| scatter_x := fst (axes self); scatter_y := y0;
                               plot_x := fst (axes self); plot_y := fit; title := cv |}])
                 {| files := <[path := PdfFile
                                 (pages ++ [{| scatter_x := fst (axes self);
                                               scatter_y := y0;
                                               plot_x := fst (axes self);
                                               plot_y := fit; title := cv |}]) false]> F;
                    stdout := stdout w; calls := calls w |}
                 eq_refl Hrest) as (pages' & Hrun & Hlen).
    exists pages'. split.
    + cbn [app gaussfit_pages]. unfold bind at 1. unfold lift at 1, getitem at 1.
      rewrite Hy0.
      unfold bind at 1. rewrite Ly0, Nat.eqb_refl. unfold ret at 1.
      unfold bind at 1. unfold lift at 1, getitem at 1. rewrite Hf0.
      unfold bind at 1. rewrite Lf0, Nat.eqb_refl. unfold ret at 1.
      unfold bind at 1. unfold lift at 1, getitem at 1. rewrite Hcv.
      unfold bind at 1. unfold pdf_savefig. rewrite Hfiles, lookup_insert_eq.
      unfold write_file. cbn [files stdout calls].
      rewrite Hfiles, insert_insert_eq. exact Hrun.
    + rewrite Hlen, length_app. cbn. lia.
Qed.

(** X23.  When the fit holds fewer curves than there are collision
    voltages, [save_gaussfits_pdf] does not return: it announces the
    export and raises [IndexError] at the first voltage without a curve,
    so the closing line is never printed. *)
Theorem save_gaussfits_pdf_too_few_fits (self : CIUAnalysisObj) (fits : list (list float))
    (outputpath : string) (w : world) :
  gauss_fits self = Some fits ->
  matrix_fits_axes (ciu_data self) (axes self) ->
  fst (axes self) <> [] ->
  (length fits < length (snd (axes self)))%nat ->
  Forall (fun fit => length fit = length (fst (axes self))) fits ->
  exists w',
    save_gaussfits_pdf self outputpath w = (w', Raise IndexError) /\
    stdout w'
    = stdout w ++ [("Saving Gausfitdata_" ++ filename (raw_obj self) ++ "_.pdf .....")%string].
Proof.
  intros Hfits [Hrows Hcols] Hdt Hlen Hfitlen.
  destruct (ciu_data self) as [| row0 m] eqn:Hm.
  { cbn in Hrows. destruct (fst (axes self)); [now elim Hdt | discriminate]. }
  assert (Hrow0 : length row0 = length (snd (axes self))) by now inversion Hcols.
  set (ncv := length (snd (axes self))) in *.
  set (j := length fits) in *.
  assert (Hcol : forall k, (k < ncv)%nat ->
            nth_error (swapaxes01 (row0 :: m)) k = Some (column (row0 :: m) k) /\
            length (column (row0 :: m) k) = length (fst (axes self))).
  { intros k Hk. split.
    - unfold swapaxes01. rewrite Hrow0. apply nth_error_map_seq. exact Hk.
    - rewrite length_column, <- Hrows; [reflexivity |].
      eapply Forall_impl; [exact Hcols |]. cbn. intros r Hr. rewrite Hr. fold ncv. lia. }
  assert (Hall : Forall (fun k =>
              exists y fit cv,
                nth_error (swapaxes01 (row0 :: m)) k = Some y /\
                length y = length (fst (axes self)) /\
                nth_error fits k = Some fit /\
                length fit = length (fst (axes self)) /\
                nth_error (snd (axes self)) k = Some cv) (seq 0 j)).
  { apply Forall_forall. intros k Hk. apply list_elem_of_In, in_seq in Hk.
    destruct (nth_error fits k) as [fit |] eqn:Hf;
      [| apply nth_error_None in Hf; fold j in Hf; lia].
    destruct (nth_error (snd (axes self)) k) as [cv |] eqn:Hcv;
      [| apply nth_error_None in Hcv; fold ncv in Hcv; lia].
    destruct (Hcol k ltac:(lia)) as [Hy Ly].
    exists (column (row0 :: m) k), fit, cv. repeat split; auto.
    rewrite Forall_forall in Hfitlen. apply Hfitlen. apply list_elem_of_In.
    eapply nth_error_In. exact Hf. }
  assert (Hseq : seq 0 ncv = seq 0 j ++ j :: seq (S j) (ncv - S j)).
  { replace ncv with (j + S (ncv - S j))%nat at 1 by lia.
    rewrite seq_app. cbn [seq Nat.add]. reflexivity. }
  destruct (Hcol j Hlen) as [Hyj Lyj].
  assert (Hfj : nth_error fits j = None) by (apply nth_error_None; unfold j; lia).
  unfold save_gaussfits_pdf. rewrite Hfits.
  unfold bind at 1. unfold print at 1. unfold bind at 1. unfold write_file at 1.
  cbn [files stdout calls]. unfold bind at 1.
  rewrite Hm. fold ncv. rewrite Hseq.
  match goal with
  | |- context [gaussfit_pages self fits ?ia ?path (seq 0 j ++ j :: ?rest) ?w0] =>
      destruct (gaussfit_pages_missing_fit self fits ia path (files w) j rest _
                  Hyj Lyj Hfj (seq 0 j) [] w0 eq_refl Hall) as (pages' & Hrun & Hlen')
  end.
  rewrite Hrun. eexists. split; [reflexivity |].
  cbn [stdout]. do 2 f_equal.
  change ("Saving Gausfitdata_" ++ filename (raw_obj self) ++ "_.pdf .....")%string
    with ("Saving " ++ "Gausfitdata_" ++ filename (raw_obj self) ++ "_.pdf" ++ " .....")%string.
  now rewrite !string_app_assoc.
Qed.

Lemma save_gaussfits_pdf_too_few_fits_witness :
  gauss_fits (set_gauss_fits_one sample_fitted) = Some [[f0_5; f1; f0_5]] /\
  exists w',
    save_gaussfits_pdf (set_gauss_fits_one sample_fitted) "/out" empty_world
    = (w', Raise IndexError) /\
    stdout w'
    = stdout empty_world
      ++ [("Saving Gausfitdata_" ++ filename (raw_obj (set_gauss_fits_one sample_fitted))
           ++ "_.pdf .....")%string].
Proof.
  assert (H1 : gauss_fits (set_gauss_fits_one sample_fitted) = Some [[f0_5; f1; f0_5]])
    by reflexivity.
  assert (H2 : matrix_fits_axes (ciu_data (set_gauss_fits_one sample_fitted))
                                (axes (set_gauss_fits_one sample_fitted)))
    by (split; [reflexivity | repeat constructor]).
  assert (H3 : fst (axes (set_gauss_fits_one sample_fitted)) <> []) by discriminate.
  assert (H4 : (length [[f0_5; f1; f0_5]]
                < length (snd (axes (set_gauss_fits_one sample_fitted))))%nat)
    by (cbn; lia).
  assert (H5 : Forall (fun fit => length fit
                                  = length (fst (axes (set_gauss_fits_one sample_fitted))))
                      [[f0_5; f1; f0_5]])
    by (repeat constructor).
  split; [exact H1 |].
  exact (save_gaussfits_pdf_too_few_fits (set_gauss_fits_one sample_fitted)
           [[f0_5; f1; f0_5]] "/out" empty_world H1 H2 H3 H4 H5).
Defined.
